(** * Purser hardware wallets: the signing and verification static methods

    A shallow embedding of

      - [src/purser-trezor/staticMethods.ts]  (module [Trezor]),
      - [src/purser-ledger/staticMethods.ts]  (module [Ledger]),
      - the earlier Flow variant of the Ledger [signTransaction]
        (module [LedgerFlow]),

    together with the parts of the JavaScript runtime they rely on
    (strings, [Buffer], [Object.assign], exceptions) and a model of the
    [ethereumjs-tx] transaction object they drive: its nine fields, the
    checks that its constructor and its setters make, and the RLP
    serialization.

    The validators, helpers, messages, defaults and payload templates that
    the three files import from [purser-core] and from the wallets' own
    [helpers], [messages], [defaults] and [payloads] modules are gathered
    in the records [Messages], [Core], [Trezor.Service] and
    [LedgerService].  Every method takes them as arguments, and the
    theorems hold for all of them; [Reference] gives one instance, for the
    examples.  The two hex normalizers and the address normalizer are
    modelled from the specification's HexCodec; they are total, the
    rejection of what is not hexadecimal being the validators' part.

    A method is a computation in [M]: the list of the warnings it logged
    and of the requests it sent to the device, and a completion, which is
    a returned value or a thrown [Error]. *)

From Stdlib Require Import String Ascii List Arith NArith Bool Lia.
From Stdlib Require Import HexadecimalString DecimalString HexadecimalN.
From Stdlib Require Import Strings.Byte.
Import ListNotations.
Local Open Scope string_scope.

(* ================================================================== *)
(** * The JavaScript runtime *)
(* ================================================================== *)

(** ** Errors and completions *)

(** A JavaScript [Error]: its [message], and the [id] that the errors of
    the U2F transport carry next to it. *)
Record Error := mkError { message : string; id : option string }.

(** [new Error(message)] *)
Definition new_Error (msg : string) : Error := mkError msg None.

(** How the evaluation of an expression ends: with a value, or with a
    thrown error. *)
Inductive completion (A : Type) : Type :=
| Return (a : A)
| Throw (e : Error).
Arguments Return {A} a.
Arguments Throw {A} e.

(** One evaluation after another: the first error thrown ends them. *)
Definition andThen {A B} (c : completion A) (k : A -> completion B)
    : completion B :=
  match c with
  | Return a => k a
  | Throw e => Throw e
  end.

Declare Scope completion_scope.
Delimit Scope completion_scope with completion.
Notation "x <- c ;; k" := (andThen c (fun x => k))
  (at level 61, c at next level, right associativity) : completion_scope.
Notation "c ;; k" := (andThen c (fun _ => k))
  (at level 61, right associativity) : completion_scope.

(** ** Values and objects *)

(** The values found in the payloads and in the objects that get dumped
    into error messages. *)
Inductive jsval :=
| JUndefined
| JBool (b : bool)
| JNum (n : N)
| JStr (s : string)
| JArr (l : list N).

(** An object: its own enumerable properties in insertion order. *)
Definition jsobj := list (string * jsval).

Fixpoint get (o : jsobj) (key : string) : option jsval :=
  match o with
  | [] => None
  | (k, v) :: rest => if String.eqb k key then Some v else get rest key
  end.

(** [o[key] = v]: an existing property keeps its place, a new one goes
    last. *)
Fixpoint set (o : jsobj) (key : string) (v : jsval) : jsobj :=
  match o with
  | [] => [(key, v)]
  | (k, w) :: rest =>
      if String.eqb k key then (k, v) :: rest else (k, w) :: set rest key v
  end.

Definition assign1 (target source : jsobj) : jsobj :=
  fold_left (fun acc kv => set acc (fst kv) (snd kv)) source target.

(** [Object.assign(target, ...sources)] *)
Definition Object_assign (target : jsobj) (sources : list jsobj) : jsobj :=
  fold_left assign1 sources target.

(** A string used as a condition: [undefined] and [''] are falsy. *)
Definition truthy (x : option string) : bool :=
  match x with
  | None => false
  | Some s => negb (String.eqb s "")
  end.

(** An argument as a caller may pass it, for the functions that inspect it
    with [=== null] and [typeof] before destructuring it. *)
Inductive jsarg (A : Type) : Type :=
| ArgUndefined
| ArgNull
| ArgBoolean (b : bool)
| ArgNumber (n : N)
| ArgString (s : string)
| ArgObject (o : A).
Arguments ArgUndefined {A}.
Arguments ArgNull {A}.
Arguments ArgBoolean {A} b.
Arguments ArgNumber {A} n.
Arguments ArgString {A} s.
Arguments ArgObject {A} o.

(** [typeof x]; [typeof null] is ['object']. *)
Definition typeof {A} (x : jsarg A) : string :=
  match x with
  | ArgUndefined => "undefined"
  | ArgNull => "object"
  | ArgBoolean _ => "boolean"
  | ArgNumber _ => "number"
  | ArgString _ => "string"
  | ArgObject _ => "object"
  end.

Definition is_null {A} (x : jsarg A) : bool :=
  match x with ArgNull => true | _ => false end.

(** ** Numbers and strings *)

(** [n.toString(16)] for a non-negative integer, a [Number] or a big
    number alike: lowercase digits, no padding, ["0"] for zero. *)
Definition Number_toString16 (n : N) : string :=
  HexadecimalString.NilZero.string_of_uint (N.to_hex_uint n).

(** [String(n)] for a non-negative integer. *)
Definition String_of_number (n : N) : string :=
  DecimalString.NilZero.string_of_uint (N.to_uint n).

(** A numeric request field: the type declarations give a [string], the
    documentation of the functions a big number. *)
Inductive numeric :=
| NumStr (s : string)
| NumBig (n : N).
Coercion NumStr : string >-> numeric.

(** [x.toString(16)]: [String.prototype.toString] ignores its argument. *)
Definition toString16 (x : numeric) : string :=
  match x with
  | NumStr s => s
  | NumBig n => Number_toString16 n
  end.

(** ** Hexadecimal digits and buffers *)

Definition hexDigitValue (c : ascii) : option N :=
  let n := N_of_ascii c in
  if ((48 <=? n) && (n <=? 57))%N then Some (n - 48)%N
  else if ((97 <=? n) && (n <=? 102))%N then Some (n - 87)%N
  else if ((65 <=? n) && (n <=? 70))%N then Some (n - 55)%N
  else None.

Definition isHexDigit (c : ascii) : bool :=
  match hexDigitValue c with Some _ => true | None => false end.

Definition hexDigit (n : N) : ascii :=
  ascii_of_N (if (n <? 10)%N then 48 + n else 87 + n).

Fixpoint allHex (s : string) : bool :=
  match s with
  | EmptyString => true
  | String c rest => isHexDigit c && allHex rest
  end.

(** The number that a string of hexadecimal digits writes, read from the
    left onto [acc]. *)
Fixpoint hexValue_from (acc : N) (s : string) : N :=
  match s with
  | EmptyString => acc
  | String c rest =>
      match hexDigitValue c with
      | Some d => hexValue_from (16 * acc + d) rest
      | None => acc
      end
  end.

Definition hexValue (s : string) : N := hexValue_from 0 s.

(** A Node [Buffer]. *)
Definition Buffer := list byte.

Definition byte_of_N (n : N) : byte := byte_of_ascii (ascii_of_N n).

(** [buffer.toString('hex')]: two lowercase digits per byte. *)
Fixpoint Buffer_toString_hex (b : Buffer) : string :=
  match b with
  | [] => ""
  | x :: rest =>
      String (hexDigit (Byte.to_N x / 16))
        (String (hexDigit (Byte.to_N x mod 16)) (Buffer_toString_hex rest))
  end.

(** [Buffer.from(s, 'hex')]: decodes pairs of hexadecimal digits and stops
    at the first pair that is not one; the data after it is dropped
    (Node: "data truncated when first non-hexadecimal value
    encountered"). *)
Fixpoint Buffer_from_hex (s : string) : Buffer :=
  match s with
  | String c1 (String c2 rest) =>
      match hexDigitValue c1, hexDigitValue c2 with
      | Some hi, Some lo => byte_of_N (16 * hi + lo) :: Buffer_from_hex rest
      | _, _ => []
      end
  | _ => []
  end.

(** [Buffer.from(s)]: the bytes of the string. *)
Definition Buffer_from_string (s : string) : Buffer :=
  map byte_of_ascii (list_ascii_of_string s).

(** What [Buffer.from(toSign)] receives: a string or an array of bytes. *)
Inductive bufferSource :=
| SrcString (s : string)
| SrcBytes (b : Buffer).

Definition Buffer_from (x : bufferSource) : Buffer :=
  match x with
  | SrcString s => Buffer_from_string s
  | SrcBytes b => b
  end.

(** [x.toString()] for the same: a byte array prints its elements
    separated by commas. *)
Definition bufferSource_toString (x : bufferSource) : string :=
  match x with
  | SrcString s => s
  | SrcBytes b =>
      String.concat "," (map (fun y => String_of_number (Byte.to_N y)) b)
  end.

(** The encoding named by [HEX_HASH_TYPE] is ['hex']; the two uses of the
    constant are [Buffer_toString_hex] and [Buffer_from_hex]. *)

(** ** Effects: warnings and conversations with the device *)

(** What a call does besides computing: the warnings it logs and the
    requests it sends to the signing backend, in order. *)
Inductive event :=
| Warned (msg : string)
| TrezorPayload (payload : jsobj)
| LedgerConnection
| LedgerSignTransaction (path unsignedTransactionHash : string)
| LedgerSignPersonalMessage (path messageHash : string).

(** A computation: the events it produced and how it ended. *)
Definition M (A : Type) : Type := (list event * completion A)%type.

Definition ret {A} (a : A) : M A := ([], Return a).

Definition throw {A} (e : Error) : M A := ([], Throw e).

Definition bind {A B} (m : M A) (k : A -> M B) : M B :=
  match m with
  | (t, Return a) => let (t', r) := k a in ((t ++ t')%list, r)
  | (t, Throw e) => (t, Throw e)
  end.

(** [try { body } catch (caughtError) { handler }] *)
Definition try_catch {A} (body : M A) (handler : Error -> M A) : M A :=
  match body with
  | (t, Throw e) => let (t', r) := handler e in ((t ++ t')%list, r)
  | (t, Return a) => (t, Return a)
  end.

(** A pure helper that may throw. *)
Definition lift {A} (c : completion A) : M A := ([], c).

(** [await] a request to the backend: the request is recorded, the answer
    is the backend's. *)
Definition await {A} (request : event) (answer : completion A) : M A :=
  ([request], answer).

(** [warning(msg)] *)
Definition warning (msg : string) : M unit := ([Warned msg], Return tt).

Declare Scope js_scope.
Delimit Scope js_scope with js.
Notation "x <- m ;; k" := (bind m (fun x => k))
  (at level 61, m at next level, right associativity) : js_scope.
Notation "m ;; k" := (bind m (fun _ => k))
  (at level 61, right associativity) : js_scope.

Definition events {A} (m : M A) : list event := fst m.
Definition outcome {A} (m : M A) : completion A := snd m.

(* ================================================================== *)
(** * purser-core: the hex codec *)
(* ================================================================== *)

Definition hasPrefix (s : string) : bool :=
  match s with
  | String c1 (String c2 _) => Ascii.eqb c1 "0" && Ascii.eqb c2 "x"
  | _ => false
  end.

(** Modelled from the spec: [stripPrefix] of the HexCodec, which removes
    the [0x] of a hex string ([purser-core/normalizers] is not among the
    sources). *)
Definition stripPrefix (s : string) : string :=
  match s with
  | String c1 (String c2 rest) =>
      if Ascii.eqb c1 "0" && Ascii.eqb c2 "x" then rest else s
  | _ => s
  end.

(** Modelled from the spec: [withPrefix] of the HexCodec, which adds the
    [0x]; the callers use it to "ensure" the prefix, so a sequence that has
    it keeps it. *)
Definition withPrefix (s : string) : string := "0x" ++ stripPrefix s.

(** Modelled from the spec: [hexSequenceNormalizer(hexString, prefix = true)]
    of [purser-core/normalizers], the HexCodec's [withPrefix] and, called
    with [false], its [stripPrefix]. *)
Definition hexSequenceNormalizer (hexString : string) (prefix : bool) : string :=
  if prefix then withPrefix hexString else stripPrefix hexString.

(** Modelled from the spec: [addressNormalizer(address, prefix = true)] of
    [purser-core/normalizers]; the payload wants the address as unprefixed
    hex, the transaction object with the prefix. *)
Definition addressNormalizer (address : string) (prefix : bool) : string :=
  if prefix then withPrefix address else stripPrefix address.

Definition padToEven (s : string) : string :=
  if Nat.even (String.length s) then s else String "0" s.

(** Modelled from the spec: [multipleOfTwoHexValueNormalizer] of
    [purser-core/normalizers], the HexCodec's [toEvenHex]: an integer or a
    hex string becomes a hex string with an even number of digits, a zero
    nibble in front if there were an odd number, no prefix (['3'] becomes
    ['03'], ['12c'] becomes ['012c']). *)
Definition multipleOfTwoHexValueNormalizer (hexValue : numeric) : string :=
  padToEven (toString16 hexValue).


(* ================================================================== *)
(** * ethereumjs-tx: the transaction object *)
(* ================================================================== *)

(** ** RLP *)

Fixpoint bigEndian_loop (fuel : nat) (n : N) (acc : Buffer) : Buffer :=
  match fuel with
  | O => acc
  | S fuel' =>
      if (n =? 0)%N then acc
      else bigEndian_loop fuel' (n / 256)%N (byte_of_N (n mod 256) :: acc)
  end.

(** The big-endian bytes of a number, none for zero. *)
Definition bigEndian (n : N) : Buffer := bigEndian_loop (N.to_nat (N.size n)) n [].

Definition bufferToInt (b : Buffer) : N :=
  fold_left (fun acc x => (256 * acc + Byte.to_N x)%N) b 0%N.

Definition blen (b : Buffer) : N := N.of_nat (List.length b).

Definition rlp_length (len offset : N) : Buffer :=
  if (len <? 56)%N then [byte_of_N (len + offset)]
  else
    let digits := bigEndian len in
    byte_of_N (blen digits + offset + 55) :: digits.

Definition rlp_encode_bytes (b : Buffer) : Buffer :=
  match b with
  | [x] => if (Byte.to_N x <? 128)%N then [x] else (rlp_length 1 128 ++ b)%list
  | _ => (rlp_length (blen b) 128 ++ b)%list
  end.

(** The encoding of a list of byte strings. *)
Definition rlp_encode (items : list Buffer) : Buffer :=
  let payload := List.concat (map rlp_encode_bytes items) in
  (rlp_length (blen payload) 192 ++ payload)%list.

Definition take (n : N) (b : Buffer) : option (Buffer * Buffer) :=
  if (n <=? blen b)%N
  then Some (firstn (N.to_nat n) b, skipn (N.to_nat n) b)
  else None.

(** Reads one byte string off the front of an encoding. *)
Definition rlp_decode_bytes (b : Buffer) : option (Buffer * Buffer) :=
  match b with
  | [] => None
  | x :: rest =>
      let n := Byte.to_N x in
      if (n <? 128)%N then Some ([x], rest)
      else if (n <? 184)%N then take (n - 128) rest
      else if (n <? 192)%N then
        match take (n - 183) rest with
        | Some (digits, rest') => take (bufferToInt digits) rest'
        | None => None
        end
      else None
  end.

Fixpoint rlp_decode_items (fuel : nat) (b : Buffer) : option (list Buffer) :=
  match fuel with
  | O => match b with [] => Some [] | _ => None end
  | S fuel' =>
      match b with
      | [] => Some []
      | _ =>
          match rlp_decode_bytes b with
          | Some (item, rest) =>
              match rlp_decode_items fuel' rest with
              | Some items => Some (item :: items)
              | None => None
              end
          | None => None
          end
      end
  end.

(** Decodes the encoding of a list of byte strings. *)
Definition rlp_decode (b : Buffer) : option (list Buffer) :=
  match b with
  | [] => None
  | x :: rest =>
      let n := Byte.to_N x in
      if (n <? 192)%N then None
      else if (n <? 248)%N then
        match take (n - 192) rest with
        | Some (payload, []) => rlp_decode_items (List.length payload) payload
        | _ => None
        end
      else
        match take (n - 247) rest with
        | Some (digits, rest') =>
            match take (bufferToInt digits) rest' with
            | Some (payload, []) => rlp_decode_items (List.length payload) payload
            | _ => None
            end
        | None => None
        end
  end.

(** ** The fields of a transaction *)

(** What gets stored in a field of a transaction: the code stores hex
    strings and [Buffer]s; numbers and booleans are the other values that
    an object can hold there. *)
Inductive fieldValue :=
| FromString (s : string)
| FromBuffer (b : Buffer)
| FromNumber (n : N)
| FromBoolean (b : bool).

(** The bytes that a hex string writes: the prefix goes, an odd number of
    digits gets a zero in front. *)
Definition hexBytes (s : string) : Buffer :=
  Buffer_from_hex (padToEven (stripPrefix s)).

(** [ethereumjs-util]'s [isHexString]: the [0x] prefix, then hexadecimal
    digits only. *)
Definition isHexString (s : string) : bool :=
  hasPrefix s && allHex (stripPrefix s).

(** [ethereumjs-util]'s [intToBuffer] *)
Definition intToBuffer (n : N) : Buffer :=
  Buffer_from_hex (padToEven (Number_toString16 n)).

(** [ethereumjs-util]'s [toBuffer]: a buffer is kept, a [0x]-prefixed hex
    string is decoded after padding it to an even length, a number gives
    its bytes; any other string, and a boolean, are refused. *)
Definition toBuffer (v : fieldValue) : completion Buffer :=
  match v with
  | FromBuffer b => Return b
  | FromString s =>
      if isHexString s then Return (hexBytes s)
      else Throw (new_Error
        ("Cannot convert string to buffer. toBuffer only supports "
         ++ "0x-prefixed hex strings and this string was given: " ++ s))
  | FromNumber n => Return (intToBuffer n)
  | FromBoolean _ => Throw (new_Error "invalid type")
  end.

(** [ethereumjs-util]'s [stripZeros]: the leading zero bytes go. *)
Fixpoint stripZeros (b : Buffer) : Buffer :=
  match b with
  | x :: rest => if (Byte.to_N x =? 0)%N then stripZeros rest else b
  | [] => []
  end.

(** [ethereumjs-util]'s [bufferToInt]: the number that the bytes write, as
    a JavaScript number; the big number behind it refuses to give more
    than 53 bits. *)
Definition bufferToNumber (b : Buffer) : completion N :=
  if (bufferToInt b <? 2 ^ 53)%N then Return (bufferToInt b)
  else Throw (new_Error "Number can only safely store up to 53 bits").

(** [assert(condition, message)] *)
Definition assert (condition : bool) (msg : string) : completion unit :=
  if condition then Return tt else Throw (new_Error msg).

(** [ethereumjs-common]'s [Common], by what a transaction asks of it:
    [chainId()] and [gteHardfork('spuriousDragon')]. *)
Module Common.
Record t := mk {
  chainId : N;
  gteSpuriousDragon : bool
}.
End Common.

(** The second argument of [new EthereumTx], by what the constructor makes
    of it: the [Common] that it takes from [opts.common], or makes from
    [opts.chain] and [opts.hardfork], or the error thrown on the way. *)
Definition TransactionOptions : Type := completion Common.t.

Module Tx.

(** An instance of [EthereumTx]: the nine fields, as buffers, and the
    chain it was made for. *)
Record t := mk {
  nonce : Buffer;
  gasPrice : Buffer;
  gasLimit : Buffer;
  to : Buffer;
  value : Buffer;
  data : Buffer;
  v : Buffer;
  r : Buffer;
  s : Buffer;
  common : Common.t
}.

(** The description of a field, as [defineProperties] reads it. *)
Record Field := mkField {
  name : string;
  byteLength : option N;
  allowZero : bool;
  allowLess : bool
}.

Definition nonceField : Field := mkField "nonce" (Some 32%N) false true.
Definition gasPriceField : Field := mkField "gasPrice" (Some 32%N) false true.
Definition gasLimitField : Field := mkField "gasLimit" (Some 32%N) false true.
Definition toField : Field := mkField "to" (Some 20%N) true false.
Definition valueField : Field := mkField "value" (Some 32%N) false true.
Definition dataField : Field := mkField "data" None true false.
Definition vField : Field := mkField "v" None true false.
Definition rField : Field := mkField "r" (Some 32%N) true true.
Definition sField : Field := mkField "s" (Some 32%N) true true.

(** The setter that [defineProperties] gives a field.  A field that
    "allows less" drops its leading zeros and takes [byteLength] bytes at
    most; another field of a given length takes that many bytes, or none
    if it "allows zero". *)
Definition setter (field : Field) (x : fieldValue) : completion Buffer :=
  (b <- toBuffer x ;;
   let b :=
     match b with
     | [z] => if (Byte.to_N z =? 0)%N && negb (allowZero field) then [] else b
     | _ => b
     end in
   match byteLength field with
   | Some n =>
       if allowLess field then
         let b := stripZeros b in
         assert (blen b <=? n)%N
           ("The field " ++ name field ++ " must not have more "
            ++ String_of_number n ++ " bytes") ;;
         Return b
       else if allowZero field && (blen b =? 0)%N then Return b
       else
         assert (blen b =? n)%N
           ("The field " ++ name field ++ " must have byte length of "
            ++ String_of_number n) ;;
         Return b
   | None => Return b
   end)%completion.

(** What a property of the constructor's argument hands to the setter of
    its field; a property that is not there, or undefined, leaves the
    field the empty buffer. *)
Definition given (txData : jsobj) (key : string) : fieldValue :=
  match get txData key with
  | Some (JStr x) => FromString x
  | Some (JNum n) => FromNumber n
  | Some (JBool b) => FromBoolean b
  | Some (JArr l) => FromBuffer (map byte_of_N l)
  | Some JUndefined => FromBuffer []
  | None => FromBuffer []
  end.

(** [_validateV]: from [spuriousDragon] on, a recovery value that is not
    empty is 27, 28, or one of the two values that EIP-155 gives the
    chain. *)
Definition validateV (common : Common.t) (v : Buffer) : completion unit :=
  if (blen v =? 0)%N then Return tt
  else if negb (Common.gteSpuriousDragon common) then Return tt
  else
    (vInt <- bufferToNumber v ;;
     if (vInt =? 27)%N || (vInt =? 28)%N then Return tt
     else if (vInt =? Common.chainId common * 2 + 35)%N
             || (vInt =? Common.chainId common * 2 + 36)%N then Return tt
     else Throw (new_Error
       ("Incompatible EIP155-based V " ++ String_of_number vInt
        ++ " and chain id " ++ String_of_number (Common.chainId common)
        ++ ". See the second parameter of the Transaction constructor "
        ++ "to set the chain id.")))%completion.

(** [new EthereumTx(txData, opts)]: the chain is settled, the fields are
    set in their order, each by its setter, and the recovery value is
    validated against the chain. *)
Definition create (txData : jsobj) (opts : TransactionOptions)
    : completion t :=
  (common <- opts ;;
   nonce <- setter nonceField (given txData "nonce") ;;
   gasPrice <- setter gasPriceField (given txData "gasPrice") ;;
   gasLimit <- setter gasLimitField (given txData "gasLimit") ;;
   to <- setter toField (given txData "to") ;;
   value <- setter valueField (given txData "value") ;;
   data <- setter dataField (given txData "data") ;;
   v <- setter vField (given txData "v") ;;
   r <- setter rField (given txData "r") ;;
   s <- setter sField (given txData "s") ;;
   validateV common v ;;
   Return (mk nonce gasPrice gasLimit to value data v r s common))%completion.

(** [tx.r = x], [tx.s = x] *)
Definition set_r (x : fieldValue) (tx : t) : completion t :=
  (b <- setter rField x ;;
   Return (mk (nonce tx) (gasPrice tx) (gasLimit tx) (to tx) (value tx)
             (data tx) (v tx) b (s tx) (common tx)))%completion.
Definition set_s (x : fieldValue) (tx : t) : completion t :=
  (b <- setter sField x ;;
   Return (mk (nonce tx) (gasPrice tx) (gasLimit tx) (to tx) (value tx)
             (data tx) (v tx) (r tx) b (common tx)))%completion.

(** [tx.v = x]: the setter of [v] validates the value against the chain
    before it stores it. *)
Definition set_v (x : fieldValue) (tx : t) : completion t :=
  (checked <- toBuffer x ;;
   validateV (common tx) checked ;;
   b <- setter vField x ;;
   Return (mk (nonce tx) (gasPrice tx) (gasLimit tx) (to tx) (value tx)
             (data tx) b (r tx) (s tx) (common tx)))%completion.

Definition raw (tx : t) : list Buffer :=
  [nonce tx; gasPrice tx; gasLimit tx; to tx; value tx; data tx;
   v tx; r tx; s tx].

(** [tx.serialize()]: the RLP encoding of the nine fields. *)
Definition serialize (tx : t) : Buffer := rlp_encode (raw tx).

End Tx.

(* ================================================================== *)
(** * purser-core: types, messages and helpers *)
(* ================================================================== *)

(** [TransactionObjectTypeWithTo] of [purser-core/types]. *)
Record TransactionObjectTypeWithTo := mkTransactionObject {
  chainId : N;
  gasPrice : numeric;
  gasLimit : numeric;
  nonce : N;
  value : numeric;
  inputData : string;
  to : option string
}.

(** [TransactionObjectTypeWithDerivationPath]: the same with the
    derivation path of the signing account. *)
Module WithDerivationPath.
Record t := mk {
  chainId : N;
  gasPrice : numeric;
  gasLimit : numeric;
  nonce : N;
  value : numeric;
  inputData : string;
  to : option string;
  derivationPath : string
}.
End WithDerivationPath.

(** The argument of [signMessage]. *)
Module SignMessage.
Record t := mk {
  derivationPath : string;
  message : option string;
  messageData : option bufferSource
}.
End SignMessage.

(** The arguments of the two [verifyMessage]. *)
Module VerifyTrezor.
Record t := mk { address : string; message : string; signature : string }.
End VerifyTrezor.

Module VerifyLedger.
Record t := mk { publicKey : string; message : string; signature : string }.
End VerifyLedger.

(** The [staticMethods] messages of the two wallets' [messages] modules. *)
Record Messages := mkMessages {
  userSignTxCancel : string;
  userSignTxGenericError : string;
  signMessageArgumentMissing : string;
  messageSignatureOnlyTrezor : string;
  messageSignatureInvalid : string;
  userSignInteractionWarning : string;
  userSignMessageInteractionWarning : string
}.

(** The validators, helpers and defaults of [purser-core], and
    [bip32-path]'s [fromString(path, true).toPathArray()]. *)
Record Core := mkCore {
  transactionObjectValidator :
    TransactionObjectTypeWithTo -> completion TransactionObjectTypeWithTo;
  derivationPathValidator : string -> completion unit;
  addressValidator : string -> completion unit;
  hexSequenceValidator : string -> completion unit;
  messageVerificationObjectValidator :
    string * string -> completion (string * string);
  messageOrDataValidator :
    option string -> option bufferSource -> completion bufferSource;
  verifyMessageSignature : string -> string -> string -> completion bool;
  derivationPathNormalizer : string -> string;
  toPathArray : string -> list N;
  objectToErrorString : jsobj -> string;
  getChainDefinition : N -> TransactionOptions;
  SIGNATURE_R : N;
  SIGNATURE_S : N
}.

(** Modelled from the spec: [bigNumber] of [purser-core/utils], the
    BigNumberCodec's arbitrary-precision integer made from a number. *)
Definition bigNumber (n : N) : numeric := NumBig n.

Definition jsval_of_numeric (x : numeric) : jsval :=
  match x with
  | NumStr s => JStr s
  | NumBig n => JNum n
  end.

Definition jsval_of_optional (x : option string) : jsval :=
  match x with
  | Some s => JStr s
  | None => JUndefined
  end.

(** A value inside a template literal. *)
Definition interpolate (x : option string) : string :=
  match x with
  | Some s => s
  | None => "undefined"
  end.

(** [to ? { to: f(to) } : {}] *)
Definition whenTo (to : option string) (f : string -> string) : jsobj :=
  match to with
  | Some a => if truthy (Some a) then [("to", JStr (f a))] else []
  | None => []
  end.

(* ================================================================== *)
(** * purser-trezor/staticMethods.ts *)
(* ================================================================== *)

Module Trezor.

(** What the Trezor service answers; each method reads the properties
    it asked for. *)
Record Response := mkResponse {
  r : string;
  s : string;
  v : N;
  signature : option string;
  success : bool
}.

(** [payloadListener] of [./helpers], the payload templates of
    [./payloads] and [STD_ERRORS.CANCEL_TX_SIGN] of [./defaults]. *)
Record Service := mkService {
  payloadListener : jsobj -> completion Response;
  PAYLOAD_SIGNTX : jsobj;
  PAYLOAD_SIGNMSG : jsobj;
  PAYLOAD_VERIFYMSG : jsobj;
  CANCEL_TX_SIGN : string
}.

Section StaticMethods.

Variable messages : Messages.
Variable core : Core.
Variable service : Service.

(** The object given to [new EthereumTx]. *)
Definition unsignedTransactionData
    (validated : TransactionObjectTypeWithTo) : jsobj :=
  [ ("gasPrice", JStr (hexSequenceNormalizer
       (multipleOfTwoHexValueNormalizer (gasPrice validated)) true));
    ("gasLimit", JStr (hexSequenceNormalizer
       (multipleOfTwoHexValueNormalizer (gasPrice validated)) true));
    ("nonce", JStr (hexSequenceNormalizer
       (multipleOfTwoHexValueNormalizer
          (Number_toString16 (nonce validated))) true));
    ("value", JStr (hexSequenceNormalizer
       (multipleOfTwoHexValueNormalizer (value validated)) true));
    ("data", JStr (hexSequenceNormalizer (inputData validated) true));
    ("r", JStr (hexSequenceNormalizer
       (multipleOfTwoHexValueNormalizer
          (String_of_number (SIGNATURE_R core))) true));
    ("s", JStr (hexSequenceNormalizer
       (multipleOfTwoHexValueNormalizer
          (String_of_number (SIGNATURE_S core))) true));
    ("v", JStr (hexSequenceNormalizer
       (multipleOfTwoHexValueNormalizer
          (Number_toString16 (chainId validated))) true)) ].

(** [new EthereumTx({ ... }, getChainDefinition(chainId))] *)
Definition unsignedTransaction
    (validated : TransactionObjectTypeWithTo) : completion Tx.t :=
  Tx.create (unsignedTransactionData validated)
    (getChainDefinition core (chainId validated)).

(** The payload sent to the Trezor service. *)
Definition modifiedPayloadObject
    (validated : TransactionObjectTypeWithTo) (derivationPath : string)
    : jsobj :=
  Object_assign []
    [ PAYLOAD_SIGNTX service;
      [ ("address_n", JArr (toPathArray core
           (derivationPathNormalizer core derivationPath)));
        ("gas_price", JStr
           (multipleOfTwoHexValueNormalizer (gasPrice validated)));
        ("gas_limit", JStr
           (multipleOfTwoHexValueNormalizer (gasLimit validated)));
        ("chain_id", JNum (chainId validated));
        ("nonce", JStr (multipleOfTwoHexValueNormalizer
           (Number_toString16 (nonce validated))));
        ("value", JStr
           (multipleOfTwoHexValueNormalizer (value validated)));
        ("data", JStr (hexSequenceNormalizer (inputData validated) false)) ];
      whenTo (to validated) (fun a => addressNormalizer a false) ].

(** The three assignments that add the signature values to the
    transaction. *)
Definition signedTransaction (unsigned : Tx.t) (response : Response)
    : completion Tx.t :=
  (tx <- Tx.set_r (FromBuffer (Buffer_from_hex
           (hexSequenceNormalizer (r response) true))) unsigned ;;
   tx <- Tx.set_s (FromBuffer (Buffer_from_hex
           (hexSequenceNormalizer (s response) true))) tx ;;
   Tx.set_v (FromBuffer (Buffer_from_hex
           (hexSequenceNormalizer
              (toString16 (bigNumber (v response))) true))) tx)%completion.

Definition signTransaction (obj : WithDerivationPath.t) : M string :=
  (let transactionObject :=
     {| chainId := WithDerivationPath.chainId obj;
        gasPrice := WithDerivationPath.gasPrice obj;
        gasLimit := WithDerivationPath.gasLimit obj;
        nonce := WithDerivationPath.nonce obj;
        value := WithDerivationPath.value obj;
        inputData := WithDerivationPath.inputData obj;
        to := WithDerivationPath.to obj |} in
   validated <- lift (transactionObjectValidator core transactionObject) ;;
   let derivationPath := WithDerivationPath.derivationPath obj in
   lift (derivationPathValidator core derivationPath) ;;
   unsignedTransaction <- lift (unsignedTransaction validated) ;;
   let modifiedPayloadObject :=
     modifiedPayloadObject validated derivationPath in
   try_catch
     (response <- await (TrezorPayload modifiedPayloadObject)
                    (payloadListener service modifiedPayloadObject) ;;
      tx <- lift (signedTransaction unsignedTransaction response) ;;
      ret (hexSequenceNormalizer
             (Buffer_toString_hex (Tx.serialize tx)) true))
     (fun caughtError =>
        if String.eqb (message caughtError) (CANCEL_TX_SIGN service)
        then throw (new_Error (userSignTxCancel messages))
        else throw (new_Error
          (userSignTxGenericError messages ++ ": "
           ++ objectToErrorString core modifiedPayloadObject ++ " "
           ++ message caughtError))))%js.

Definition signMessage (obj : jsarg SignMessage.t) : M string :=
  (match obj with
   | ArgObject o =>
       let derivationPath := SignMessage.derivationPath o in
       let message_ := SignMessage.message o in
       let messageData := SignMessage.messageData o in
       lift (derivationPathValidator core derivationPath) ;;
       toSign <- lift (messageOrDataValidator core message_ messageData) ;;
       warning (messageSignatureOnlyTrezor messages) ;;
       try_catch
         (let payload :=
            Object_assign []
              [ PAYLOAD_SIGNMSG service;
                [ ("path", JArr (toPathArray core
                     (derivationPathNormalizer core derivationPath)));
                  ("message", JStr (Buffer_toString_hex
                     (Buffer_from toSign))) ] ] in
          response <- await (TrezorPayload payload)
                        (payloadListener service payload) ;;
          let signedMessage :=
            match signature response with Some x => x | None => "" end in
          ret (hexSequenceNormalizer signedMessage true))
         (fun caughtError =>
            if String.eqb (message caughtError) (CANCEL_TX_SIGN service)
            then throw (new_Error (userSignTxCancel messages))
            else throw (new_Error
              (userSignTxGenericError messages ++ ": message: ("
               ++ interpolate message_ ++ ") "
               ++ message caughtError)))
   | _ =>
       (* obj === null || typeof obj !== 'object' *)
       throw (new_Error (signMessageArgumentMissing messages))
   end)%js.

Definition verifyMessage (obj : VerifyTrezor.t) : M bool :=
  (let address := VerifyTrezor.address obj in
   lift (addressValidator core address) ;;
   let signatureMessage :=
     (VerifyTrezor.message obj, VerifyTrezor.signature obj) in
   checked <- lift (messageVerificationObjectValidator core
                      signatureMessage) ;;
   let message_ := fst checked in
   let signature_ := snd checked in
   warning (messageSignatureOnlyTrezor messages) ;;
   try_catch
     (let payload :=
        Object_assign []
          [ PAYLOAD_VERIFYMSG service;
            [ ("address", JStr (addressNormalizer address false));
              ("message", JStr message_);
              ("signature", JStr
                 (hexSequenceNormalizer signature_ false)) ] ] in
      response <- await (TrezorPayload payload)
                    (payloadListener service payload) ;;
      ret (success response))
     (fun caughtError =>
        warning (messageSignatureInvalid messages ++ ": message ("
                 ++ message_ ++ "), signature (" ++ signature_ ++ ")") ;;
        ret false))%js.

End StaticMethods.

End Trezor.

(* ================================================================== *)
(** * purser-ledger: the device interface *)
(* ================================================================== *)

(** The transaction signature returns the recovery param as a string. *)
Module TransactionSignatureReturnType.
Record t := mk { r : string; s : string; v : string }.
End TransactionSignatureReturnType.

(** The message signature returns the recovery param as a number. *)
Module MessageSignatureReturnType.
Record t := mk { r : string; s : string; v : N }.
End MessageSignatureReturnType.

Module LedgerInstanceType.
Record t := mk {
  signTransaction :
    string -> string -> completion TransactionSignatureReturnType.t;
  signPersonalMessage :
    string -> string -> completion MessageSignatureReturnType.t
}.
End LedgerInstanceType.

(** [ledgerConnection] and [handleLedgerConnectionError] of
    [purser-ledger/helpers]. *)
Record LedgerService := mkLedgerService {
  ledgerConnection : completion LedgerInstanceType.t;
  handleLedgerConnectionError : Error -> string -> completion (option string)
}.

(* ================================================================== *)
(** * purser-ledger/staticMethods.ts *)
(* ================================================================== *)

Module Ledger.

Section StaticMethods.

Variable messages : Messages.
Variable core : Core.
Variable service : LedgerService.

(** The object given to [new EthereumTx]. *)
Definition unsignedTransactionData
    (validated : TransactionObjectTypeWithTo) : jsobj :=
  Object_assign []
    [ [ ("gasPrice", JStr (hexSequenceNormalizer
           (multipleOfTwoHexValueNormalizer (gasPrice validated)) true));
        ("gasLimit", JStr (hexSequenceNormalizer
           (multipleOfTwoHexValueNormalizer (gasLimit validated)) true));
        ("nonce", JStr (hexSequenceNormalizer
           (multipleOfTwoHexValueNormalizer
              (Number_toString16 (nonce validated))) true));
        ("value", JStr (hexSequenceNormalizer
           (multipleOfTwoHexValueNormalizer (value validated)) true));
        ("data", JStr (hexSequenceNormalizer (inputData validated) true));
        ("r", JStr (hexSequenceNormalizer
           (multipleOfTwoHexValueNormalizer
              (String_of_number (SIGNATURE_R core))) true));
        ("s", JStr (hexSequenceNormalizer
           (multipleOfTwoHexValueNormalizer
              (String_of_number (SIGNATURE_S core))) true));
        ("v", JStr (hexSequenceNormalizer
           (multipleOfTwoHexValueNormalizer
              (Number_toString16 (chainId validated))) true)) ];
      whenTo (to validated) (fun a => addressNormalizer a true) ].

(** [new EthereumTx(Object.assign({}, { ... }, to ? { to } : {}),
    getChainDefinition(chainId))] *)
Definition unsignedTransaction
    (validated : TransactionObjectTypeWithTo) : completion Tx.t :=
  Tx.create (unsignedTransactionData validated)
    (getChainDefinition core (chainId validated)).

(** The three assignments that write the signature values to the
    transaction. *)
Definition signedTransaction
    (unsigned : Tx.t) (sig : TransactionSignatureReturnType.t)
    : completion Tx.t :=
  (tx <- Tx.set_r (FromBuffer (Buffer_from_hex
           (hexSequenceNormalizer
              (TransactionSignatureReturnType.r sig) true))) unsigned ;;
   tx <- Tx.set_s (FromBuffer (Buffer_from_hex
           (hexSequenceNormalizer
              (TransactionSignatureReturnType.s sig) true))) tx ;;
   Tx.set_v (FromBuffer (Buffer_from_hex
           (hexSequenceNormalizer
              (TransactionSignatureReturnType.v sig) true))) tx)%completion.

(** The [transactionObject] built from the argument, as an object. *)
Definition transactionObjectEntries
    (o : TransactionObjectTypeWithTo) : jsobj :=
  [ ("chainId", JNum (chainId o));
    ("gasPrice", jsval_of_numeric (gasPrice o));
    ("gasLimit", jsval_of_numeric (gasLimit o));
    ("nonce", JNum (nonce o));
    ("value", jsval_of_numeric (value o));
    ("inputData", JStr (inputData o));
    ("to", jsval_of_optional (to o)) ].

Definition signTransaction (obj : WithDerivationPath.t)
    : M (option string) :=
  (let transactionObject :=
     {| chainId := WithDerivationPath.chainId obj;
        gasPrice := WithDerivationPath.gasPrice obj;
        gasLimit := WithDerivationPath.gasLimit obj;
        nonce := WithDerivationPath.nonce obj;
        value := WithDerivationPath.value obj;
        inputData := WithDerivationPath.inputData obj;
        to := WithDerivationPath.to obj |} in
   validated <- lift (transactionObjectValidator core transactionObject) ;;
   try_catch
     (ledger <- await LedgerConnection (ledgerConnection service) ;;
      let derivationPath := WithDerivationPath.derivationPath obj in
      lift (derivationPathValidator core derivationPath) ;;
      unsignedTransaction <- lift (unsignedTransaction validated) ;;
      warning (userSignInteractionWarning messages) ;;
      let path := derivationPathNormalizer core derivationPath in
      let unsignedHex :=
        Buffer_toString_hex (Tx.serialize unsignedTransaction) in
      sig <- await (LedgerSignTransaction path unsignedHex)
               (LedgerInstanceType.signTransaction ledger
                  path unsignedHex) ;;
      tx <- lift (signedTransaction unsignedTransaction sig) ;;
      let serializedSignedTransaction :=
        Buffer_toString_hex (Tx.serialize tx) in
      ret (Some (hexSequenceNormalizer serializedSignedTransaction true)))
     (fun caughtError =>
        lift (handleLedgerConnectionError service caughtError
          (userSignTxGenericError messages ++ ": "
           ++ objectToErrorString core
                (transactionObjectEntries transactionObject) ++ " "
           ++ message caughtError))))%js.

Definition signMessage (obj : jsarg SignMessage.t) : M (option string) :=
  (match obj with
   | ArgObject o =>
       let derivationPath := SignMessage.derivationPath o in
       let message_ := SignMessage.message o in
       let messageData := SignMessage.messageData o in
       lift (derivationPathValidator core derivationPath) ;;
       toSign <- lift (messageOrDataValidator core message_ messageData) ;;
       try_catch
         (ledger <- await LedgerConnection (ledgerConnection service) ;;
          warning (userSignMessageInteractionWarning messages) ;;
          let path := derivationPathNormalizer core derivationPath in
          let messageHex := Buffer_toString_hex (Buffer_from toSign) in
          sig <- await (LedgerSignPersonalMessage path messageHex)
                   (LedgerInstanceType.signPersonalMessage ledger
                      path messageHex) ;;
          ret (Some (hexSequenceNormalizer
                 (MessageSignatureReturnType.r sig
                  ++ MessageSignatureReturnType.s sig
                  ++ Number_toString16
                       (MessageSignatureReturnType.v sig)) true)))
         (fun caughtError =>
            lift (handleLedgerConnectionError service caughtError
              (userSignTxGenericError messages ++ ": message: ("
               ++ bufferSource_toString toSign ++ ") "
               ++ message caughtError)))
   | _ =>
       (* obj === null || typeof obj !== 'object' *)
       throw (new_Error (signMessageArgumentMissing messages))
   end)%js.

Definition verifyMessage (obj : VerifyLedger.t) : M bool :=
  (let publicKey := VerifyLedger.publicKey obj in
   lift (hexSequenceValidator core publicKey) ;;
   let signatureMessage :=
     (VerifyLedger.message obj, VerifyLedger.signature obj) in
   checked <- lift (messageVerificationObjectValidator core
                      signatureMessage) ;;
   let message_ := fst checked in
   let signature_ := snd checked in
   lift (verifyMessageSignature core
           (hexSequenceNormalizer publicKey true)
           message_
           (hexSequenceNormalizer signature_ true)))%js.

End StaticMethods.

End Ledger.

(* ================================================================== *)
(** * purser-ledger/staticMethods.js, the earlier Flow variant *)
(* ================================================================== *)

Module LedgerFlow.

Section StaticMethods.

Variable messages : Messages.
Variable core : Core.
Variable service : LedgerService.

(** The object given to [new EthereumTx]. *)
Definition unsignedTransactionData
    (validated : TransactionObjectTypeWithTo) : jsobj :=
  Object_assign []
    [ [ ("gasPrice", JStr (hexSequenceNormalizer
           (multipleOfTwoHexValueNormalizer
              (toString16 (gasPrice validated))) true));
        ("gasLimit", JStr (hexSequenceNormalizer
           (multipleOfTwoHexValueNormalizer
              (toString16 (gasLimit validated))) true));
        ("nonce", JStr (hexSequenceNormalizer
           (multipleOfTwoHexValueNormalizer
              (Number_toString16 (nonce validated))) true));
        ("value", JStr (hexSequenceNormalizer
           (multipleOfTwoHexValueNormalizer
              (toString16 (value validated))) true));
        ("data", JStr (hexSequenceNormalizer (inputData validated) true));
        ("r", JStr (hexSequenceNormalizer
           (multipleOfTwoHexValueNormalizer
              (String_of_number (SIGNATURE_R core))) true));
        ("s", JStr (hexSequenceNormalizer
           (multipleOfTwoHexValueNormalizer
              (String_of_number (SIGNATURE_S core))) true));
        ("v", JStr (hexSequenceNormalizer
           (multipleOfTwoHexValueNormalizer
              (Number_toString16 (chainId validated))) true)) ];
      whenTo (to validated) (fun a => addressNormalizer a true) ].

(** [new EthereumTx(Object.assign({}, { ... }, to ? { to } : {}),
    getChainDefinition(chainId))] *)
Definition unsignedTransaction
    (validated : TransactionObjectTypeWithTo) : completion Tx.t :=
  Tx.create (unsignedTransactionData validated)
    (getChainDefinition core (chainId validated)).

(** The three assignments that write the signature values to the
    transaction: the prefixed hex strings go to the setters as they
    are. *)
Definition signedTransaction
    (unsigned : Tx.t) (sig : TransactionSignatureReturnType.t)
    : completion Tx.t :=
  (tx <- Tx.set_r (FromString (hexSequenceNormalizer
           (TransactionSignatureReturnType.r sig) true)) unsigned ;;
   tx <- Tx.set_s (FromString (hexSequenceNormalizer
           (TransactionSignatureReturnType.s sig) true)) tx ;;
   Tx.set_v (FromString (hexSequenceNormalizer
           (TransactionSignatureReturnType.v sig) true)) tx)%completion.

(** [signTransaction({ derivationPath, ...transactionObject })].  [obj]
    is what the properties of the argument hold.  [transactionObject] is
    the rest of the argument once [derivationPath] is taken out: the
    validator reads its properties, and the error handler gets the dump of
    the object itself, which is [rest]: the own properties of the
    argument in the caller's order, those that the method does not read
    included. *)
Definition signTransaction (obj : WithDerivationPath.t) (rest : jsobj)
    : M (option string) :=
  (let derivationPath := WithDerivationPath.derivationPath obj in
   let transactionObject :=
     {| chainId := WithDerivationPath.chainId obj;
        gasPrice := WithDerivationPath.gasPrice obj;
        gasLimit := WithDerivationPath.gasLimit obj;
        nonce := WithDerivationPath.nonce obj;
        value := WithDerivationPath.value obj;
        inputData := WithDerivationPath.inputData obj;
        to := WithDerivationPath.to obj |} in
   validated <- lift (transactionObjectValidator core transactionObject) ;;
   try_catch
     (ledger <- await LedgerConnection (ledgerConnection service) ;;
      lift (derivationPathValidator core derivationPath) ;;
      unsignedTransaction <- lift (unsignedTransaction validated) ;;
      warning (userSignInteractionWarning messages) ;;
      let path := derivationPathNormalizer core derivationPath in
      let unsignedHex :=
        Buffer_toString_hex (Tx.serialize unsignedTransaction) in
      sig <- await (LedgerSignTransaction path unsignedHex)
               (LedgerInstanceType.signTransaction ledger
                  path unsignedHex) ;;
      tx <- lift (signedTransaction unsignedTransaction sig) ;;
      let serializedSignedTransaction :=
        Buffer_toString_hex (Tx.serialize tx) in
      ret (Some (hexSequenceNormalizer serializedSignedTransaction true)))
     (fun caughtError =>
        lift (handleLedgerConnectionError service caughtError
          (userSignTxGenericError messages ++ ": "
           ++ objectToErrorString core rest ++ " "
           ++ message caughtError))))%js.

(** [signMessage] of the earlier variant, for an object argument: it has
    no test of the argument before destructuring it. *)
Definition signMessage (o : SignMessage.t) : M (option string) :=
  (let derivationPath := SignMessage.derivationPath o in
   let message_ := SignMessage.message o in
   let messageData := SignMessage.messageData o in
   lift (derivationPathValidator core derivationPath) ;;
   toSign <- lift (messageOrDataValidator core message_ messageData) ;;
   try_catch
     (ledger <- await LedgerConnection (ledgerConnection service) ;;
      warning (userSignMessageInteractionWarning messages) ;;
      let path := derivationPathNormalizer core derivationPath in
      let messageHex := Buffer_toString_hex (Buffer_from toSign) in
      sig <- await (LedgerSignPersonalMessage path messageHex)
               (LedgerInstanceType.signPersonalMessage ledger
                  path messageHex) ;;
      ret (Some (hexSequenceNormalizer
             (MessageSignatureReturnType.r sig
              ++ MessageSignatureReturnType.s sig
              ++ Number_toString16
                   (MessageSignatureReturnType.v sig)) true)))
     (fun caughtError =>
        lift (handleLedgerConnectionError service caughtError
          (userSignTxGenericError messages ++ ": message: ("
           ++ bufferSource_toString toSign ++ ") "
           ++ message caughtError))))%js.

(** [verifyMessage] of the earlier variant: the rest of the argument, once
    [publicKey] is taken out, goes to the validator. *)
Definition verifyMessage (obj : VerifyLedger.t) : M bool :=
  (let publicKey := VerifyLedger.publicKey obj in
   let signatureMessage :=
     (VerifyLedger.message obj, VerifyLedger.signature obj) in
   lift (hexSequenceValidator core publicKey) ;;
   checked <- lift (messageVerificationObjectValidator core
                      signatureMessage) ;;
   let message_ := fst checked in
   let signature_ := snd checked in
   lift (verifyMessageSignature core
           (hexSequenceNormalizer publicKey true)
           message_
           (hexSequenceNormalizer signature_ true)))%js.

End StaticMethods.

End LedgerFlow.

(** The [transactionObject] that the two TypeScript [signTransaction] build
    from their argument. *)
Definition transactionObjectOf (obj : WithDerivationPath.t)
    : TransactionObjectTypeWithTo :=
  {| chainId := WithDerivationPath.chainId obj;
     gasPrice := WithDerivationPath.gasPrice obj;
     gasLimit := WithDerivationPath.gasLimit obj;
     nonce := WithDerivationPath.nonce obj;
     value := WithDerivationPath.value obj;
     inputData := WithDerivationPath.inputData obj;
     to := WithDerivationPath.to obj |}.

(** The payload that the Trezor's [signMessage] sends for the bytes
    [toSign]. *)
Definition signMessagePayload (core : Core) (service : Trezor.Service)
    (o : SignMessage.t) (toSign : bufferSource) : jsobj :=
  Object_assign []
    [ Trezor.PAYLOAD_SIGNMSG service;
      [ ("path", JArr (toPathArray core
           (derivationPathNormalizer core (SignMessage.derivationPath o))));
        ("message", JStr (Buffer_toString_hex (Buffer_from toSign))) ] ].

(** The payload that the Trezor's [verifyMessage] sends. *)
Definition verifyMessagePayload (service : Trezor.Service)
    (address message_ signature_ : string) : jsobj :=
  Object_assign []
    [ Trezor.PAYLOAD_VERIFYMSG service;
      [ ("address", JStr (addressNormalizer address false));
        ("message", JStr message_);
        ("signature", JStr (hexSequenceNormalizer signature_ false)) ] ].

(** The nine fields of a serialized transaction, read back from the hex
    string that [signTransaction] returns. *)
Definition decodeSigned (out : string) : option (list Buffer) :=
  rlp_decode (Buffer_from_hex (stripPrefix out)).

(** The recovery value [v] encoded in a serialized transaction. *)
Definition recoveryValue (out : string) : option N :=
  match decodeSigned out with
  | Some [_; _; _; _; _; _; v; _; _] => Some (bufferToInt v)
  | _ => None
  end.

(** The lists of fields within the reach of the length prefixes: every
    field, and the encoded fields together, shorter than 2^64 bytes. *)
Definition encodable (items : list Buffer) : Prop :=
  Forall (fun b => (blen b < 2 ^ 64)%N) items
  /\ (blen (List.concat (map rlp_encode_bytes items)) < 2 ^ 64)%N.

(** A transaction with its three signature fields emptied. *)
Definition unsignedFields (tx : Tx.t) : Tx.t :=
  Tx.mk (Tx.nonce tx) (Tx.gasPrice tx) (Tx.gasLimit tx) (Tx.to tx)
    (Tx.value tx) (Tx.data tx) [] [] [] (Tx.common tx).

(** A fee or a value given as a string of hexadecimal digits, as the type
    declarations have it. *)
Definition hexDigits (x : numeric) : bool :=
  match x with
  | NumStr s => allHex s
  | NumBig _ => false
  end.

(** Whether the fees and the value of a transaction object are strings,
    as the type declarations have them. *)
Definition isString (x : numeric) : bool :=
  match x with
  | NumStr _ => true
  | NumBig _ => false
  end.

Definition stringFees (o : TransactionObjectTypeWithTo) : bool :=
  isString (gasPrice o) && isString (gasLimit o) && isString (value o).



(* ================================================================== *)
(** * A reference instance of the collaborators *)
(* ================================================================== *)

Module Reference.

Definition messages : Messages :=
  {| userSignTxCancel := "User cancelled signing the transaction";
     userSignTxGenericError := "Could not sign the transaction";
     signMessageArgumentMissing := "The signMessage argument is missing";
     messageSignatureOnlyTrezor :=
       "Signatures made with a Trezor verify only on a Trezor";
     messageSignatureInvalid := "The message signature is invalid";
     userSignInteractionWarning := "Confirm the transaction on the device";
     userSignMessageInteractionWarning := "Confirm the message on the device" |}.

Definition check (ok : bool) (msg : string) : completion unit :=
  if ok then Return tt else Throw (new_Error msg).

(** Modelled from the spec: [hexSequenceValidator] of
    [purser-core/validators]; the HexCodec fails with [InvalidEncoding]
    when its input contains non-hex characters. *)
Definition hexSequenceValidator (s : string) : completion unit :=
  check (allHex (stripPrefix s)) "InvalidEncoding".

(** Modelled from the spec: [addressValidator] of
    [purser-core/validators]; an address is a hex sequence, of twenty
    bytes. *)
Definition addressValidator (s : string) : completion unit :=
  check (allHex (stripPrefix s)
         && Nat.eqb (String.length (stripPrefix s)) 40)
    "InvalidType(address)".

Definition validNumeric (x : numeric) : bool :=
  match x with
  | NumStr s => allHex (stripPrefix s)
  | NumBig _ => true
  end.

(** Modelled from the spec: [transactionObjectValidator] of
    [purser-core/helpers]; [validate(request)] wants the fields of the
    right semantic type, with [to] optional, and [inputData] when there
    is no [to]. *)
Definition transactionObjectValidator (o : TransactionObjectTypeWithTo)
    : completion TransactionObjectTypeWithTo :=
  if validNumeric (gasPrice o) && validNumeric (gasLimit o)
     && validNumeric (value o) && allHex (stripPrefix (inputData o))
     && match to o with
        | Some a => match addressValidator a with
                    | Return _ => true
                    | Throw _ => false
                    end
        | None => negb (String.eqb (stripPrefix (inputData o)) "")
        end
  then Return o
  else Throw (new_Error "InvalidType").

(** Modelled from the spec: [derivationPathValidator] of
    [purser-core/validators]; a derivation path has the form
    [m/44'/60'/0'/0/0]. *)
Definition derivationPathValidator (path : string) : completion unit :=
  check (String.prefix "m/" path) "InvalidDerivationPath".

Definition messageVerificationObjectValidator (o : string * string)
    : completion (string * string) :=
  if allHex (stripPrefix (snd o)) then Return o
  else Throw (new_Error "InvalidType(signature)").

(** Modelled from the spec: [messageOrDataValidator] of
    [purser-core/helpers]; [validateMessage] wants exactly one of
    [message] and [messageData], and fails with
    [AmbiguousOrMissingMessage] otherwise. *)
Definition messageOrDataValidator
    (message_ : option string) (messageData : option bufferSource)
    : completion bufferSource :=
  match message_, messageData with
  | Some text, None => Return (SrcString text)
  | None, Some bytes => Return bytes
  | _, _ => Throw (new_Error "AmbiguousOrMissingMessage")
  end.

Definition dumpValue (x : jsval) : string :=
  match x with
  | JUndefined => "undefined"
  | JBool b => if b then "true" else "false"
  | JNum n => String_of_number n
  | JStr s => s
  | JArr l => String.concat "," (map String_of_number l)
  end.

(** Modelled from the spec: [objectToErrorString] of [purser-core/utils],
    the serialized dump of an object. *)
Definition objectToErrorString (o : jsobj) : string :=
  String.concat ", " (map (fun kv => fst kv ++ ": " ++ dumpValue (snd kv)) o).

Definition decimalDigit (c : ascii) : option N :=
  let n := N_of_ascii c in
  if ((48 <=? n) && (n <=? 57))%N then Some (n - 48)%N else None.

Fixpoint pathSegments (s : string) (current : N) : list N :=
  match s with
  | EmptyString => [current]
  | String c rest =>
      if Ascii.eqb c "/" then current :: pathSegments rest 0
      else if Ascii.eqb c "'" then pathSegments rest (current + 2 ^ 31)
      else match decimalDigit c with
           | Some d => pathSegments rest (10 * current + d)
           | None => pathSegments rest current
           end
  end.

(** Modelled from the spec: the DerivationPathCodec's [parse], which is
    [fromString(path, true).toPathArray()] of [bip32-path]: the indices
    behind the [m/], a hardened one with its high bit set. *)
Definition toPathArray (path : string) : list N :=
  match path with
  | String "m" (String "/" rest) => pathSegments rest 0
  | _ => pathSegments path 0
  end.

(** A chain definition on the last hardfork before [spuriousDragon],
    under which a transaction takes any recovery value, and one on a
    later hardfork. *)
Definition tangerineWhistle (c : N) : TransactionOptions :=
  Return {| Common.chainId := c; Common.gteSpuriousDragon := false |}.

Definition petersburg (c : N) : TransactionOptions :=
  Return {| Common.chainId := c; Common.gteSpuriousDragon := true |}.

(** The collaborators, around a verdict [verdict] of the signature
    verification. *)
Definition core (verdict : completion bool) : Core :=
  mkCore
    transactionObjectValidator
    derivationPathValidator
    addressValidator
    hexSequenceValidator
    messageVerificationObjectValidator
    messageOrDataValidator
    (fun _ _ _ => verdict)
    (fun path => path)
    toPathArray
    objectToErrorString
    tangerineWhistle
    0 0.

(** A Trezor service that answers every payload with [answer]. *)
Definition trezor (answer : completion Trezor.Response) : Trezor.Service :=
  {| Trezor.payloadListener := fun _ => answer;
     Trezor.PAYLOAD_SIGNTX :=
       [("type", JStr "signtx"); ("requiredFirmware", JStr "1.4.0")];
     Trezor.PAYLOAD_SIGNMSG :=
       [("type", JStr "signmsg"); ("requiredFirmware", JStr "1.4.0")];
     Trezor.PAYLOAD_VERIFYMSG :=
       [("type", JStr "verifymsg"); ("requiredFirmware", JStr "1.4.0")];
     Trezor.CANCEL_TX_SIGN := "Action cancelled by user" |}.

(** A Ledger device that answers with [txAnswer] and [msgAnswer], and an
    error handler that throws the message it is given. *)
Definition ledger
    (txAnswer : completion TransactionSignatureReturnType.t)
    (msgAnswer : completion MessageSignatureReturnType.t) : LedgerService :=
  {| ledgerConnection :=
       Return {| LedgerInstanceType.signTransaction := fun _ _ => txAnswer;
                 LedgerInstanceType.signPersonalMessage :=
                   fun _ _ => msgAnswer |};
     handleLedgerConnectionError :=
       fun _ specificMessage => Throw (new_Error specificMessage) |}.

(** A transfer on chain 1, after the example of the specification. *)
Definition request : WithDerivationPath.t :=
  {| WithDerivationPath.chainId := 1;
     WithDerivationPath.gasPrice := "3b9aca00";
     WithDerivationPath.gasLimit := "5208";
     WithDerivationPath.nonce := 0;
     WithDerivationPath.value := "0";
     WithDerivationPath.inputData := "0x";
     WithDerivationPath.to :=
       Some "0x3535353535353535353535353535353535353535";
     WithDerivationPath.derivationPath := "m/44'/60'/0'/0/0" |}.

Definition rHex : string :=
  "28ef61340bd939bc2169f3e1b9a1e5d1f5b8e6c3a2d4f6a8b0c2e4f6a8b0c2e4".
Definition sHex : string :=
  "67cbe9d8997f761aecb703304b3800ccf555c9f3dc64214b297fb1966a3b6d83".

(** The same collaborators on a chain definition after
    [spuriousDragon]. *)
Definition eip155 (verdict : completion bool) : Core :=
  mkCore
    transactionObjectValidator
    derivationPathValidator
    addressValidator
    hexSequenceValidator
    messageVerificationObjectValidator
    messageOrDataValidator
    (fun _ _ _ => verdict)
    (fun path => path)
    toPathArray
    objectToErrorString
    petersburg
    0 0.

(** The unsigned transactions that the constructor makes of [request]
    for the Trezor and for the Ledger variant. *)
Definition unsignedTrezor : Tx.t :=
  Tx.mk [] (hexBytes "3b9aca00") (hexBytes "3b9aca00") [] [] []
    (hexBytes "01") [] [] (Common.mk 1 false).

Definition unsignedLedger : Tx.t :=
  Tx.mk [] (hexBytes "3b9aca00") (hexBytes "5208")
    (hexBytes "3535353535353535353535353535353535353535") [] []
    (hexBytes "01") [] [] (Common.mk 1 false).

(** The caller's object behind [request], without its derivation path, as
    the example of the specification writes it. *)
Definition requestRest : jsobj :=
  [ ("chainId", JNum 1);
    ("gasPrice", JStr "3b9aca00");
    ("gasLimit", JStr "5208");
    ("nonce", JNum 0);
    ("to", JStr "0x3535353535353535353535353535353535353535");
    ("value", JStr "0");
    ("inputData", JStr "0x") ].

End Reference.

(* ================================================================== *)
(** * purser-core/types: the wallet types and the argument types *)
(* ================================================================== *)

(** Main wallet types *)
Definition TYPE_SOFTWARE : string := "software".
Definition TYPE_HARDWARE : string := "hardware".
Definition TYPE_GENERIC : string := "generic".

(** Wallet subtypes *)
Definition SUBTYPE_GENERIC : string := "generic".
Definition SUBTYPE_ETHERS : string := "ethers".
Definition SUBTYPE_TREZOR : string := "trezor".
Definition SUBTYPE_LEDGER : string := "ledger".
Definition SUBTYPE_METAMASK : string := "metamask".

Module DerivationPathObjectType.
Record t := mk {
  purpose : option N;
  coinType : option N;
  account : option N;
  change : option N;
  addressIndex : option N
}.
End DerivationPathObjectType.

Module GenericClassArgumentsType.
Record t := mk {
  publicKey : string;
  chainCode : option string;
  rootDerivationPath : string;
  addressCount : option N;
  chainId : option N
}.
End GenericClassArgumentsType.

(** [WalletArgumentsType], with the two properties that [open] reads. *)
Module WalletArgumentsType.
Record t := mk {
  addressCount : option N;
  chainId : option N
}.
End WalletArgumentsType.

(** [SignMessageData] *)
Module SignMessageData.
Record t := mk {
  message : option string;
  messageData : option bufferSource
}.
End SignMessageData.

(** [MessageVerificationObjectType] *)
Module MessageVerificationObjectType.
Record t := mk { message : string; signature : string }.
End MessageVerificationObjectType.

(** The transaction object that a wallet's [sign] receives: the chain id
    may be left out, the wallet has one. *)
Module SignObject.
Record t := mk {
  chainId : option N;
  gasPrice : numeric;
  gasLimit : numeric;
  nonce : N;
  value : numeric;
  inputData : string;
  to : option string
}.
End SignObject.

(** What an instance of [GenericWallet] offers to the methods of the two
    classes: [this.address], [this.chainId], and the promises
    [this.derivationPath] and [this.publicKey]. *)
Module GenericWallet.
Record t := mk {
  address : string;
  chainId : N;
  derivationPath : completion string;
  publicKey : completion string
}.
End GenericWallet.

(** The argument of [userInputValidator]. *)
Record UserInput := mkUserInput {
  firstArgument : jsobj;
  requiredAll : option (list string);
  requiredOr : option (list string)
}.

(** [userInputValidator] of [purser-core/helpers], which may log warnings
    besides throwing, the constructor of [GenericWallet], the required
    properties of [purser-core/defaults] and of [purser-trezor/defaults],
    and the [classInstance] message of [purser-trezor/messages]. *)
Record WalletDefaults := mkWalletDefaults {
  userInputValidator : UserInput -> M unit;
  GenericWallet_constructor :
    GenericClassArgumentsType.t -> completion GenericWallet.t;
  REQUIRED_SIGN_TRANSACTION : list string;
  REQUIRED_SIGN_TRANSACTION_CONTRACT : list string;
  REQUIRED_SIGN_MESSAGE : list string;
  REQUIRED_VERIFY_MESSAGE : list string;
  signContractDeployment : string
}.

Definition optionalEntry (key : string) (x : option jsval) : jsobj :=
  match x with
  | Some v => [(key, v)]
  | None => []
  end.

Definition jsval_of_bufferSource (x : bufferSource) : jsval :=
  match x with
  | SrcString s => JStr s
  | SrcBytes b => JArr (map Byte.to_N b)
  end.

(** The own properties of the objects handed to [userInputValidator]. *)
Definition signObjectEntries (o : SignObject.t) : jsobj :=
  (optionalEntry "chainId" (option_map JNum (SignObject.chainId o))
   ++ [ ("gasPrice", jsval_of_numeric (SignObject.gasPrice o));
        ("gasLimit", jsval_of_numeric (SignObject.gasLimit o));
        ("nonce", JNum (SignObject.nonce o));
        ("value", jsval_of_numeric (SignObject.value o));
        ("inputData", JStr (SignObject.inputData o)) ]
   ++ optionalEntry "to" (option_map JStr (SignObject.to o)))%list.

Definition signMessageDataEntries (o : SignMessageData.t) : jsobj :=
  (optionalEntry "message" (option_map JStr (SignMessageData.message o))
   ++ optionalEntry "messageData"
        (option_map jsval_of_bufferSource (SignMessageData.messageData o)))%list.

Definition verificationEntries (o : MessageVerificationObjectType.t) : jsobj :=
  [ ("message", JStr (MessageVerificationObjectType.message o));
    ("signature", JStr (MessageVerificationObjectType.signature o)) ].

Definition walletArgumentsEntries (o : WalletArgumentsType.t) : jsobj :=
  (optionalEntry "addressCount"
     (option_map JNum (WalletArgumentsType.addressCount o))
   ++ optionalEntry "chainId"
        (option_map JNum (WalletArgumentsType.chainId o)))%list.

(** [Object.assign({}, transactionObject, { derivationPath, chainId })] *)
Definition withDerivationPath (transactionObject : SignObject.t)
    (derivationPath : string) (chainId : N) : WithDerivationPath.t :=
  {| WithDerivationPath.chainId := chainId;
     WithDerivationPath.gasPrice := SignObject.gasPrice transactionObject;
     WithDerivationPath.gasLimit := SignObject.gasLimit transactionObject;
     WithDerivationPath.nonce := SignObject.nonce transactionObject;
     WithDerivationPath.value := SignObject.value transactionObject;
     WithDerivationPath.inputData := SignObject.inputData transactionObject;
     WithDerivationPath.to := SignObject.to transactionObject;
     WithDerivationPath.derivationPath := derivationPath |}.

(** [const { chainId = this.chainId } = transactionObject] *)
Definition chainIdOr (given : option N) (ofWallet : N) : N :=
  match given with
  | Some c => c
  | None => ofWallet
  end.

(* ================================================================== *)
(** * purser-trezor/class.ts *)
(* ================================================================== *)

Module TrezorWallet.

(** An instance: what [GenericWallet] made, and the type and the subtype
    that the constructor defines over the generic ones. *)
Record t := mk {
  generic : GenericWallet.t;
  type : string;
  subtype : string
}.

Section Class.

Variable messages : Messages.
Variable core : Core.
Variable service : Trezor.Service.
Variable defaults : WalletDefaults.

Definition constructor (propObject : GenericClassArgumentsType.t)
    : completion t :=
  match GenericWallet_constructor defaults propObject with
  | Return super => Return (mk super TYPE_HARDWARE SUBTYPE_TREZOR)
  | Throw e => Throw e
  end.

Definition sign (this : t) (transactionObject : SignObject.t) : M string :=
  (let chainId := chainIdOr (SignObject.chainId transactionObject)
                    (GenericWallet.chainId (generic this)) in
   let to := SignObject.to transactionObject in
   requiredSignProps <-
     (if truthy to
      then ret (REQUIRED_SIGN_TRANSACTION defaults)
      else (warning (signContractDeployment defaults) ;;
            ret (REQUIRED_SIGN_TRANSACTION_CONTRACT defaults))) ;;
   userInputValidator defaults
     {| firstArgument := signObjectEntries transactionObject;
        requiredAll := Some requiredSignProps;
        requiredOr := None |} ;;
   derivationPath <- lift (GenericWallet.derivationPath (generic this)) ;;
   Trezor.signTransaction messages core service
     (withDerivationPath transactionObject derivationPath chainId))%js.

Definition signMessage (this : t) (messageObject : SignMessageData.t)
    : M string :=
  (userInputValidator defaults
     {| firstArgument := signMessageDataEntries messageObject;
        requiredAll := None;
        requiredOr := Some (REQUIRED_SIGN_MESSAGE defaults) |} ;;
   derivationPath <- lift (GenericWallet.derivationPath (generic this)) ;;
   Trezor.signMessage messages core service
     (ArgObject
        {| SignMessage.derivationPath := derivationPath;
           SignMessage.message := SignMessageData.message messageObject;
           SignMessage.messageData :=
             SignMessageData.messageData messageObject |}))%js.

Definition verifyMessage (this : t)
    (signatureVerificationObject : MessageVerificationObjectType.t) : M bool :=
  (userInputValidator defaults
     {| firstArgument := verificationEntries signatureVerificationObject;
        requiredAll := Some (REQUIRED_VERIFY_MESSAGE defaults);
        requiredOr := None |} ;;
   let message_ :=
     MessageVerificationObjectType.message signatureVerificationObject in
   let signature_ :=
     MessageVerificationObjectType.signature signatureVerificationObject in
   Trezor.verifyMessage messages core service
     {| VerifyTrezor.address := GenericWallet.address (generic this);
        VerifyTrezor.message := message_;
        VerifyTrezor.signature := signature_ |})%js.

End Class.

End TrezorWallet.

(* ================================================================== *)
(** * purser-ledger/class.ts *)
(* ================================================================== *)

Module LedgerWallet.

Record t := mk {
  generic : GenericWallet.t;
  type : string;
  subtype : string
}.

Section Class.

Variable messages : Messages.
Variable core : Core.
Variable service : LedgerService.
Variable defaults : WalletDefaults.

Definition constructor (propObject : GenericClassArgumentsType.t)
    : completion t :=
  match GenericWallet_constructor defaults propObject with
  | Return super => Return (mk super TYPE_HARDWARE SUBTYPE_LEDGER)
  | Throw e => Throw e
  end.

Definition sign (this : t) (transactionObject : SignObject.t)
    : M (option string) :=
  (userInputValidator defaults
     {| firstArgument := signObjectEntries transactionObject;
        requiredAll := None;
        requiredOr := None |} ;;
   let chainId := chainIdOr (SignObject.chainId transactionObject)
                    (GenericWallet.chainId (generic this)) in
   derivationPath <- lift (GenericWallet.derivationPath (generic this)) ;;
   Ledger.signTransaction messages core service
     (withDerivationPath transactionObject derivationPath chainId))%js.

Definition signMessage (this : t) (messageObject : SignMessageData.t)
    : M (option string) :=
  (userInputValidator defaults
     {| firstArgument := signMessageDataEntries messageObject;
        requiredAll := None;
        requiredOr := Some (REQUIRED_SIGN_MESSAGE defaults) |} ;;
   derivationPath <- lift (GenericWallet.derivationPath (generic this)) ;;
   Ledger.signMessage messages core service
     (ArgObject
        {| SignMessage.derivationPath := derivationPath;
           SignMessage.message := SignMessageData.message messageObject;
           SignMessage.messageData :=
             SignMessageData.messageData messageObject |}))%js.

Definition verifyMessage (this : t)
    (signatureVerificationObject : MessageVerificationObjectType.t) : M bool :=
  (userInputValidator defaults
     {| firstArgument := verificationEntries signatureVerificationObject;
        requiredAll := Some (REQUIRED_VERIFY_MESSAGE defaults);
        requiredOr := None |} ;;
   let message_ :=
     MessageVerificationObjectType.message signatureVerificationObject in
   let signature_ :=
     MessageVerificationObjectType.signature signatureVerificationObject in
   publicKey <- lift (GenericWallet.publicKey (generic this)) ;;
   Ledger.verifyMessage core
     {| VerifyLedger.publicKey := publicKey;
        VerifyLedger.message := message_;
        VerifyLedger.signature := signature_ |})%js.

End Class.

End LedgerWallet.

(* ================================================================== *)
(** * purser-trezor/index.ts *)
(* ================================================================== *)

Module TrezorIndex.

(** What the Trezor service answers to the request for the public key. *)
Record XpubResponse := mkXpubResponse {
  publicKey : string;
  chainCode : string
}.

(** [payloadListener] of [./helpers], [PAYLOAD_XPUB] of [./payloads] and
    [STD_ERRORS.CANCEL_ACC_EXPORT] of [./defaults]. *)
Record Service := mkService {
  payloadListener : jsobj -> completion XpubResponse;
  PAYLOAD_XPUB : jsobj;
  CANCEL_ACC_EXPORT : string
}.

(** [derivationPathSerializer] of [purser-core/helpers], [PATH] and
    [CHAIN_IDS] of [purser-core/defaults], and the two messages of
    [./messages]. *)
Record Defaults := mkDefaults {
  derivationPathSerializer : DerivationPathObjectType.t -> string;
  PATH_CHANGE : N;
  PATH_COIN_MAINNET : N;
  PATH_COIN_TESTNET : N;
  CHAIN_IDS_HOMESTEAD : N;
  userExportCancel : string;
  userExportGenericError : string
}.

Section Open.

Variable core : Core.
Variable service : Service.
Variable defaults : Defaults.
Variable walletDefaults : WalletDefaults.

(** The coin type of the derivation path: the main net's on the main net,
    the test nets' anywhere else. *)
Definition coinTypeOf (chainId : N) : N :=
  if (chainId =? CHAIN_IDS_HOMESTEAD defaults)%N
  then PATH_COIN_MAINNET defaults
  else PATH_COIN_TESTNET defaults.

Definition rootDerivationPathOf (chainId : N) : string :=
  derivationPathSerializer defaults
    {| DerivationPathObjectType.purpose := None;
       DerivationPathObjectType.coinType := Some (coinTypeOf chainId);
       DerivationPathObjectType.account := None;
       DerivationPathObjectType.change := Some (PATH_CHANGE defaults);
       DerivationPathObjectType.addressIndex := None |}.

(** The payload sent to the Trezor service. *)
Definition modifiedPayloadObject (chainId : N) : jsobj :=
  Object_assign []
    [ PAYLOAD_XPUB service;
      [ ("path", JArr (toPathArray core (rootDerivationPathOf chainId))) ] ].

(** [open(argumentObject = {})]; [None] is the argument left out. *)
Definition open (argument : option WalletArgumentsType.t)
    : M (option TrezorWallet.t) :=
  (let argumentObject :=
     match argument with
     | Some o => o
     | None => {| WalletArgumentsType.addressCount := None;
                  WalletArgumentsType.chainId := None |}
     end in
   userInputValidator walletDefaults
     {| firstArgument := walletArgumentsEntries argumentObject;
        requiredAll := None;
        requiredOr := None |} ;;
   let addressCount := WalletArgumentsType.addressCount argumentObject in
   let chainId := chainIdOr (WalletArgumentsType.chainId argumentObject)
                    (CHAIN_IDS_HOMESTEAD defaults) in
   let rootDerivationPath := rootDerivationPathOf chainId in
   let modifiedPayloadObject := modifiedPayloadObject chainId in
   try_catch
     (response <- await (TrezorPayload modifiedPayloadObject)
                    (payloadListener service modifiedPayloadObject) ;;
      walletInstance <- lift (TrezorWallet.constructor walletDefaults
        {| GenericClassArgumentsType.publicKey := publicKey response;
           GenericClassArgumentsType.chainCode := Some (chainCode response);
           GenericClassArgumentsType.rootDerivationPath := rootDerivationPath;
           GenericClassArgumentsType.addressCount := addressCount;
           GenericClassArgumentsType.chainId := Some chainId |}) ;;
      ret (Some walletInstance))
     (fun caughtError =>
        if String.eqb (message caughtError) (CANCEL_ACC_EXPORT service)
        then (warning (userExportCancel defaults) ;; ret None)
        else throw (new_Error
          (userExportGenericError defaults ++ ": "
           ++ objectToErrorString core modifiedPayloadObject ++ " "
           ++ message caughtError))))%js.

End Open.

End TrezorIndex.

(** The number that a numeric request field stands for. *)
Definition numericValue (x : numeric) : N :=
  match x with
  | NumStr s => hexValue s
  | NumBig n => n
  end.

(** A numeric request field written with hexadecimal digits only. *)
Definition plainHex (x : numeric) : bool :=
  match x with
  | NumStr s => allHex s
  | NumBig _ => true
  end.

(** The properties that the Trezor's [signTransaction] writes into the
    payload. *)
Definition payloadKeys : list string :=
  ["address_n"; "gas_price"; "gas_limit"; "chain_id"; "nonce"; "value";
   "data"; "to"].

(** What the Trezor wallet's [sign] hands to [userInputValidator]: the
    required properties depend on the destination. *)
Definition trezorSignInput (defaults : WalletDefaults)
    (transactionObject : SignObject.t) : UserInput :=
  {| firstArgument := signObjectEntries transactionObject;
     requiredAll :=
       Some (if truthy (SignObject.to transactionObject)
             then REQUIRED_SIGN_TRANSACTION defaults
             else REQUIRED_SIGN_TRANSACTION_CONTRACT defaults);
     requiredOr := None |}.

(** What the other methods of the wallets, and [open], hand to
    [userInputValidator]. *)
Definition ledgerSignInput (transactionObject : SignObject.t) : UserInput :=
  {| firstArgument := signObjectEntries transactionObject;
     requiredAll := None;
     requiredOr := None |}.

Definition signMessageInput (defaults : WalletDefaults)
    (messageObject : SignMessageData.t) : UserInput :=
  {| firstArgument := signMessageDataEntries messageObject;
     requiredAll := None;
     requiredOr := Some (REQUIRED_SIGN_MESSAGE defaults) |}.

Definition verifyMessageInput (defaults : WalletDefaults)
    (signatureVerificationObject : MessageVerificationObjectType.t)
    : UserInput :=
  {| firstArgument := verificationEntries signatureVerificationObject;
     requiredAll := Some (REQUIRED_VERIFY_MESSAGE defaults);
     requiredOr := None |}.

Definition openInput (argument : option WalletArgumentsType.t) : UserInput :=
  {| firstArgument :=
       walletArgumentsEntries
         match argument with
         | Some o => o
         | None => WalletArgumentsType.mk None None
         end;
     requiredAll := None;
     requiredOr := None |}.

(** The request that a wallet's [sign] hands to [signTransaction]. *)
Definition requestOf (wallet : GenericWallet.t)
    (transactionObject : SignObject.t) (derivationPath : string)
    : WithDerivationPath.t :=
  withDerivationPath transactionObject derivationPath
    (chainIdOr (SignObject.chainId transactionObject)
       (GenericWallet.chainId wallet)).

(* ================================================================== *)
(** * A reference instance of the wallets' collaborators *)
(* ================================================================== *)

Module ReferenceWallet.

Definition hasKey (o : jsobj) (key : string) : bool :=
  match get o key with
  | Some _ => true
  | None => false
  end.

(** Modelled from the spec: [userInputValidator] of [purser-core/helpers],
    a field-presence validator: all of [requiredAll] and one of
    [requiredOr] have to be there; what is missing is logged as a warning
    and thrown. *)
Definition userInputValidator (input : UserInput) : M unit :=
  if match requiredAll input with
     | Some keys => forallb (hasKey (firstArgument input)) keys
     | None => true
     end
     && match requiredOr input with
        | Some keys => existsb (hasKey (firstArgument input)) keys
        | None => true
        end
  then ret tt
  else (warning "MissingField" ;; throw (new_Error "MissingField"))%js.

(** A generic wallet with the address [address], on the first index of
    the root derivation path. *)
Definition GenericWallet_constructor (address : string)
    (propObject : GenericClassArgumentsType.t) : completion GenericWallet.t :=
  Return
    {| GenericWallet.address := address;
       GenericWallet.chainId :=
         chainIdOr (GenericClassArgumentsType.chainId propObject) 1;
       GenericWallet.derivationPath :=
         Return (GenericClassArgumentsType.rootDerivationPath propObject ++ "/0");
       GenericWallet.publicKey :=
         Return (GenericClassArgumentsType.publicKey propObject) |}.

Definition defaults : WalletDefaults :=
  mkWalletDefaults
    userInputValidator
    (GenericWallet_constructor "0x3535353535353535353535353535353535353535")
    ["to"; "nonce"]
    ["inputData"; "nonce"]
    ["message"; "messageData"]
    ["message"; "signature"]
    "A contract deployment needs the inputData".

(** A wallet on chain 3, on the test nets' derivation path. *)
Definition instance : GenericWallet.t :=
  {| GenericWallet.address := "0x3535353535353535353535353535353535353535";
     GenericWallet.chainId := 3;
     GenericWallet.derivationPath := Return "m/44'/1'/0'/0/0";
     GenericWallet.publicKey := Return "04abcdef" |}.

Definition trezorWallet : TrezorWallet.t :=
  TrezorWallet.mk instance TYPE_HARDWARE SUBTYPE_TREZOR.

Definition ledgerWallet : LedgerWallet.t :=
  LedgerWallet.mk instance TYPE_HARDWARE SUBTYPE_LEDGER.

(** A transfer that leaves the chain id to the wallet. *)
Definition transfer : SignObject.t :=
  {| SignObject.chainId := None;
     SignObject.gasPrice := "3b9aca00";
     SignObject.gasLimit := "5208";
     SignObject.nonce := 7;
     SignObject.value := "0de0b6b3a7640000";
     SignObject.inputData := "0x";
     SignObject.to := Some "0x3535353535353535353535353535353535353535" |}.

(** A contract deployment. *)
Definition deployment : SignObject.t :=
  {| SignObject.chainId := Some 1%N;
     SignObject.gasPrice := "3b9aca00";
     SignObject.gasLimit := "0f4240";
     SignObject.nonce := 8;
     SignObject.value := "0";
     SignObject.inputData := "0x6080604052";
     SignObject.to := None |}.

(** Modelled from the spec: [derivationPathSerializer] of
    [purser-core/helpers], the DerivationPathCodec's [serialize]: the path
    [m/purpose'/coinType'/account'/change], and the address index when
    there is one. *)
Definition derivationPathSerializer (o : DerivationPathObjectType.t) : string :=
  "m/" ++ String_of_number (chainIdOr (DerivationPathObjectType.purpose o) 44)
  ++ "'/" ++ String_of_number (chainIdOr (DerivationPathObjectType.coinType o) 60)
  ++ "'/" ++ String_of_number (chainIdOr (DerivationPathObjectType.account o) 0)
  ++ "'/" ++ String_of_number (chainIdOr (DerivationPathObjectType.change o) 0)
  ++ match DerivationPathObjectType.addressIndex o with
     | Some i => "/" ++ String_of_number i
     | None => ""
     end.

Definition openDefaults : TrezorIndex.Defaults :=
  TrezorIndex.mkDefaults derivationPathSerializer 0 60 1 1
    "User cancelled the account export"
    "Could not export the account".

(** A Trezor service that answers the request for the public key with
    [answer]. *)
Definition xpub (answer : completion TrezorIndex.XpubResponse)
    : TrezorIndex.Service :=
  {| TrezorIndex.payloadListener := fun _ => answer;
     TrezorIndex.PAYLOAD_XPUB :=
       [("type", JStr "xpubkey"); ("requiredFirmware", JStr "1.4.0");
        ("path", JArr [])];
     TrezorIndex.CANCEL_ACC_EXPORT := "Cancelled" |}.

(** A request whose gas price is not a number, and one whose derivation
    path is not a path. *)
Definition invalidRequest : WithDerivationPath.t :=
  {| WithDerivationPath.chainId := 1;
     WithDerivationPath.gasPrice := "nine gwei";
     WithDerivationPath.gasLimit := "5208";
     WithDerivationPath.nonce := 0;
     WithDerivationPath.value := "0";
     WithDerivationPath.inputData := "0x";
     WithDerivationPath.to :=
       Some "0x3535353535353535353535353535353535353535";
     WithDerivationPath.derivationPath := "m/44'/60'/0'/0/0" |}.

Definition invalidPathRequest : WithDerivationPath.t :=
  {| WithDerivationPath.chainId := 1;
     WithDerivationPath.gasPrice := "3b9aca00";
     WithDerivationPath.gasLimit := "5208";
     WithDerivationPath.nonce := 0;
     WithDerivationPath.value := "0";
     WithDerivationPath.inputData := "0x";
     WithDerivationPath.to :=
       Some "0x3535353535353535353535353535353535353535";
     WithDerivationPath.derivationPath := "44/60/0" |}.

(** A Ledger that cannot be reached. *)
Definition noDevice : LedgerService :=
  {| ledgerConnection := Throw (new_Error "No device found");
     handleLedgerConnectionError :=
       fun _ specificMessage => Throw (new_Error specificMessage) |}.

(** The device of [Reference.ledger]. *)
Definition device
    (txAnswer : completion TransactionSignatureReturnType.t)
    (msgAnswer : completion MessageSignatureReturnType.t)
    : LedgerInstanceType.t :=
  {| LedgerInstanceType.signTransaction := fun _ _ => txAnswer;
     LedgerInstanceType.signPersonalMessage := fun _ _ => msgAnswer |}.

(** Defaults that also want the chain id among the required
    properties. *)
Definition strict : WalletDefaults :=
  mkWalletDefaults
    userInputValidator
    (GenericWallet_constructor "0x3535353535353535353535353535353535353535")
    ["to"; "nonce"; "chainId"]
    ["inputData"; "nonce"; "chainId"]
    ["message"; "messageData"]
    ["message"; "signature"]
    "A contract deployment needs the inputData".

(** A contract deployment that leaves the chain id to the wallet. *)
Definition bareDeployment : SignObject.t :=
  {| SignObject.chainId := None;
     SignObject.gasPrice := "3b9aca00";
     SignObject.gasLimit := "0f4240";
     SignObject.nonce := 8;
     SignObject.value := "0";
     SignObject.inputData := "0x6080604052";
     SignObject.to := None |}.

(** A wallet whose derivation path cannot be had. *)
Definition lost : GenericWallet.t :=
  {| GenericWallet.address := "0x3535353535353535353535353535353535353535";
     GenericWallet.chainId := 3;
     GenericWallet.derivationPath := Throw (new_Error "No derivation path");
     GenericWallet.publicKey := Return "04abcdef" |}.

Definition lostTrezorWallet : TrezorWallet.t :=
  TrezorWallet.mk lost TYPE_HARDWARE SUBTYPE_TREZOR.

Definition lostLedgerWallet : LedgerWallet.t :=
  LedgerWallet.mk lost TYPE_HARDWARE SUBTYPE_LEDGER.

(** The caller's object behind [Reference.request], without its
    derivation path, with its properties in the order in which the
    TypeScript variant writes its transaction object. *)
Definition literalRest : jsobj :=
  [ ("chainId", JNum 1);
    ("gasPrice", JStr "3b9aca00");
    ("gasLimit", JStr "5208");
    ("nonce", JNum 0);
    ("value", JStr "0");
    ("inputData", JStr "0x");
    ("to", JStr "0x3535353535353535353535353535353535353535") ].

(** The unsigned transaction that the constructor makes of [transfer]
    for the Ledger variant, on the wallet's chain. *)
Definition unsignedTransfer : Tx.t :=
  Tx.mk (hexBytes "07") (hexBytes "3b9aca00") (hexBytes "5208")
    (hexBytes "3535353535353535353535353535353535353535")
    (hexBytes "0de0b6b3a7640000") [] (hexBytes "03") [] []
    (Common.mk 3 false).

End ReferenceWallet.

(* ================================================================== *)
(** * Properties of the runtime *)
(* ================================================================== *)
(* ================================================================== *)
(** * Properties of the runtime *)
(* ================================================================== *)

Section Objects.

Lemma get_app (o1 o2 : jsobj) (k : string) :
  get (o1 ++ o2)%list k
  = match get o1 k with Some x => Some x | None => get o2 k end.
Proof.
  induction o1 as [|[k0 w] rest IH]; simpl; [reflexivity|].
  destruct (String.eqb k0 k); [reflexivity | exact IH].
Qed.

Lemma get_set (o : jsobj) (k : string) (x : jsval) (k' : string) :
  get (set o k x) k' = if String.eqb k k' then Some x else get o k'.
Proof.
  induction o as [|[k0 w] rest IH]; simpl.
  - reflexivity.
  - destruct (String.eqb_spec k0 k) as [->|Hne]; simpl.
    + destruct (String.eqb k k'); reflexivity.
    + rewrite IH.
      destruct (String.eqb_spec k0 k') as [->|]; [|reflexivity].
      destruct (String.eqb_spec k k') as [->|]; [congruence | reflexivity].
Qed.

(** The last source that has a property decides it. *)
Lemma get_assign1 (source target : jsobj) (k : string) :
  get (assign1 target source) k
  = match get (rev source) k with
    | Some x => Some x
    | None => get target k
    end.
Proof.
  unfold assign1. revert target.
  induction source as [|[k0 w] rest IH]; intros target; simpl.
  - reflexivity.
  - rewrite IH, get_app, get_set. simpl.
    destruct (get (rev rest) k); [reflexivity|].
    destruct (String.eqb k0 k); reflexivity.
Qed.

Lemma get_rev_None (o : jsobj) (k : string) :
  get o k = None -> get (rev o) k = None.
Proof.
  induction o as [|[k0 w] rest IH]; simpl; [trivial|].
  destruct (String.eqb k0 k) eqn:E; [discriminate|].
  intros H. rewrite get_app, (IH H). simpl. now rewrite E.
Qed.

Lemma Object_assign_2 (target a b : jsobj) :
  Object_assign target [a; b] = assign1 (assign1 target a) b.
Proof. reflexivity. Qed.

Lemma Object_assign_3 (target a b c : jsobj) :
  Object_assign target [a; b; c] = assign1 (assign1 (assign1 target a) b) c.
Proof. reflexivity. Qed.

Lemma whenTo_other (x : option string) (f : string -> string) (k : string) :
  String.eqb "to" k = false -> get (rev (whenTo x f)) k = None.
Proof.
  intros Hk. unfold whenTo.
  destruct x as [a|]; [|reflexivity].
  destruct (truthy (Some a)); [|reflexivity].
  cbn [rev app get]. now rewrite Hk.
Qed.

Lemma whenTo_to (x : option string) (f : string -> string) :
  get (rev (whenTo x f)) "to"
  = if truthy x then option_map (fun a => JStr (f a)) x else None.
Proof.
  unfold whenTo. destruct x as [a|]; [|reflexivity].
  destruct (truthy (Some a)); reflexivity.
Qed.

End Objects.

Section Computations.

Context {A B : Type}.

Lemma bind_lift_Return (a : A) (k : A -> M B) :
  bind (lift (Return a)) k = k a.
Proof. unfold bind, lift. simpl. now destruct (k a). Qed.

Lemma bind_lift_Throw (e : Error) (k : A -> M B) :
  bind (lift (Throw e)) k = ([], Throw e).
Proof. reflexivity. Qed.

End Computations.

(* ================================================================== *)
(** * Hexadecimal strings *)
(* ================================================================== *)

Section Hex.

Lemma hexDigit_isHexDigit (n : N) :
  (n < 16)%N -> isHexDigit (hexDigit n) = true.
Proof.
  intros Hn. destruct n as [|p]; [reflexivity|].
  do 4 (try destruct p as [p|p|]); try reflexivity; exfalso; lia.
Qed.

Lemma allHex_toString_hex (b : Buffer) :
  allHex (Buffer_toString_hex b) = true.
Proof.
  induction b as [|x rest IH]; [reflexivity|].
  pose proof (Byte.to_N_bounded x) as Hx.
  cbn [Buffer_toString_hex allHex].
  rewrite !hexDigit_isHexDigit, IH; [reflexivity | |].
  - apply N.mod_lt. discriminate.
  - apply N.Div0.div_lt_upper_bound. lia.
Qed.


(** A sequence of hexadecimal digits has no prefix to strip. *)
Lemma stripPrefix_allHex (s : string) :
  allHex s = true -> stripPrefix s = s.
Proof.
  destruct s as [|c1 [|c2 rest]]; try reflexivity.
  cbn [allHex stripPrefix]. intros H.
  destruct (Ascii.eqb_spec c2 "x") as [->|_].
  - rewrite andb_true_iff in H. destruct H as [_ H]. discriminate H.
  - now rewrite andb_false_r.
Qed.


Lemma stripPrefix_withPrefix (s : string) :
  stripPrefix (withPrefix s) = stripPrefix s.
Proof. reflexivity. Qed.


Lemma even_padToEven (s : string) :
  Nat.even (String.length (padToEven s)) = true.
Proof.
  unfold padToEven. destruct (Nat.even (String.length s)) eqn:E; [exact E|].
  cbn [String.length]. rewrite Nat.even_succ, <- Nat.negb_even, E.
  reflexivity.
Qed.

End Hex.

(* ================================================================== *)
(** * Numbers written in hexadecimal *)
(* ================================================================== *)

Lemma hexValue_from_digits (d : Hexadecimal.uint) (acc : positive) :
  hexValue_from (Npos acc) (HexadecimalString.NilEmpty.string_of_uint d)
  = Npos (Pos.of_hex_uint_acc d acc).
Proof.
  revert acc. induction d; intros acc; [reflexivity | ..];
    cbn [HexadecimalString.NilEmpty.string_of_uint hexValue_from
         Pos.of_hex_uint_acc];
    match goal with
    | |- context [hexDigitValue ?c] =>
        change (hexDigitValue c) with (Some (hexValue (String c "")))
    end;
    rewrite <- IHd; f_equal; unfold hexValue; cbn; lia.
Qed.

Lemma hexValue_digits (d : Hexadecimal.uint) :
  hexValue (HexadecimalString.NilEmpty.string_of_uint d) = Pos.of_hex_uint d.
Proof.
  unfold hexValue.
  induction d; [reflexivity | exact IHd | ..];
    cbn [HexadecimalString.NilEmpty.string_of_uint hexValue_from
         Pos.of_hex_uint];
    match goal with
    | |- context [hexDigitValue ?c] =>
        change (hexDigitValue c) with (Some (hexValue (String c "")))
    end;
    rewrite <- hexValue_from_digits; reflexivity.
Qed.

(** The digits of [n.toString(16)] write [n]. *)
Lemma hexValue_toString16 (n : N) : hexValue (Number_toString16 n) = n.
Proof.
  unfold Number_toString16, HexadecimalString.NilZero.string_of_uint.
  rewrite <- (HexadecimalN.Unsigned.of_to n) at 2.
  unfold N.of_hex_uint.
  destruct (N.to_hex_uint n); try apply hexValue_digits.
  reflexivity.
Qed.

Lemma allHex_digits (d : Hexadecimal.uint) :
  allHex (HexadecimalString.NilEmpty.string_of_uint d) = true.
Proof. induction d; [reflexivity | ..]; exact IHd. Qed.

Lemma allHex_toString16 (n : N) : allHex (Number_toString16 n) = true.
Proof.
  unfold Number_toString16, HexadecimalString.NilZero.string_of_uint.
  destruct (N.to_hex_uint n); try apply allHex_digits. reflexivity.
Qed.


Lemma hexDigitValue_lt (c : ascii) (d : N) :
  hexDigitValue c = Some d -> (d < 16)%N.
Proof.
  unfold hexDigitValue.
  repeat match goal with
  | |- context [if ?b then _ else _] => destruct b eqn:?
  end; intros [= <-];
  repeat match goal with
  | H : (_ && _) = true |- _ => apply andb_true_iff in H; destruct H
  | H : (_ <=? _)%N = true |- _ => apply N.leb_le in H
  end; lia.
Qed.

Lemma to_N_byte_of_N (n : N) : (n < 256)%N -> Byte.to_N (byte_of_N n) = n.
Proof.
  intros Hn. unfold byte_of_N.
  pose proof (byte_of_ascii_via_N (ascii_of_N n)) as H.
  symmetry in H. apply Byte.to_of_N in H.
  now rewrite H, N_ascii_embedding.
Qed.

(** Decoding an even number of hexadecimal digits into bytes, and reading
    the bytes as a big-endian number, gives the number the digits write. *)
Lemma bufferToInt_from_hex (s : string) :
  allHex s = true -> Nat.even (String.length s) = true ->
  bufferToInt (Buffer_from_hex s) = hexValue s.
Proof.
  intros Hhex Heven. apply Nat.even_spec in Heven. destruct Heven as [n Hn].
  unfold bufferToInt, hexValue. generalize 0%N as acc.
  revert s Hhex Hn. induction n as [|n IH]; intros s Hhex Hn acc.
  - destruct s; [reflexivity | discriminate].
  - destruct s as [|c1 [|c2 rest]]; cbn [String.length] in Hn; try lia.
    cbn [allHex] in Hhex. unfold isHexDigit in Hhex.
    cbn [Buffer_from_hex hexValue_from].
    destruct (hexDigitValue c1) as [hi|] eqn:H1; [|discriminate].
    destruct (hexDigitValue c2) as [lo|] eqn:H2; [|discriminate].
    apply hexDigitValue_lt in H1, H2.
    cbn [fold_left]. rewrite to_N_byte_of_N by lia.
    rewrite IH; [f_equal; lia | exact Hhex | lia].
Qed.

Lemma allHex_padToEven (s : string) :
  allHex s = true -> allHex (padToEven s) = true.
Proof. unfold padToEven. now destruct (Nat.even (String.length s)). Qed.

Lemma padToEven_idempotent (s : string) : padToEven (padToEven s) = padToEven s.
Proof. unfold padToEven at 1. now rewrite even_padToEven. Qed.

Lemma hexValue_padToEven (s : string) : hexValue (padToEven s) = hexValue s.
Proof. unfold padToEven. now destruct (Nat.even (String.length s)). Qed.

(** A number written with [toString(16)], padded and prefixed by the two
    normalizers, is read back by a field of the transaction as the same
    number. *)
Lemma hexBytes_normalized_number (n : N) :
  bufferToInt (hexBytes (hexSequenceNormalizer
    (multipleOfTwoHexValueNormalizer (Number_toString16 n)) true)) = n.
Proof.
  unfold hexBytes, hexSequenceNormalizer, multipleOfTwoHexValueNormalizer.
  cbn [toString16].
  rewrite stripPrefix_withPrefix.
  rewrite (stripPrefix_allHex _ (allHex_padToEven _ (allHex_toString16 n))).
  rewrite padToEven_idempotent.
  rewrite bufferToInt_from_hex.
  - now rewrite hexValue_padToEven, hexValue_toString16.
  - apply allHex_padToEven, allHex_toString16.
  - apply even_padToEven.
Qed.

(* ================================================================== *)
(** * RLP and hex, there and back *)
(* ================================================================== *)

Lemma firstn_length_app (b rest : Buffer) :
  firstn (List.length b) (b ++ rest)%list = b.
Proof. induction b as [|x b IH]; [reflexivity | cbn; now rewrite IH]. Qed.

Lemma skipn_length_app (b rest : Buffer) :
  skipn (List.length b) (b ++ rest)%list = rest.
Proof. induction b as [|x b IH]; [reflexivity | exact IH]. Qed.

Lemma take_app (b rest : Buffer) :
  take (blen b) (b ++ rest)%list = Some (b, rest).
Proof.
  unfold take, blen. rewrite Nat2N.id, firstn_length_app, skipn_length_app.
  rewrite length_app.
  destruct (N.leb_spec (N.of_nat (List.length b))
              (N.of_nat (List.length b + List.length rest))); [reflexivity | lia].
Qed.

Lemma take_all (b : Buffer) : take (blen b) b = Some (b, []).
Proof. rewrite <- (app_nil_r b) at 2. apply take_app. Qed.

Lemma fold_bigEndian_loop (fuel : nat) (n : N) (acc : Buffer) :
  (n < 2 ^ N.of_nat fuel)%N ->
  fold_left (fun a x => (256 * a + Byte.to_N x)%N)
    (bigEndian_loop fuel n acc) 0%N
  = fold_left (fun a x => (256 * a + Byte.to_N x)%N) acc n.
Proof.
  revert n acc. induction fuel as [|fuel IH]; intros n acc Hn.
  - cbn in Hn. assert (n = 0%N) as -> by lia. reflexivity.
  - cbn [bigEndian_loop]. destruct (N.eqb_spec n 0) as [->|Hnz]; [reflexivity|].
    rewrite IH.
    + cbn [fold_left]. rewrite to_N_byte_of_N.
      * f_equal. pose proof (N.div_mod n 256). lia.
      * apply N.mod_lt. discriminate.
    + rewrite Nat2N.inj_succ, N.pow_succ_r' in Hn.
      apply N.Div0.div_lt_upper_bound. lia.
Qed.

Lemma bufferToInt_bigEndian (n : N) : bufferToInt (bigEndian n) = n.
Proof.
  unfold bufferToInt, bigEndian. rewrite fold_bigEndian_loop; [reflexivity|].
  rewrite N2Nat.id. apply N.size_gt.
Qed.

Lemma length_bigEndian_loop_le (k fuel : nat) (n : N) (acc : Buffer) :
  (n < 256 ^ N.of_nat k)%N ->
  List.length (bigEndian_loop fuel n acc) <= k + List.length acc.
Proof.
  revert k n acc. induction fuel as [|fuel IH]; intros k n acc Hn; cbn; [lia|].
  destruct (N.eqb_spec n 0) as [->|Hnz]; [lia|].
  destruct k as [|k]; [cbn in Hn; lia|].
  rewrite Nat2N.inj_succ, N.pow_succ_r' in Hn.
  specialize (IH k (n / 256)%N (byte_of_N (n mod 256) :: acc)).
  cbn [List.length] in IH. rewrite <- Nat.add_succ_comm in IH. apply IH.
  apply N.Div0.div_lt_upper_bound. lia.
Qed.

Lemma length_bigEndian_loop_ge (fuel : nat) (n : N) (acc : Buffer) :
  List.length acc <= List.length (bigEndian_loop fuel n acc).
Proof.
  revert n acc. induction fuel as [|fuel IH]; intros n acc; cbn; [lia|].
  destruct (n =? 0)%N; [lia|].
  specialize (IH (n / 256)%N (byte_of_N (n mod 256) :: acc)). cbn in IH. lia.
Qed.

Lemma blen_bigEndian (n : N) :
  (n <> 0)%N -> (n < 2 ^ 64)%N -> (1 <= blen (bigEndian n) <= 8)%N.
Proof.
  intros Hnz Hn. unfold blen, bigEndian. split.
  - destruct (N.to_nat (N.size n)) as [|fuel] eqn:Hfuel.
    + destruct n; [contradiction | cbn in Hfuel; lia].
    + cbn [bigEndian_loop]. destruct (N.eqb_spec n 0); [contradiction|].
      pose proof (length_bigEndian_loop_ge fuel (n / 256)%N
                    [byte_of_N (n mod 256)]) as H.
      cbn [List.length] in H. lia.
  - pose proof (length_bigEndian_loop_le 8 (N.to_nat (N.size n)) n []) as H.
    cbn [List.length] in H. change (256 ^ N.of_nat 8)%N with (2 ^ 64)%N in H.
    specialize (H Hn). lia.
Qed.

(** Reading back a byte string written behind its length. *)
Lemma rlp_decode_bytes_length (b rest : Buffer) :
  (blen b < 2 ^ 64)%N ->
  rlp_decode_bytes ((rlp_length (blen b) 128 ++ b) ++ rest)%list = Some (b, rest).
Proof.
  intros Hb. unfold rlp_length.
  destruct (N.ltb_spec (blen b) 56) as [Hshort|Hlong].
  - cbn [app rlp_decode_bytes]. rewrite to_N_byte_of_N by lia.
    destruct (N.ltb_spec (blen b + 128) 128); [lia|].
    destruct (N.ltb_spec (blen b + 128) 184); [|lia].
    replace (blen b + 128 - 128)%N with (blen b) by lia. apply take_app.
  - pose proof (blen_bigEndian (blen b) ltac:(lia) Hb) as Hdigits.
    cbn [app rlp_decode_bytes]. rewrite to_N_byte_of_N by lia.
    destruct (N.ltb_spec (blen (bigEndian (blen b)) + 128 + 55) 128); [lia|].
    destruct (N.ltb_spec (blen (bigEndian (blen b)) + 128 + 55) 184); [lia|].
    destruct (N.ltb_spec (blen (bigEndian (blen b)) + 128 + 55) 192); [|lia].
    replace (blen (bigEndian (blen b)) + 128 + 55 - 183)%N
      with (blen (bigEndian (blen b))) by lia.
    rewrite <- !app_assoc, take_app, bufferToInt_bigEndian. apply take_app.
Qed.

Lemma rlp_decode_bytes_encode (b rest : Buffer) :
  (blen b < 2 ^ 64)%N ->
  rlp_decode_bytes (rlp_encode_bytes b ++ rest)%list = Some (b, rest).
Proof.
  intros Hb. unfold rlp_encode_bytes.
  destruct b as [|x [|y b]]; try apply (rlp_decode_bytes_length _ rest Hb).
  destruct (N.ltb_spec (Byte.to_N x) 128) as [Hx|Hx].
  - cbn [app rlp_decode_bytes].
    destruct (N.ltb_spec (Byte.to_N x) 128); [reflexivity | lia].
  - apply (rlp_decode_bytes_length [x] rest Hb).
Qed.

Lemma rlp_encode_bytes_length (b : Buffer) :
  1 <= List.length (rlp_encode_bytes b).
Proof.
  unfold rlp_encode_bytes, rlp_length.
  destruct b as [|x [|y b]];
    repeat match goal with
    | |- context [if ?c then _ else _] => destruct c
    end; cbn; lia.
Qed.

Lemma rlp_decode_items_encode (items : list Buffer) (fuel : nat) :
  Forall (fun b => (blen b < 2 ^ 64)%N) items ->
  List.length (List.concat (map rlp_encode_bytes items)) <= fuel ->
  rlp_decode_items fuel (List.concat (map rlp_encode_bytes items)) = Some items.
Proof.
  revert fuel. induction items as [|b items IH]; intros fuel Hall Hfuel.
  - destruct fuel; reflexivity.
  - inversion Hall as [|? ? Hb Hrest]; subst.
    cbn [map List.concat] in *. rewrite length_app in Hfuel.
    pose proof (rlp_encode_bytes_length b) as Hlen.
    destruct fuel as [|fuel]; [lia|].
    cbn [rlp_decode_items].
    destruct (rlp_encode_bytes b ++ List.concat (map rlp_encode_bytes items))%list
      as [|x tail] eqn:Hcons.
    + apply (f_equal (@List.length _)) in Hcons.
      rewrite length_app in Hcons. cbn in Hcons. lia.
    + rewrite <- Hcons, (rlp_decode_bytes_encode b _ Hb).
      rewrite IH; [reflexivity | exact Hrest | lia].
Qed.

(** Decoding an encoded list of byte strings gives the list back. *)
Lemma rlp_decode_encode (items : list Buffer) :
  encodable items -> rlp_decode (rlp_encode items) = Some items.
Proof.
  intros [Hall Hpayload]. unfold rlp_encode, rlp_length.
  set (payload := List.concat (map rlp_encode_bytes items)) in *.
  destruct (N.ltb_spec (blen payload) 56) as [Hshort|Hlong].
  - cbn [app rlp_decode]. rewrite to_N_byte_of_N by lia.
    destruct (N.ltb_spec (blen payload + 192) 192); [lia|].
    destruct (N.ltb_spec (blen payload + 192) 248); [|lia].
    replace (blen payload + 192 - 192)%N with (blen payload) by lia.
    rewrite take_all. now apply rlp_decode_items_encode.
  - pose proof (blen_bigEndian (blen payload) ltac:(lia) Hpayload) as Hdigits.
    cbn [app rlp_decode]. rewrite to_N_byte_of_N by lia.
    destruct (N.ltb_spec (blen (bigEndian (blen payload)) + 192 + 55) 192); [lia|].
    destruct (N.ltb_spec (blen (bigEndian (blen payload)) + 192 + 55) 248); [lia|].
    replace (blen (bigEndian (blen payload)) + 192 + 55 - 247)%N
      with (blen (bigEndian (blen payload))) by lia.
    rewrite take_app, bufferToInt_bigEndian, take_all.
    now apply rlp_decode_items_encode.
Qed.

Lemma hexDigitValue_hexDigit (k : N) :
  (k < 16)%N -> hexDigitValue (hexDigit k) = Some k.
Proof.
  intros Hk. destruct k as [|p]; [reflexivity|].
  do 4 (try destruct p as [p|p|]); try reflexivity; exfalso; lia.
Qed.

Lemma byte_of_N_to_N (x : byte) : byte_of_N (Byte.to_N x) = x.
Proof.
  unfold byte_of_N. rewrite <- ascii_of_byte_via_N.
  apply byte_of_ascii_of_byte.
Qed.

(** [Buffer.from(b.toString('hex'), 'hex')] is [b]. *)
Lemma Buffer_from_hex_toString_hex (b : Buffer) :
  Buffer_from_hex (Buffer_toString_hex b) = b.
Proof.
  induction b as [|x rest IH]; [reflexivity|].
  pose proof (Byte.to_N_bounded x) as Hx.
  cbn [Buffer_toString_hex Buffer_from_hex].
  rewrite !hexDigitValue_hexDigit, IH.
  - f_equal. rewrite <- (byte_of_N_to_N x) at 3. f_equal.
    pose proof (N.div_mod (Byte.to_N x) 16). lia.
  - apply N.mod_lt. discriminate.
  - apply N.Div0.div_lt_upper_bound. lia.
Qed.

(** The hex string that [signTransaction] returns reads back as the nine
    fields of the transaction it serialized. *)
Lemma decodeSigned_serialized (tx : Tx.t) :
  encodable (Tx.raw tx) ->
  decodeSigned (hexSequenceNormalizer
                  (Buffer_toString_hex (Tx.serialize tx)) true)
  = Some (Tx.raw tx).
Proof.
  intros Htx. unfold decodeSigned, hexSequenceNormalizer, Tx.serialize.
  rewrite stripPrefix_withPrefix.
  rewrite (stripPrefix_allHex _ (allHex_toString_hex _)).
  rewrite Buffer_from_hex_toString_hex. now apply rlp_decode_encode.
Qed.

(* ================================================================== *)
(** * The transaction object *)
(* ================================================================== *)

Section Completions.

Context {A B : Type}.

Lemma andThen_Return (c : completion A) (k : A -> completion B) (b : B) :
  andThen c k = Return b -> exists a, c = Return a /\ k a = Return b.
Proof. destruct c as [a|e]; [now exists a | discriminate]. Qed.

End Completions.

Lemma toBuffer_string (x : string) (b : Buffer) :
  toBuffer (FromString x) = Return b ->
  isHexString x = true /\ b = hexBytes x.
Proof.
  unfold toBuffer. destruct (isHexString x); [|discriminate].
  now intros [= <-].
Qed.

(** The setters of [data] and [v] store what [toBuffer] gives. *)
Lemma setter_unbounded (field : Tx.Field) (x : fieldValue) :
  Tx.byteLength field = None -> Tx.allowZero field = true ->
  Tx.setter field x = toBuffer x.
Proof.
  intros Hlength Hzero. unfold Tx.setter.
  destruct (toBuffer x) as [b|e]; [|reflexivity].
  cbn [andThen]. rewrite Hlength, Hzero.
  destruct b as [|z [|z' rest]]; try reflexivity.
  now rewrite andb_false_r.
Qed.

(** The setter of a field that allows less stores what [toBuffer] gives
    without its leading zeros, if that fits the field. *)
Lemma setter_allowLess (field : Tx.Field) (n : N) (x : fieldValue) (b : Buffer) :
  Tx.byteLength field = Some n -> Tx.allowLess field = true ->
  Tx.setter field x = Return b ->
  exists given, toBuffer x = Return given /\ b = stripZeros given
                /\ (blen b <= n)%N.
Proof.
  intros Hlength Hless. unfold Tx.setter.
  destruct (toBuffer x) as [given|e]; [|discriminate].
  cbn [andThen]. rewrite Hlength, Hless. intros H. exists given.
  split; [reflexivity|].
  assert (stripZeros
            match given with
            | [z] => if (Byte.to_N z =? 0)%N && negb (Tx.allowZero field)
                     then [] else given
            | _ => given
            end = stripZeros given) as Hstrip.
  { destruct given as [|z [|z' rest]]; try reflexivity.
    destruct (N.eqb_spec (Byte.to_N z) 0) as [Hz|Hz];
      [|reflexivity].
    destruct (Tx.allowZero field); cbn [negb andb stripZeros];
      [reflexivity|].
    apply N.eqb_eq in Hz. now rewrite Hz. }
  rewrite Hstrip in H. unfold assert in H.
  destruct (N.leb_spec (blen (stripZeros given)) n); [|discriminate].
  cbn [andThen] in H. injection H as <-. now split.
Qed.

(** The setter of [to] stores what [toBuffer] gives: twenty bytes, or
    none. *)
Lemma setter_to (x : fieldValue) (b : Buffer) :
  Tx.setter Tx.toField x = Return b ->
  toBuffer x = Return b /\ (b = [] \/ blen b = 20%N).
Proof.
  unfold Tx.setter. destruct (toBuffer x) as [given|e]; [|discriminate].
  cbn [andThen Tx.toField Tx.byteLength Tx.allowLess Tx.allowZero negb].
  assert (match given with
          | [z] => if (Byte.to_N z =? 0)%N && false then [] else given
          | _ => given
          end = given) as Hsame.
  { destruct given as [|z [|z' rest]]; try reflexivity.
    now rewrite andb_false_r. }
  rewrite Hsame. cbn [andb]. unfold assert.
  destruct (N.eqb_spec (blen given) 0) as [Hnone|Hsome].
  - intros [= <-]. split; [reflexivity|]. left.
    destruct given; [reflexivity | discriminate].
  - destruct (N.eqb_spec (blen given) 20) as [Htwenty|Hother];
      [|discriminate].
    intros [= <-]. split; [reflexivity | now right].
Qed.

(** What an accepted constructor call says of each field. *)
Lemma create_fields (txData : jsobj) (opts : TransactionOptions) (tx : Tx.t) :
  Tx.create txData opts = Return tx ->
  opts = Return (Tx.common tx)
  /\ Tx.setter Tx.nonceField (Tx.given txData "nonce") = Return (Tx.nonce tx)
  /\ Tx.setter Tx.gasPriceField (Tx.given txData "gasPrice")
     = Return (Tx.gasPrice tx)
  /\ Tx.setter Tx.gasLimitField (Tx.given txData "gasLimit")
     = Return (Tx.gasLimit tx)
  /\ Tx.setter Tx.toField (Tx.given txData "to") = Return (Tx.to tx)
  /\ Tx.setter Tx.valueField (Tx.given txData "value") = Return (Tx.value tx)
  /\ Tx.setter Tx.dataField (Tx.given txData "data") = Return (Tx.data tx)
  /\ Tx.setter Tx.vField (Tx.given txData "v") = Return (Tx.v tx)
  /\ Tx.setter Tx.rField (Tx.given txData "r") = Return (Tx.r tx)
  /\ Tx.setter Tx.sField (Tx.given txData "s") = Return (Tx.s tx)
  /\ Tx.validateV (Tx.common tx) (Tx.v tx) = Return tt.
Proof.
  unfold Tx.create. intros H.
  repeat match type of H with
  | andThen _ _ = Return _ =>
      apply andThen_Return in H; destruct H as (? & ? & H)
  end.
  injection H as <-. cbn.
  match goal with Hv : Tx.validateV _ _ = Return ?u |- _ => destruct u end.
  repeat split; assumption.
Qed.

(** A field that is given a normalized hex string holds the bytes that
    the string writes. *)
Lemma given_string (txData : jsobj) (key x : string) :
  get txData key = Some (JStr x) -> Tx.given txData key = FromString x.
Proof. unfold Tx.given. now intros ->. Qed.

Lemma given_nothing (txData : jsobj) (key : string) :
  get txData key = None -> Tx.given txData key = FromBuffer [].
Proof. unfold Tx.given. now intros ->. Qed.

(** A recovery value that is not there passes the validation on every
    chain. *)
Lemma validateV_empty (common : Common.t) : Tx.validateV common [] = Return tt.
Proof. reflexivity. Qed.


Lemma ledger_signedTransaction
    (unsigned : Tx.t) (sig : TransactionSignatureReturnType.t) :
  Ledger.signedTransaction unsigned sig = Return (unsignedFields unsigned).
Proof. reflexivity. Qed.
(* ================================================================== *)
(** * The unsigned transaction object *)
(* ================================================================== *)

(** What the fee and data slots of the Ledger's unsigned transaction hold;
    [LedgerFlow] builds the same object. *)
Lemma ledger_unsigned_slots (core : Core) (validated : TransactionObjectTypeWithTo) :
  let txData := Ledger.unsignedTransactionData core validated in
  get txData "gasPrice" = Some (JStr (hexSequenceNormalizer
    (multipleOfTwoHexValueNormalizer (gasPrice validated)) true))
  /\ get txData "gasLimit" = Some (JStr (hexSequenceNormalizer
    (multipleOfTwoHexValueNormalizer (gasLimit validated)) true))
  /\ get txData "nonce" = Some (JStr (hexSequenceNormalizer
    (multipleOfTwoHexValueNormalizer (Number_toString16 (nonce validated))) true))
  /\ get txData "value" = Some (JStr (hexSequenceNormalizer
    (multipleOfTwoHexValueNormalizer (value validated)) true))
  /\ get txData "data" = Some (JStr (hexSequenceNormalizer
    (inputData validated) true)).
Proof.
  unfold Ledger.unsignedTransactionData. rewrite Object_assign_2.
  repeat split; rewrite get_assign1, whenTo_other by reflexivity;
    rewrite get_assign1; reflexivity.
Qed.

Lemma flow_unsignedTransactionData (core : Core) (validated : TransactionObjectTypeWithTo) :
  LedgerFlow.unsignedTransactionData core validated
  = Ledger.unsignedTransactionData core validated.
Proof.
  unfold LedgerFlow.unsignedTransactionData, Ledger.unsignedTransactionData.
  unfold multipleOfTwoHexValueNormalizer.
  destruct validated as [c gp gl n v d t]; simpl.
  destruct gp, gl, v; reflexivity.
Qed.

(** The Trezor's unsigned transaction takes its [gasLimit] slot from the
    gas price of the request. *)
Lemma trezor_unsigned_slots (core : Core) (validated : TransactionObjectTypeWithTo) :
  let txData := Trezor.unsignedTransactionData core validated in
  get txData "gasPrice" = Some (JStr (hexSequenceNormalizer
    (multipleOfTwoHexValueNormalizer (gasPrice validated)) true))
  /\ get txData "gasLimit" = Some (JStr (hexSequenceNormalizer
    (multipleOfTwoHexValueNormalizer (gasPrice validated)) true))
  /\ get txData "nonce" = Some (JStr (hexSequenceNormalizer
    (multipleOfTwoHexValueNormalizer (Number_toString16 (nonce validated))) true))
  /\ get txData "value" = Some (JStr (hexSequenceNormalizer
    (multipleOfTwoHexValueNormalizer (value validated)) true))
  /\ get txData "data" = Some (JStr (hexSequenceNormalizer
    (inputData validated) true)).
Proof. repeat split. Qed.

(** C1, at a request where it fails.  The request asks for the gas price
    [3b9aca00] and the gas limit [5208].  The object of the Ledger's
    unsigned transaction has [0x5208] in its [gasLimit] slot, and so has
    the payload that the Trezor variant sends to its service; the object
    of the Trezor's unsigned transaction has the gas price there, and the
    transaction that the Trezor variant returns carries the gas price
    twice. *)
Theorem C1_trezor_gasLimit_slot_holds_the_gas_price :
  let core := Reference.core (Return true) in
  let service := Reference.trezor (Return (Trezor.mkResponse
                   Reference.rHex Reference.sHex 37 None true)) in
  let validated := transactionObjectOf Reference.request in
  transactionObjectValidator core (transactionObjectOf Reference.request)
    = Return validated
  /\ gasPrice validated = NumStr "3b9aca00"
  /\ gasLimit validated = NumStr "5208"
  /\ get (Ledger.unsignedTransactionData core validated) "gasLimit"
     = Some (JStr "0x5208")
  /\ get (Trezor.modifiedPayloadObject core service validated
            (WithDerivationPath.derivationPath Reference.request)) "gas_limit"
     = Some (JStr "5208")
  /\ get (Trezor.unsignedTransactionData core validated) "gasLimit"
     = Some (JStr "0x3b9aca00")
  /\ exists out,
       outcome (Trezor.signTransaction Reference.messages core service
                  Reference.request) = Return out
       /\ option_map (map Buffer_toString_hex) (decodeSigned out)
          = Some [""; "3b9aca00"; "3b9aca00"; ""; ""; ""; ""; ""; ""].
Proof.
  cbv zeta. repeat (split; [reflexivity|]).
  eexists. split; [reflexivity | vm_compute; reflexivity].
Qed.

(** The [v] slot of the object that the Ledger variant hands to the
    constructor. *)
Lemma ledger_unsigned_v_slot (core : Core) (validated : TransactionObjectTypeWithTo) :
  get (Ledger.unsignedTransactionData core validated) "v"
  = Some (JStr (hexSequenceNormalizer (multipleOfTwoHexValueNormalizer
             (Number_toString16 (chainId validated))) true)).
Proof.
  unfold Ledger.unsignedTransactionData. rewrite Object_assign_2.
  rewrite get_assign1, whenTo_other by reflexivity.
  rewrite get_assign1. reflexivity.
Qed.

(** A constructor that accepted an object whose [v] slot holds the
    normalized digits of a number made a transaction whose [v] field
    reads as that number. *)
Lemma created_v_reads_the_seed
    (txData : jsobj) (opts : TransactionOptions) (tx : Tx.t) (n : N) :
  get txData "v"
    = Some (JStr (hexSequenceNormalizer (multipleOfTwoHexValueNormalizer
               (Number_toString16 n)) true)) ->
  Tx.create txData opts = Return tx ->
  bufferToInt (Tx.v tx) = n.
Proof.
  intros Hseed Hcreate.
  destruct (create_fields _ _ _ Hcreate)
    as (_ & _ & _ & _ & _ & _ & _ & Hv & _).
  rewrite (given_string _ _ _ Hseed) in Hv.
  rewrite setter_unbounded in Hv by reflexivity.
  apply toBuffer_string in Hv. destruct Hv as [_ ->].
  apply hexBytes_normalized_number.
Qed.

(** C5. For every validated transaction request, the object from which
    [signTransaction] makes the unsigned transaction has its signature
    slots seeded, in the Trezor and in the Ledger variant alike: [r] and
    [s] hold the normalized placeholders [SIGNATURE.R] and [SIGNATURE.S],
    and [v] holds the hexadecimal digits of the request's chain id, padded
    to an even number and prefixed; the [v] field of the unsigned
    transaction that the constructor makes of the object then reads as
    the chain id. *)
Theorem C5_signature_slots_seeded :
  forall (core : Core) (validated : TransactionObjectTypeWithTo),
    let seedR := JStr (hexSequenceNormalizer (multipleOfTwoHexValueNormalizer
                   (String_of_number (SIGNATURE_R core))) true) in
    let seedS := JStr (hexSequenceNormalizer (multipleOfTwoHexValueNormalizer
                   (String_of_number (SIGNATURE_S core))) true) in
    let seedV := JStr (hexSequenceNormalizer (multipleOfTwoHexValueNormalizer
                   (Number_toString16 (chainId validated))) true) in
    (get (Trezor.unsignedTransactionData core validated) "r" = Some seedR
     /\ get (Trezor.unsignedTransactionData core validated) "s" = Some seedS
     /\ get (Trezor.unsignedTransactionData core validated) "v" = Some seedV
     /\ forall unsigned : Tx.t,
          Trezor.unsignedTransaction core validated = Return unsigned ->
          bufferToInt (Tx.v unsigned) = chainId validated)
    /\
    (get (Ledger.unsignedTransactionData core validated) "r" = Some seedR
     /\ get (Ledger.unsignedTransactionData core validated) "s" = Some seedS
     /\ get (Ledger.unsignedTransactionData core validated) "v" = Some seedV
     /\ forall unsigned : Tx.t,
          Ledger.unsignedTransaction core validated = Return unsigned ->
          bufferToInt (Tx.v unsigned) = chainId validated).
Proof.
  intros core validated seedR seedS seedV.
  split; split; [reflexivity | split; [reflexivity | split; [reflexivity|]]
                | | split; [| split; [apply ledger_unsigned_v_slot|]]].
  - intros unsigned Hcreate.
    apply (created_v_reads_the_seed
             (Trezor.unsignedTransactionData core validated)
             (getChainDefinition core (chainId validated)));
      [reflexivity | exact Hcreate].
  - unfold Ledger.unsignedTransactionData. rewrite Object_assign_2.
    rewrite get_assign1, whenTo_other by reflexivity.
    rewrite get_assign1. reflexivity.
  - unfold Ledger.unsignedTransactionData. rewrite Object_assign_2.
    rewrite get_assign1, whenTo_other by reflexivity.
    rewrite get_assign1. reflexivity.
  - intros unsigned Hcreate.
    now apply (created_v_reads_the_seed _ _ _ _
                 (ledger_unsigned_v_slot core validated) Hcreate).
Qed.

Lemma C5_signature_slots_seeded_witness :
  exists unsigned : Tx.t,
    Ledger.unsignedTransaction (Reference.core (Return true))
      (transactionObjectOf Reference.request) = Return unsigned
    /\ bufferToInt (Tx.v unsigned) = 1%N.
Proof.
  eexists. split; [reflexivity|].
  destruct (C5_signature_slots_seeded (Reference.core (Return true))
              (transactionObjectOf Reference.request))
    as [_ (_ & _ & _ & Hv)].
  apply Hv. reflexivity.
Defined.

(* ================================================================== *)
(** * What the signing methods do, path by path *)
(* ================================================================== *)

Ltac run_validators :=
  repeat match goal with
  | H : ?x = Return _ |- context [bind (lift ?x) _] =>
      rewrite H, bind_lift_Return
  | H : ?x = Throw _ |- context [bind (lift ?x) _] =>
      rewrite H, bind_lift_Throw
  end.

Section TrezorRuns.

Variable messages : Messages.
Variable core : Core.
Variable service : Trezor.Service.

(** Once the request and the derivation path are validated and the
    constructor has accepted the unsigned transaction, one payload goes to
    the Trezor service, and its answer decides the result. *)
Lemma trezor_signTransaction_run
    (obj : WithDerivationPath.t) (validated : TransactionObjectTypeWithTo)
    (unsigned : Tx.t) :
  transactionObjectValidator core (transactionObjectOf obj) = Return validated ->
  derivationPathValidator core (WithDerivationPath.derivationPath obj)
    = Return tt ->
  Trezor.unsignedTransaction core validated = Return unsigned ->
  let payload := Trezor.modifiedPayloadObject core service validated
                   (WithDerivationPath.derivationPath obj) in
  Trezor.signTransaction messages core service obj
  = ([TrezorPayload payload],
     match Trezor.payloadListener service payload with
     | Return response =>
         Return (hexSequenceNormalizer (Buffer_toString_hex (Tx.serialize
           (unsignedFields unsigned))) true)
     | Throw caughtError =>
         if String.eqb (message caughtError) (Trezor.CANCEL_TX_SIGN service)
         then Throw (new_Error (userSignTxCancel messages))
         else Throw (new_Error
           (userSignTxGenericError messages ++ ": "
            ++ objectToErrorString core payload ++ " "
            ++ message caughtError))
     end).
Proof.
  intros Hv Hp Hcreate payload. unfold Trezor.signTransaction.
  change (mkTransactionObject _ _ _ _ _ _ _) with (transactionObjectOf obj).
  run_validators. fold payload.
  destruct (Trezor.payloadListener service payload) as [response|e]; simpl.
  - reflexivity.
  - destruct (String.eqb (message e) (Trezor.CANCEL_TX_SIGN service));
      reflexivity.
Qed.

(** A constructor that refuses the unsigned transaction ends the method
    before the payload is made: its error is thrown as it is. *)
Lemma trezor_signTransaction_refused
    (obj : WithDerivationPath.t) (validated : TransactionObjectTypeWithTo)
    (e : Error) :
  transactionObjectValidator core (transactionObjectOf obj) = Return validated ->
  derivationPathValidator core (WithDerivationPath.derivationPath obj)
    = Return tt ->
  Trezor.unsignedTransaction core validated = Throw e ->
  Trezor.signTransaction messages core service obj = ([], Throw e).
Proof.
  intros Hv Hp Hcreate. unfold Trezor.signTransaction.
  change (mkTransactionObject _ _ _ _ _ _ _) with (transactionObjectOf obj).
  now run_validators.
Qed.

Lemma trezor_signMessage_run (o : SignMessage.t) (toSign : bufferSource) :
  derivationPathValidator core (SignMessage.derivationPath o) = Return tt ->
  messageOrDataValidator core (SignMessage.message o)
    (SignMessage.messageData o) = Return toSign ->
  let payload := signMessagePayload core service o toSign in
  Trezor.signMessage messages core service (ArgObject o)
  = ([Warned (messageSignatureOnlyTrezor messages); TrezorPayload payload],
     match Trezor.payloadListener service payload with
     | Return response =>
         Return (hexSequenceNormalizer
           match Trezor.signature response with
           | Some x => x
           | None => ""
           end true)
     | Throw caughtError =>
         if String.eqb (message caughtError) (Trezor.CANCEL_TX_SIGN service)
         then Throw (new_Error (userSignTxCancel messages))
         else Throw (new_Error
           (userSignTxGenericError messages ++ ": message: ("
            ++ interpolate (SignMessage.message o) ++ ") "
            ++ message caughtError))
     end).
Proof.
  intros Hp Hm payload. unfold Trezor.signMessage.
  run_validators. fold (signMessagePayload core service o toSign). fold payload.
  destruct (Trezor.payloadListener service payload) as [response|e]; simpl.
  - reflexivity.
  - destruct (String.eqb (message e) (Trezor.CANCEL_TX_SIGN service));
      reflexivity.
Qed.

End TrezorRuns.

Section LedgerRuns.

Variable messages : Messages.
Variable core : Core.
Variable service : LedgerService.

(** Once the request is validated, the device is connected, the
    derivation path is validated and the constructor has accepted the
    unsigned transaction, its serialization goes to the device, and the
    device's answer decides the result. *)
Lemma ledger_signTransaction_run
    (obj : WithDerivationPath.t) (validated : TransactionObjectTypeWithTo)
    (ledger : LedgerInstanceType.t) (unsigned : Tx.t) :
  transactionObjectValidator core (transactionObjectOf obj) = Return validated ->
  ledgerConnection service = Return ledger ->
  derivationPathValidator core (WithDerivationPath.derivationPath obj)
    = Return tt ->
  Ledger.unsignedTransaction core validated = Return unsigned ->
  let path := derivationPathNormalizer core
                (WithDerivationPath.derivationPath obj) in
  let unsignedHex := Buffer_toString_hex (Tx.serialize unsigned) in
  Ledger.signTransaction messages core service obj
  = ([LedgerConnection; Warned (userSignInteractionWarning messages);
      LedgerSignTransaction path unsignedHex],
     match LedgerInstanceType.signTransaction ledger path unsignedHex with
     | Return sig =>
         Return (Some (hexSequenceNormalizer (Buffer_toString_hex (Tx.serialize
           (unsignedFields unsigned))) true))
     | Throw caughtError =>
         handleLedgerConnectionError service caughtError
           (userSignTxGenericError messages ++ ": "
            ++ objectToErrorString core
                 (Ledger.transactionObjectEntries (transactionObjectOf obj))
            ++ " " ++ message caughtError)
     end).
Proof.
  intros Hv Hc Hp Hcreate path unsignedHex. unfold Ledger.signTransaction.
  change (mkTransactionObject _ _ _ _ _ _ _) with (transactionObjectOf obj).
  run_validators. rewrite Hc, Hp, Hcreate. subst path unsignedHex.
  destruct (LedgerInstanceType.signTransaction ledger _ _) as [sig|e] eqn:Hs;
    simpl; rewrite Hs; simpl; [reflexivity|].
  unfold lift.
  now destruct (handleLedgerConnectionError service e _).
Qed.

(** A constructor that refuses the unsigned transaction does so inside
    the [try], once the device is connected: nothing is sent for signing,
    and the error handler gets the constructor's error. *)
Lemma ledger_signTransaction_refused
    (obj : WithDerivationPath.t) (validated : TransactionObjectTypeWithTo)
    (ledger : LedgerInstanceType.t) (e : Error) :
  transactionObjectValidator core (transactionObjectOf obj) = Return validated ->
  ledgerConnection service = Return ledger ->
  derivationPathValidator core (WithDerivationPath.derivationPath obj)
    = Return tt ->
  Ledger.unsignedTransaction core validated = Throw e ->
  Ledger.signTransaction messages core service obj
  = ([LedgerConnection],
     handleLedgerConnectionError service e
       (userSignTxGenericError messages ++ ": "
        ++ objectToErrorString core
             (Ledger.transactionObjectEntries (transactionObjectOf obj))
        ++ " " ++ message e)).
Proof.
  intros Hv Hc Hp Hcreate. unfold Ledger.signTransaction.
  change (mkTransactionObject _ _ _ _ _ _ _) with (transactionObjectOf obj).
  run_validators. rewrite Hc, Hp, Hcreate. simpl. unfold lift.
  now destruct (handleLedgerConnectionError service e _).
Qed.

(** The earlier variant, likewise; the three assignments of the signature
    go through the setters, which may refuse them, and the error handler
    gets the dump of the caller's object. *)
Lemma flow_signTransaction_run
    (obj : WithDerivationPath.t) (rest : jsobj)
    (validated : TransactionObjectTypeWithTo)
    (ledger : LedgerInstanceType.t) (unsigned : Tx.t) :
  transactionObjectValidator core (transactionObjectOf obj) = Return validated ->
  ledgerConnection service = Return ledger ->
  derivationPathValidator core (WithDerivationPath.derivationPath obj)
    = Return tt ->
  LedgerFlow.unsignedTransaction core validated = Return unsigned ->
  let path := derivationPathNormalizer core
                (WithDerivationPath.derivationPath obj) in
  let unsignedHex := Buffer_toString_hex (Tx.serialize unsigned) in
  let handled caughtError :=
    handleLedgerConnectionError service caughtError
      (userSignTxGenericError messages ++ ": "
       ++ objectToErrorString core rest ++ " " ++ message caughtError) in
  LedgerFlow.signTransaction messages core service obj rest
  = ([LedgerConnection; Warned (userSignInteractionWarning messages);
      LedgerSignTransaction path unsignedHex],
     match LedgerInstanceType.signTransaction ledger path unsignedHex with
     | Return sig =>
         match LedgerFlow.signedTransaction unsigned sig with
         | Return tx =>
             Return (Some (hexSequenceNormalizer
               (Buffer_toString_hex (Tx.serialize tx)) true))
         | Throw caughtError => handled caughtError
         end
     | Throw caughtError => handled caughtError
     end).
Proof.
  intros Hv Hc Hp Hcreate path unsignedHex handled.
  unfold LedgerFlow.signTransaction.
  change (mkTransactionObject _ _ _ _ _ _ _) with (transactionObjectOf obj).
  run_validators. rewrite Hc, Hp, Hcreate. subst path unsignedHex handled.
  destruct (LedgerInstanceType.signTransaction ledger _ _) as [sig|e] eqn:Hs.
  - destruct (LedgerFlow.signedTransaction unsigned sig) as [tx|e] eqn:Hsigned;
      cbn [bind await lift warning ret try_catch app]; rewrite Hs;
      cbn [bind await lift warning ret try_catch app]; rewrite Hsigned;
      reflexivity.
  - cbn [bind await lift warning ret try_catch app]. rewrite Hs.
    reflexivity.
Qed.

Lemma ledger_signMessage_run
    (o : SignMessage.t) (toSign : bufferSource) (ledger : LedgerInstanceType.t) :
  derivationPathValidator core (SignMessage.derivationPath o) = Return tt ->
  messageOrDataValidator core (SignMessage.message o)
    (SignMessage.messageData o) = Return toSign ->
  ledgerConnection service = Return ledger ->
  let path := derivationPathNormalizer core (SignMessage.derivationPath o) in
  let messageHex := Buffer_toString_hex (Buffer_from toSign) in
  Ledger.signMessage messages core service (ArgObject o)
  = ([LedgerConnection; Warned (userSignMessageInteractionWarning messages);
      LedgerSignPersonalMessage path messageHex],
     match LedgerInstanceType.signPersonalMessage ledger path messageHex with
     | Return sig =>
         Return (Some (hexSequenceNormalizer
           (MessageSignatureReturnType.r sig
            ++ MessageSignatureReturnType.s sig
            ++ Number_toString16 (MessageSignatureReturnType.v sig)) true))
     | Throw caughtError =>
         handleLedgerConnectionError service caughtError
           (userSignTxGenericError messages ++ ": message: ("
            ++ bufferSource_toString toSign ++ ") " ++ message caughtError)
     end).
Proof.
  intros Hp Hm Hc path messageHex. unfold Ledger.signMessage.
  run_validators. rewrite Hc. fold path. fold messageHex. simpl.
  destruct (LedgerInstanceType.signPersonalMessage ledger path messageHex)
    as [sig|e]; simpl; [reflexivity|].
  unfold lift.
  now destruct (handleLedgerConnectionError service e _).
Qed.

End LedgerRuns.

(* ================================================================== *)
(** * The destination address *)
(* ================================================================== *)

(** C8. For every validated transaction request, the payload that the
    Trezor [signTransaction] makes has a [to] property exactly when the
    request has a destination address, and the property holds the address
    without its [0x] prefix (the payload template of [./payloads] not
    having a [to] of its own); the object of the Ledger's unsigned
    transaction has a [to] property, the prefixed address, only when the
    request has one.  That payload is what the Trezor variant sends to
    its service, once the validators and the constructor of the unsigned
    transaction have accepted the request. *)
Theorem C8_destination_only_when_present :
  forall (core : Core) (validated : TransactionObjectTypeWithTo),
    (forall (service : Trezor.Service) (derivationPath : string),
        get (Trezor.PAYLOAD_SIGNTX service) "to" = None ->
        get (Trezor.modifiedPayloadObject core service validated
               derivationPath) "to"
        = if truthy (to validated)
          then option_map (fun a => JStr (stripPrefix a)) (to validated)
          else None)
    /\ get (Ledger.unsignedTransactionData core validated) "to"
       = (if truthy (to validated)
          then option_map (fun a => JStr (withPrefix a)) (to validated)
          else None)
    /\ (forall (messages : Messages) (service : Trezor.Service)
               (obj : WithDerivationPath.t) (unsigned : Tx.t),
           transactionObjectValidator core (transactionObjectOf obj)
             = Return validated ->
           derivationPathValidator core
             (WithDerivationPath.derivationPath obj) = Return tt ->
           Trezor.unsignedTransaction core validated = Return unsigned ->
           events (Trezor.signTransaction messages core service obj)
           = [TrezorPayload
                (Trezor.modifiedPayloadObject core service validated
                   (WithDerivationPath.derivationPath obj))]).
Proof.
  intros core validated. split; [|split].
  - intros service derivationPath Htemplate.
    unfold Trezor.modifiedPayloadObject. rewrite Object_assign_3.
    rewrite get_assign1, whenTo_to.
    destruct (truthy (to validated)) eqn:Et.
    + destruct (to validated); [reflexivity | discriminate].
    + rewrite get_assign1. cbn [rev app get String.eqb Ascii.eqb Bool.eqb].
      rewrite get_assign1. now rewrite (get_rev_None _ _ Htemplate).
  - unfold Ledger.unsignedTransactionData. rewrite Object_assign_2.
    rewrite get_assign1, whenTo_to.
    destruct (truthy (to validated)) eqn:Et.
    + destruct (to validated); [reflexivity | discriminate].
    + rewrite get_assign1. reflexivity.
  - intros messages service obj unsigned Hv Hp Hcreate.
    now rewrite (trezor_signTransaction_run messages core service obj
                   validated unsigned Hv Hp Hcreate).
Qed.

Lemma C8_destination_only_when_present_witness :
  (exists payload,
      events (Trezor.signTransaction Reference.messages
                (Reference.core (Return true))
                (Reference.trezor (Throw (new_Error "Device disconnected")))
                Reference.request)
        = [TrezorPayload payload]
      /\ get payload "to"
         = Some (JStr "3535353535353535353535353535353535353535"))
  /\ get (Ledger.unsignedTransactionData (Reference.core (Return true))
            (transactionObjectOf Reference.request)) "to"
     = Some (JStr "0x3535353535353535353535353535353535353535").
Proof.
  destruct (C8_destination_only_when_present (Reference.core (Return true))
              (transactionObjectOf Reference.request))
    as (Hpayload & Hobject & Hrun).
  split; [|exact Hobject].
  eexists. split.
  - apply (Hrun Reference.messages
             (Reference.trezor (Throw (new_Error "Device disconnected")))
             Reference.request
             Reference.unsignedTrezor);
      reflexivity.
  - apply (Hpayload
             (Reference.trezor (Throw (new_Error "Device disconnected")))
             "m/44'/60'/0'/0/0").
    reflexivity.
Defined.

(* ================================================================== *)
(** * The argument of signMessage *)
(* ================================================================== *)

(** C9. For every argument that is [null] or not an object, [signMessage]
    throws the [signMessageArgumentMissing] error in the Trezor and in the
    Ledger variant alike, whatever the validators and the device would
    do, and without a warning or a request to the device. *)
Theorem C9_signMessage_argument_missing :
  forall (trezorMessages ledgerMessages : Messages) (core : Core)
         (trezor : Trezor.Service) (ledger : LedgerService)
         (obj : jsarg SignMessage.t),
    is_null obj = true \/ typeof obj <> "object" ->
    Trezor.signMessage trezorMessages core trezor obj
      = ([], Throw (new_Error (signMessageArgumentMissing trezorMessages)))
    /\ Ledger.signMessage ledgerMessages core ledger obj
      = ([], Throw (new_Error (signMessageArgumentMissing ledgerMessages))).
Proof.
  intros trezorMessages ledgerMessages core trezor ledger obj Hobj.
  destruct obj; try (split; reflexivity).
  destruct Hobj as [Hnull | Htype]; [discriminate | now elim Htype].
Qed.

Lemma C9_signMessage_argument_missing_witness :
  Trezor.signMessage Reference.messages (Reference.core (Return true))
      (Reference.trezor (Throw (new_Error "unused"))) (ArgString "hello")
    = ([], Throw (new_Error "The signMessage argument is missing"))
  /\ Ledger.signMessage Reference.messages (Reference.core (Return true))
      (Reference.ledger (Throw (new_Error "unused")) (Throw (new_Error "unused")))
      (ArgString "hello")
    = ([], Throw (new_Error "The signMessage argument is missing")).
Proof.
  apply (C9_signMessage_argument_missing Reference.messages Reference.messages).
  right. discriminate.
Defined.

(* ================================================================== *)
(** * Failures of the backend *)
(* ================================================================== *)

(** C4. When the Trezor service fails while signing a transaction or a
    message, and the error's message is the cancellation signal
    [STD_ERRORS.CANCEL_TX_SIGN], the caller gets an error whose message is
    the fixed [userSignTxCancel], with nothing of the payload or of the
    request in it, and not the generic error.  The method has sent its
    one payload to the service by then (after the Trezor-only warning,
    for a message) and does nothing else. *)
Theorem C4_cancellation_is_reported_as_cancelled :
  forall (messages : Messages) (core : Core) (service : Trezor.Service),
    (forall (obj : WithDerivationPath.t)
            (validated : TransactionObjectTypeWithTo) (unsigned : Tx.t)
            (caughtError : Error),
        transactionObjectValidator core (transactionObjectOf obj)
          = Return validated ->
        derivationPathValidator core (WithDerivationPath.derivationPath obj)
          = Return tt ->
        Trezor.unsignedTransaction core validated = Return unsigned ->
        Trezor.payloadListener service
          (Trezor.modifiedPayloadObject core service validated
             (WithDerivationPath.derivationPath obj)) = Throw caughtError ->
        message caughtError = Trezor.CANCEL_TX_SIGN service ->
        Trezor.signTransaction messages core service obj
        = ([TrezorPayload
              (Trezor.modifiedPayloadObject core service validated
                 (WithDerivationPath.derivationPath obj))],
           Throw (new_Error (userSignTxCancel messages))))
    /\
    (forall (o : SignMessage.t) (toSign : bufferSource) (caughtError : Error),
        derivationPathValidator core (SignMessage.derivationPath o)
          = Return tt ->
        messageOrDataValidator core (SignMessage.message o)
          (SignMessage.messageData o) = Return toSign ->
        Trezor.payloadListener service
          (signMessagePayload core service o toSign) = Throw caughtError ->
        message caughtError = Trezor.CANCEL_TX_SIGN service ->
        Trezor.signMessage messages core service (ArgObject o)
        = ([Warned (messageSignatureOnlyTrezor messages);
            TrezorPayload (signMessagePayload core service o toSign)],
           Throw (new_Error (userSignTxCancel messages)))).
Proof.
  intros messages core service. split.
  - intros obj validated unsigned e Hv Hp Hcreate He Hcancel.
    rewrite (trezor_signTransaction_run messages core service obj validated
               unsigned Hv Hp Hcreate).
    cbv zeta. rewrite He, Hcancel, String.eqb_refl. reflexivity.
  - intros o toSign e Hp Hm He Hcancel.
    rewrite (trezor_signMessage_run messages core service o toSign Hp Hm).
    cbv zeta. rewrite He, Hcancel, String.eqb_refl. reflexivity.
Qed.

Lemma C4_cancellation_is_reported_as_cancelled_witness :
  (exists payload,
      Trezor.signTransaction Reference.messages
        (Reference.core (Return true))
        (Reference.trezor (Throw (new_Error "Action cancelled by user")))
        Reference.request
      = ([TrezorPayload payload],
         Throw (new_Error "User cancelled signing the transaction")))
  /\ (exists payload,
        Trezor.signMessage Reference.messages
          (Reference.core (Return true))
          (Reference.trezor (Throw (new_Error "Action cancelled by user")))
          (ArgObject (SignMessage.mk "m/44'/60'/0'/0/0" (Some "hello") None))
        = ([Warned "Signatures made with a Trezor verify only on a Trezor";
            TrezorPayload payload],
           Throw (new_Error "User cancelled signing the transaction"))).
Proof.
  pose proof (C4_cancellation_is_reported_as_cancelled Reference.messages
                (Reference.core (Return true))
                (Reference.trezor (Throw (new_Error "Action cancelled by user"))))
    as [Htx Hmsg].
  split; eexists.
  - apply (Htx Reference.request (transactionObjectOf Reference.request)
             Reference.unsignedTrezor
             (new_Error "Action cancelled by user")); reflexivity.
  - apply (Hmsg (SignMessage.mk "m/44'/60'/0'/0/0" (Some "hello") None)
             (SrcString "hello") (new_Error "Action cancelled by user"));
      reflexivity.
Defined.

(** C7, as the code has it.  When the Trezor service fails while signing a
    transaction and the error is not the cancellation signal, the caller
    gets an error made of [userSignTxGenericError], the dump of the payload
    that was sent to the service, and the message of the original error.
    When the Ledger device fails, the error handler
    [handleLedgerConnectionError] is given the original error, and a
    message made of [userSignTxGenericError], the dump of the transaction
    object as the caller passed it, and the message of the original
    error.  Both are about a request that the validators and the
    constructor of the unsigned transaction have accepted. *)
Theorem C7_generic_error_context :
  forall (messages : Messages) (core : Core),
    (forall (service : Trezor.Service) (obj : WithDerivationPath.t)
            (validated : TransactionObjectTypeWithTo) (unsigned : Tx.t)
            (caughtError : Error),
        transactionObjectValidator core (transactionObjectOf obj)
          = Return validated ->
        derivationPathValidator core (WithDerivationPath.derivationPath obj)
          = Return tt ->
        Trezor.unsignedTransaction core validated = Return unsigned ->
        Trezor.payloadListener service
          (Trezor.modifiedPayloadObject core service validated
             (WithDerivationPath.derivationPath obj)) = Throw caughtError ->
        message caughtError <> Trezor.CANCEL_TX_SIGN service ->
        Trezor.signTransaction messages core service obj
          = ([TrezorPayload (Trezor.modifiedPayloadObject core service validated
                (WithDerivationPath.derivationPath obj))],
             Throw (new_Error
               (userSignTxGenericError messages ++ ": "
                ++ objectToErrorString core
                     (Trezor.modifiedPayloadObject core service validated
                        (WithDerivationPath.derivationPath obj))
                ++ " " ++ message caughtError))))
    /\
    (forall (service : LedgerService) (obj : WithDerivationPath.t)
            (validated : TransactionObjectTypeWithTo)
            (ledger : LedgerInstanceType.t) (unsigned : Tx.t)
            (caughtError : Error),
        transactionObjectValidator core (transactionObjectOf obj)
          = Return validated ->
        ledgerConnection service = Return ledger ->
        derivationPathValidator core (WithDerivationPath.derivationPath obj)
          = Return tt ->
        Ledger.unsignedTransaction core validated = Return unsigned ->
        LedgerInstanceType.signTransaction ledger
          (derivationPathNormalizer core (WithDerivationPath.derivationPath obj))
          (Buffer_toString_hex (Tx.serialize unsigned))
          = Throw caughtError ->
        Ledger.signTransaction messages core service obj
          = ([LedgerConnection; Warned (userSignInteractionWarning messages);
              LedgerSignTransaction
                (derivationPathNormalizer core
                   (WithDerivationPath.derivationPath obj))
                (Buffer_toString_hex (Tx.serialize unsigned))],
             handleLedgerConnectionError service caughtError
               (userSignTxGenericError messages ++ ": "
                ++ objectToErrorString core
                     (Ledger.transactionObjectEntries (transactionObjectOf obj))
                ++ " " ++ message caughtError))).
Proof.
  intros messages core. split.
  - intros service obj validated unsigned e Hv Hp Hcreate He Hother.
    rewrite (trezor_signTransaction_run messages core service obj validated
               unsigned Hv Hp Hcreate).
    cbn zeta. rewrite He.
    destruct (String.eqb_spec (message e) (Trezor.CANCEL_TX_SIGN service));
      [contradiction | reflexivity].
  - intros service obj validated ledger unsigned e Hv Hc Hp Hcreate He.
    rewrite (ledger_signTransaction_run messages core service obj validated
               ledger unsigned Hv Hc Hp Hcreate).
    cbv zeta. now rewrite He.
Qed.

Lemma C7_generic_error_context_witness :
  outcome (Trezor.signTransaction Reference.messages
             (Reference.core (Return true))
             (Reference.trezor (Throw (new_Error "Device disconnected")))
             Reference.request)
    = Throw (new_Error
        ("Could not sign the transaction: type: signtx, requiredFirmware: 1.4.0, "
         ++ "address_n: 2147483692,2147483708,2147483648,0,0, "
         ++ "gas_price: 3b9aca00, gas_limit: 5208, chain_id: 1, nonce: 00, "
         ++ "value: 00, data: , to: 3535353535353535353535353535353535353535 "
         ++ "Device disconnected"))
  /\ outcome (Ledger.signTransaction Reference.messages
             (Reference.core (Return true))
             (Reference.ledger (Throw (new_Error "Device disconnected"))
                (Throw (new_Error "unused")))
             Reference.request)
    = Throw (new_Error
        ("Could not sign the transaction: chainId: 1, gasPrice: 3b9aca00, "
         ++ "gasLimit: 5208, nonce: 0, value: 0, inputData: 0x, "
         ++ "to: 0x3535353535353535353535353535353535353535 "
         ++ "Device disconnected")).
Proof.
  pose proof (C7_generic_error_context Reference.messages
                (Reference.core (Return true))) as [Htrezor Hledger].
  split.
  - rewrite (Htrezor (Reference.trezor (Throw (new_Error "Device disconnected")))
               Reference.request (transactionObjectOf Reference.request)
               Reference.unsignedTrezor
               (new_Error "Device disconnected"));
      [reflexivity | reflexivity | reflexivity | reflexivity | reflexivity
       | discriminate].
  - rewrite (Hledger (Reference.ledger (Throw (new_Error "Device disconnected"))
                        (Throw (new_Error "unused")))
               Reference.request (transactionObjectOf Reference.request)
               (ReferenceWallet.device (Throw (new_Error "Device disconnected"))
                  (Throw (new_Error "unused")))
               Reference.unsignedLedger
               (new_Error "Device disconnected"));
      reflexivity.
Defined.

(** C7, as stated, fails for the Ledger: two requests that differ only in
    how they write the empty input data send the same bytes to the device
    and meet the same failure, and yet surface different errors, because
    the dump in the error is that of the caller's transaction object and
    not of what went to the device. *)
Lemma C7_ledger_dump_is_of_the_request :
  let service := Reference.ledger (Throw (new_Error "Device disconnected"))
                   (Throw (new_Error "unused")) in
  let other :=
    {| WithDerivationPath.chainId := 1;
       WithDerivationPath.gasPrice := "3b9aca00";
       WithDerivationPath.gasLimit := "5208";
       WithDerivationPath.nonce := 0;
       WithDerivationPath.value := "0";
       WithDerivationPath.inputData := "";
       WithDerivationPath.to :=
         Some "0x3535353535353535353535353535353535353535";
       WithDerivationPath.derivationPath := "m/44'/60'/0'/0/0" |} in
  let run1 := Ledger.signTransaction Reference.messages
                (Reference.core (Return true)) service Reference.request in
  let run2 := Ledger.signTransaction Reference.messages
                (Reference.core (Return true)) service other in
  events run1 = events run2
  /\ events run1
     = [LedgerConnection; Warned "Confirm the transaction on the device";
        LedgerSignTransaction "m/44'/60'/0'/0/0"
          "e380843b9aca008252089435353535353535353535353535353535353535358080018080"]
  /\ outcome run1 <> outcome run2.
Proof.
  cbv zeta. split; [reflexivity|]. split; [reflexivity|].
  vm_compute. discriminate.
Qed.

(* ================================================================== *)
(** * Hexadecimal output *)
(* ================================================================== *)







Section Outputs.

Variable messages : Messages.
Variable core : Core.





End Outputs.




(* ================================================================== *)
(** * Verification *)
(* ================================================================== *)

(** C3, as the code has it.  The Trezor [verifyMessage] validates the
    address, then the message and the signature, and an error of either
    validator is thrown to the caller; once they pass, the result is the
    [success] of the service's answer, and [false] when the request to the
    service fails.  The Ledger [verifyMessage] validates the public key,
    then the message and the signature, throwing likewise; once they pass,
    it ends as [verifyMessageSignature] does on the prefixed public key and
    signature. *)
Theorem C3_verifyMessage_failures :
  forall (messages : Messages) (core : Core),
    (forall (service : Trezor.Service) (obj : VerifyTrezor.t),
        (forall e,
            addressValidator core (VerifyTrezor.address obj) = Throw e ->
            Trezor.verifyMessage messages core service obj = ([], Throw e))
        /\
        (forall e,
            addressValidator core (VerifyTrezor.address obj) = Return tt ->
            messageVerificationObjectValidator core
              (VerifyTrezor.message obj, VerifyTrezor.signature obj) = Throw e ->
            Trezor.verifyMessage messages core service obj = ([], Throw e))
        /\
        (forall checked,
            addressValidator core (VerifyTrezor.address obj) = Return tt ->
            messageVerificationObjectValidator core
              (VerifyTrezor.message obj, VerifyTrezor.signature obj)
              = Return checked ->
            outcome (Trezor.verifyMessage messages core service obj)
            = Return
                match Trezor.payloadListener service
                        (verifyMessagePayload service (VerifyTrezor.address obj)
                           (fst checked) (snd checked)) with
                | Return response => Trezor.success response
                | Throw _ => false
                end))
    /\
    (forall (obj : VerifyLedger.t),
        (forall e,
            hexSequenceValidator core (VerifyLedger.publicKey obj) = Throw e ->
            Ledger.verifyMessage core obj = ([], Throw e))
        /\
        (forall e,
            hexSequenceValidator core (VerifyLedger.publicKey obj) = Return tt ->
            messageVerificationObjectValidator core
              (VerifyLedger.message obj, VerifyLedger.signature obj) = Throw e ->
            Ledger.verifyMessage core obj = ([], Throw e))
        /\
        (forall checked,
            hexSequenceValidator core (VerifyLedger.publicKey obj) = Return tt ->
            messageVerificationObjectValidator core
              (VerifyLedger.message obj, VerifyLedger.signature obj)
              = Return checked ->
            Ledger.verifyMessage core obj
            = ([], verifyMessageSignature core
                     (withPrefix (VerifyLedger.publicKey obj))
                     (fst checked)
                     (withPrefix (snd checked))))).
Proof.
  intros messages core. split.
  - intros service obj. repeat split.
    + intros e Ha. unfold Trezor.verifyMessage. now run_validators.
    + intros e Ha Hm. unfold Trezor.verifyMessage. now run_validators.
    + intros checked Ha Hm. unfold Trezor.verifyMessage. run_validators.
      fold (verifyMessagePayload service (VerifyTrezor.address obj)
              (fst checked) (snd checked)).
      destruct (Trezor.payloadListener service _); reflexivity.
  - intros obj. repeat split.
    + intros e Ha. unfold Ledger.verifyMessage. now run_validators.
    + intros e Ha Hm. unfold Ledger.verifyMessage. now run_validators.
    + intros checked Ha Hm. unfold Ledger.verifyMessage. now run_validators.
Qed.

Lemma C3_verifyMessage_failures_witness :
  outcome (Trezor.verifyMessage Reference.messages (Reference.core (Return true))
             (Reference.trezor (Throw (new_Error "Invalid signature")))
             (VerifyTrezor.mk "0x3535353535353535353535353535353535353535"
                "hello" (Reference.rHex ++ Reference.sHex ++ "1b")))
    = Return false
  /\ Ledger.verifyMessage (Reference.core (Return false))
       (VerifyLedger.mk "04abcdef" "hello"
          (Reference.rHex ++ Reference.sHex ++ "1b"))
    = ([], Return false)
  /\ Ledger.verifyMessage (Reference.core (Return false))
       (VerifyLedger.mk "not a key" "hello"
          (Reference.rHex ++ Reference.sHex ++ "1b"))
    = ([], Throw (new_Error "InvalidEncoding")).
Proof.
  pose proof (C3_verifyMessage_failures Reference.messages
                (Reference.core (Return true))) as [Htrezor _].
  pose proof (C3_verifyMessage_failures Reference.messages
                (Reference.core (Return false))) as [_ Hledger].
  split; [|split].
  - destruct (Htrezor (Reference.trezor (Throw (new_Error "Invalid signature")))
                (VerifyTrezor.mk "0x3535353535353535353535353535353535353535"
                   "hello" (Reference.rHex ++ Reference.sHex ++ "1b")))
      as (_ & _ & H).
    apply (H ("hello", Reference.rHex ++ Reference.sHex ++ "1b")); reflexivity.
  - destruct (Hledger (VerifyLedger.mk "04abcdef" "hello"
                         (Reference.rHex ++ Reference.sHex ++ "1b")))
      as (_ & _ & H).
    apply (H ("hello", Reference.rHex ++ Reference.sHex ++ "1b")); reflexivity.
  - destruct (Hledger (VerifyLedger.mk "not a key" "hello"
                         (Reference.rHex ++ Reference.sHex ++ "1b")))
      as (H & _ & _).
    apply H. reflexivity.
Defined.

(** C3, as stated, fails: an address that does not pass [addressValidator]
    makes the Trezor [verifyMessage] throw, before any request to the
    service; so does a public key that does not pass
    [hexSequenceValidator] for the Ledger's. *)
Lemma C3_verifyMessage_throws_on_invalid_input :
  Trezor.verifyMessage Reference.messages (Reference.core (Return true))
    (Reference.trezor (Return (Trezor.mkResponse "" "" 0 None true)))
    (VerifyTrezor.mk "not an address" "hello"
       (Reference.rHex ++ Reference.sHex ++ "1b"))
    = ([], Throw (new_Error "InvalidType(address)"))
  /\ Ledger.verifyMessage (Reference.core (Return true))
       (VerifyLedger.mk "not a key" "hello"
          (Reference.rHex ++ Reference.sHex ++ "1b"))
     = ([], Throw (new_Error "InvalidEncoding")).
Proof. split; reflexivity. Qed.

(* ================================================================== *)
(** * The recovery value *)
(* ================================================================== *)

Lemma encodable_by_computation (tx : Tx.t) :
  forallb (fun b => (blen b <? 2 ^ 64)%N) (Tx.raw tx)
  && (blen (List.concat (map rlp_encode_bytes (Tx.raw tx))) <? 2 ^ 64)%N = true ->
  encodable (Tx.raw tx).
Proof.
  intros H. apply andb_true_iff in H. destruct H as [Hall Hpayload]. split.
  - apply Forall_forall. intros b Hb.
    rewrite forallb_forall in Hall. now apply N.ltb_lt, Hall.
  - now apply N.ltb_lt.
Qed.

(** [Buffer.from] reads nothing from a string that went through
    [hexSequenceNormalizer]: the [x] of the prefix ends the decoding at
    the first pair. *)
Lemma Buffer_from_hex_prefixed (hexString : string) :
  Buffer_from_hex (hexSequenceNormalizer hexString true) = [].
Proof. reflexivity. Qed.

(** So the TypeScript variants leave the three signature fields of the
    transaction empty, whatever the backend answered. *)
Lemma ledger_signature_fields (unsigned : Tx.t) (sig : TransactionSignatureReturnType.t) :
  option_map Tx.raw
    match Ledger.signedTransaction unsigned sig with
    | Return tx => Some tx
    | Throw _ => None
    end
  = Some [Tx.nonce unsigned; Tx.gasPrice unsigned; Tx.gasLimit unsigned;
          Tx.to unsigned; Tx.value unsigned; Tx.data unsigned; []; []; []].
Proof. reflexivity. Qed.

(** The earlier variant hands the prefixed strings to the setters, which
    decode them, when they accept them. *)
Lemma flow_signature_fields
    (unsigned tx : Tx.t) (sig : TransactionSignatureReturnType.t) :
  LedgerFlow.signedTransaction unsigned sig = Return tx ->
  Tx.raw tx
  = [Tx.nonce unsigned; Tx.gasPrice unsigned; Tx.gasLimit unsigned;
     Tx.to unsigned; Tx.value unsigned; Tx.data unsigned;
     hexBytes (TransactionSignatureReturnType.v sig);
     stripZeros (hexBytes (TransactionSignatureReturnType.r sig));
     stripZeros (hexBytes (TransactionSignatureReturnType.s sig))].
Proof.
  unfold LedgerFlow.signedTransaction, Tx.set_r, Tx.set_s, Tx.set_v.
  intros H.
  apply andThen_Return in H. destruct H as (tx1 & H1 & H).
  apply andThen_Return in H. destruct H as (tx2 & H2 & H).
  apply andThen_Return in H1. destruct H1 as (r_ & Hr & [= <-]).
  apply andThen_Return in H2. destruct H2 as (s_ & Hs & [= <-]).
  apply andThen_Return in H. destruct H as (checked & _ & H).
  apply andThen_Return in H. destruct H as (? & _ & H).
  apply andThen_Return in H. destruct H as (v_ & Hv & [= <-]).
  destruct (setter_allowLess Tx.rField 32 _ _ eq_refl eq_refl Hr)
    as (given_r & Hgiven_r & -> & _).
  destruct (setter_allowLess Tx.sField 32 _ _ eq_refl eq_refl Hs)
    as (given_s & Hgiven_s & -> & _).
  rewrite setter_unbounded in Hv by reflexivity.
  apply toBuffer_string in Hgiven_r, Hgiven_s, Hv.
  destruct Hgiven_r as [_ ->], Hgiven_s as [_ ->], Hv as [_ ->].
  reflexivity.
Qed.

(** C2, at a request where it fails.  On chain 1 the backend answers the
    recovery value 37, which EIP-155 gives the chain.  The transaction
    that the Trezor and the Ledger variants return has an empty recovery
    value: [Buffer.from] read nothing of the prefixed string that the
    answer was made into.  The earlier Ledger variant, which hands the
    prefixed string to the transaction, returns it with the recovery
    value 37. *)
Theorem C2_returned_recovery_value_is_empty :
  let core := Reference.core (Return true) in
  let service := Reference.trezor (Return (Trezor.mkResponse
                   Reference.rHex Reference.sHex 37 None true)) in
  let device := Reference.ledger
                  (Return (TransactionSignatureReturnType.mk
                             Reference.rHex Reference.sHex "25"))
                  (Throw (new_Error "unused")) in
  let c := WithDerivationPath.chainId Reference.request in
  (exists out,
      outcome (Trezor.signTransaction Reference.messages core service
                 Reference.request) = Return out
      /\ option_map (map Buffer_toString_hex) (decodeSigned out)
         = Some [""; "3b9aca00"; "3b9aca00"; ""; ""; ""; ""; ""; ""]
      /\ recoveryValue out = Some 0%N)
  /\ (exists out,
        outcome (Ledger.signTransaction Reference.messages core device
                   Reference.request) = Return (Some out)
        /\ option_map (map Buffer_toString_hex) (decodeSigned out)
           = Some [""; "3b9aca00"; "5208";
                   "3535353535353535353535353535353535353535";
                   ""; ""; ""; ""; ""]
        /\ recoveryValue out = Some 0%N)
  /\ (exists out,
        outcome (LedgerFlow.signTransaction Reference.messages core device
                   Reference.request Reference.requestRest)
          = Return (Some out)
        /\ recoveryValue out = Some (2 * c + 35)%N)
  /\ (0 <> 2 * c + 35 /\ 0 <> 2 * c + 36)%N.
Proof.
  cbv zeta. split; [|split; [|split]].
  - eexists. split; [reflexivity|].
    split; vm_compute; reflexivity.
  - eexists. split; [reflexivity|].
    split; vm_compute; reflexivity.
  - eexists. split; [reflexivity | vm_compute; reflexivity].
  - split; discriminate.
Qed.

(* ================================================================== *)
(** * Writing the signature into the transaction *)
(* ================================================================== *)

(** C10, at a request where the two variants part.  The TypeScript Ledger
    [signTransaction] and the earlier variant build the same unsigned
    transaction and send the same bytes to the device; the device answers
    with [r], [s] and the recovery value [0x25] of chain 1.  The earlier
    variant returns the transaction with that signature in it; the
    TypeScript variant returns it with the three signature fields
    empty. *)
Theorem C10_ledger_variants_part_after_signing :
  let core := Reference.core (Return true) in
  let device := Reference.ledger
                  (Return (TransactionSignatureReturnType.mk
                             Reference.rHex Reference.sHex "25"))
                  (Throw (new_Error "unused")) in
  let typescript := Ledger.signTransaction Reference.messages core device
                      Reference.request in
  let earlier := LedgerFlow.signTransaction Reference.messages core device
                   Reference.request Reference.requestRest in
  Ledger.unsignedTransactionData core (transactionObjectOf Reference.request)
    = LedgerFlow.unsignedTransactionData core
        (transactionObjectOf Reference.request)
  /\ events typescript = events earlier
  /\ (exists out,
        outcome typescript = Return (Some out)
        /\ option_map (map Buffer_toString_hex) (decodeSigned out)
           = Some [""; "3b9aca00"; "5208";
                   "3535353535353535353535353535353535353535";
                   ""; ""; ""; ""; ""])
  /\ (exists out,
        outcome earlier = Return (Some out)
        /\ option_map (map Buffer_toString_hex) (decodeSigned out)
           = Some [""; "3b9aca00"; "5208";
                   "3535353535353535353535353535353535353535";
                   ""; ""; "25"; Reference.rHex; Reference.sHex])
  /\ outcome typescript <> outcome earlier.
Proof.
  cbv zeta. split; [reflexivity|]. split; [reflexivity|].
  split; [|split].
  - eexists. split; [reflexivity | vm_compute; reflexivity].
  - eexists. split; [reflexivity | vm_compute; reflexivity].
  - vm_compute. discriminate.
Qed.

(* ================================================================== *)
(** * The returned transaction, read back *)
(* ================================================================== *)

Section ReadBack.

Variable messages : Messages.
Variable core : Core.

(** Whatever the Trezor service answers, the transaction that the Trezor
    variant returns has the gas price in its gas limit field, and neither
    a destination nor a signature. *)
Lemma trezor_output_repeats_the_gas_price
    (service : Trezor.Service) (obj : WithDerivationPath.t)
    (validated : TransactionObjectTypeWithTo) (unsigned : Tx.t)
    (response : Trezor.Response) :
  transactionObjectValidator core (transactionObjectOf obj) = Return validated ->
  derivationPathValidator core (WithDerivationPath.derivationPath obj)
    = Return tt ->
  Trezor.unsignedTransaction core validated = Return unsigned ->
  Trezor.payloadListener service
    (Trezor.modifiedPayloadObject core service validated
       (WithDerivationPath.derivationPath obj)) = Return response ->
  encodable (Tx.raw (unsignedFields unsigned)) ->
  exists out gas,
    outcome (Trezor.signTransaction messages core service obj) = Return out
    /\ gas = stripZeros (hexBytes (hexSequenceNormalizer
               (multipleOfTwoHexValueNormalizer (gasPrice validated)) true))
    /\ exists nonce_ value_ data_,
         decodeSigned out
         = Some [nonce_; gas; gas; []; value_; data_; []; []; []].
Proof.
  intros Hv Hp Hcreate Hr Henc. do 2 eexists. split; [|split; [reflexivity|]].
  - rewrite (trezor_signTransaction_run messages core service obj validated
               unsigned Hv Hp Hcreate).
    cbn [outcome snd]. now rewrite Hr.
  - do 3 eexists. rewrite (decodeSigned_serialized _ Henc).
    destruct (create_fields _ _ _ Hcreate)
      as (_ & _ & Hgp & Hgl & Hto & _).
    rewrite (given_string (Trezor.unsignedTransactionData core validated)
               "gasPrice" _ eq_refl) in Hgp.
    rewrite (given_string (Trezor.unsignedTransactionData core validated)
               "gasLimit" _ eq_refl) in Hgl.
    rewrite (given_nothing (Trezor.unsignedTransactionData core validated)
               "to" eq_refl) in Hto.
    destruct (setter_allowLess Tx.gasPriceField 32 _ _ eq_refl eq_refl Hgp)
      as (gp & Hgp' & Egp & _).
    destruct (setter_allowLess Tx.gasLimitField 32 _ _ eq_refl eq_refl Hgl)
      as (gl & Hgl' & Egl & _).
    apply toBuffer_string in Hgp', Hgl'.
    destruct Hgp' as [_ ->], Hgl' as [_ ->].
    injection Hto as Hto.
    unfold unsignedFields, Tx.raw. cbn [Tx.nonce Tx.gasPrice Tx.gasLimit
      Tx.to Tx.value Tx.data Tx.v Tx.r Tx.s].
    rewrite Egp, Egl, <- Hto. reflexivity.
Qed.

(** Whatever the device answers, the transaction that the TypeScript
    Ledger variant returns has its three signature fields empty. *)
Lemma ledger_output_has_no_signature
    (service : LedgerService) (obj : WithDerivationPath.t)
    (validated : TransactionObjectTypeWithTo) (ledger : LedgerInstanceType.t)
    (unsigned : Tx.t) (sig : TransactionSignatureReturnType.t) :
  transactionObjectValidator core (transactionObjectOf obj) = Return validated ->
  ledgerConnection service = Return ledger ->
  derivationPathValidator core (WithDerivationPath.derivationPath obj)
    = Return tt ->
  Ledger.unsignedTransaction core validated = Return unsigned ->
  LedgerInstanceType.signTransaction ledger
    (derivationPathNormalizer core (WithDerivationPath.derivationPath obj))
    (Buffer_toString_hex (Tx.serialize unsigned))
    = Return sig ->
  encodable (Tx.raw (unsignedFields unsigned)) ->
  exists out,
    outcome (Ledger.signTransaction messages core service obj)
      = Return (Some out)
    /\ decodeSigned out
       = Some [Tx.nonce unsigned; Tx.gasPrice unsigned; Tx.gasLimit unsigned;
               Tx.to unsigned; Tx.value unsigned; Tx.data unsigned;
               []; []; []]
    /\ recoveryValue out = Some 0%N.
Proof.
  intros Hv Hc Hp Hcreate Hs Henc. eexists. split; [|split].
  - rewrite (ledger_signTransaction_run messages core service obj validated
               ledger unsigned Hv Hc Hp Hcreate).
    cbn [outcome snd]. now rewrite Hs.
  - rewrite (decodeSigned_serialized _ Henc). reflexivity.
  - unfold recoveryValue. rewrite (decodeSigned_serialized _ Henc).
    reflexivity.
Qed.

(** The earlier variant returns it with the device's values, when the
    setters accept them. *)
Lemma flow_output_has_the_signature
    (service : LedgerService) (obj : WithDerivationPath.t) (rest : jsobj)
    (validated : TransactionObjectTypeWithTo) (ledger : LedgerInstanceType.t)
    (unsigned tx : Tx.t) (sig : TransactionSignatureReturnType.t) :
  transactionObjectValidator core (transactionObjectOf obj) = Return validated ->
  ledgerConnection service = Return ledger ->
  derivationPathValidator core (WithDerivationPath.derivationPath obj)
    = Return tt ->
  LedgerFlow.unsignedTransaction core validated = Return unsigned ->
  LedgerInstanceType.signTransaction ledger
    (derivationPathNormalizer core (WithDerivationPath.derivationPath obj))
    (Buffer_toString_hex (Tx.serialize unsigned))
    = Return sig ->
  LedgerFlow.signedTransaction unsigned sig = Return tx ->
  encodable (Tx.raw tx) ->
  exists out,
    outcome (LedgerFlow.signTransaction messages core service obj rest)
      = Return (Some out)
    /\ decodeSigned out
       = Some [Tx.nonce unsigned; Tx.gasPrice unsigned; Tx.gasLimit unsigned;
               Tx.to unsigned; Tx.value unsigned; Tx.data unsigned;
               hexBytes (TransactionSignatureReturnType.v sig);
               stripZeros (hexBytes (TransactionSignatureReturnType.r sig));
               stripZeros (hexBytes (TransactionSignatureReturnType.s sig))].
Proof.
  intros Hv Hc Hp Hcreate Hs Hsigned Henc. eexists. split.
  - rewrite (flow_signTransaction_run messages core service obj rest validated
               ledger unsigned Hv Hc Hp Hcreate).
    cbn [outcome snd]. now rewrite Hs, Hsigned.
  - rewrite (decodeSigned_serialized _ Henc).
    now rewrite (flow_signature_fields _ _ _ Hsigned).
Qed.

(** So the two variants return different transactions as soon as the
    device's recovery value is not empty. *)
Lemma ledger_variants_part
    (service : LedgerService) (obj : WithDerivationPath.t) (rest : jsobj)
    (validated : TransactionObjectTypeWithTo) (ledger : LedgerInstanceType.t)
    (unsigned tx : Tx.t) (sig : TransactionSignatureReturnType.t) :
  transactionObjectValidator core (transactionObjectOf obj) = Return validated ->
  ledgerConnection service = Return ledger ->
  derivationPathValidator core (WithDerivationPath.derivationPath obj)
    = Return tt ->
  Ledger.unsignedTransaction core validated = Return unsigned ->
  LedgerInstanceType.signTransaction ledger
    (derivationPathNormalizer core (WithDerivationPath.derivationPath obj))
    (Buffer_toString_hex (Tx.serialize unsigned))
    = Return sig ->
  LedgerFlow.signedTransaction unsigned sig = Return tx ->
  encodable (Tx.raw (unsignedFields unsigned)) ->
  encodable (Tx.raw tx) ->
  hexBytes (TransactionSignatureReturnType.v sig) <> [] ->
  outcome (Ledger.signTransaction messages core service obj)
  <> outcome (LedgerFlow.signTransaction messages core service obj rest).
Proof.
  intros Hv Hc Hp Hcreate Hs Hsigned Henc Henc' Hnonempty Heq.
  assert (LedgerFlow.unsignedTransaction core validated = Return unsigned)
    as Hcreate'.
  { unfold LedgerFlow.unsignedTransaction.
    rewrite flow_unsignedTransactionData. exact Hcreate. }
  destruct (ledger_output_has_no_signature service obj validated ledger
              unsigned sig Hv Hc Hp Hcreate Hs Henc) as (out & Hout & Hdec & _).
  destruct (flow_output_has_the_signature service obj rest validated ledger
              unsigned tx sig Hv Hc Hp Hcreate' Hs Hsigned Henc')
    as (out' & Hout' & Hdec').
  rewrite Hout, Hout' in Heq. injection Heq as <-.
  rewrite Hdec in Hdec'. injection Hdec' as Hempty.
  now apply Hnonempty.
Qed.

End ReadBack.

(* ================================================================== *)
(** * Validation and connection failures of the static methods *)
(* ================================================================== *)

(** X1. A transaction object that [transactionObjectValidator] rejects
    makes [signTransaction] throw the validator's own error, in the
    Trezor variant and in both Ledger variants (the earlier one whatever
    else the caller's object holds), with no warning, no connection and
    no request to the device; the Ledger's error handler does not see
    it. *)
Theorem X1_invalid_transaction_reaches_no_device :
  forall (messages : Messages) (core : Core) (trezor : Trezor.Service)
         (ledger : LedgerService) (obj : WithDerivationPath.t) (e : Error),
    transactionObjectValidator core (transactionObjectOf obj) = Throw e ->
    Trezor.signTransaction messages core trezor obj = ([], Throw e)
    /\ Ledger.signTransaction messages core ledger obj = ([], Throw e)
    /\ forall rest : jsobj,
         LedgerFlow.signTransaction messages core ledger obj rest
         = ([], Throw e).
Proof.
  intros messages core trezor ledger obj e He.
  split; [|split; [|intros rest]].
  - unfold Trezor.signTransaction.
    change (mkTransactionObject _ _ _ _ _ _ _) with (transactionObjectOf obj).
    now run_validators.
  - unfold Ledger.signTransaction.
    change (mkTransactionObject _ _ _ _ _ _ _) with (transactionObjectOf obj).
    now run_validators.
  - unfold LedgerFlow.signTransaction.
    change (mkTransactionObject _ _ _ _ _ _ _) with (transactionObjectOf obj).
    now run_validators.
Qed.

Lemma X1_invalid_transaction_reaches_no_device_witness :
  let device := Reference.ledger (Throw (new_Error "unused"))
                  (Throw (new_Error "unused")) in
  Trezor.signTransaction Reference.messages (Reference.core (Return true))
    (Reference.trezor (Throw (new_Error "unused")))
    ReferenceWallet.invalidRequest
    = ([], Throw (new_Error "InvalidType"))
  /\ Ledger.signTransaction Reference.messages (Reference.core (Return true))
       device ReferenceWallet.invalidRequest
     = ([], Throw (new_Error "InvalidType"))
  /\ LedgerFlow.signTransaction Reference.messages
       (Reference.core (Return true)) device ReferenceWallet.invalidRequest
       Reference.requestRest
     = ([], Throw (new_Error "InvalidType")).
Proof.
  cbv zeta.
  destruct (X1_invalid_transaction_reaches_no_device Reference.messages
              (Reference.core (Return true))
              (Reference.trezor (Throw (new_Error "unused")))
              (Reference.ledger (Throw (new_Error "unused"))
                 (Throw (new_Error "unused")))
              ReferenceWallet.invalidRequest (new_Error "InvalidType")
              eq_refl)
    as (Htrezor & Hledger & Hearlier).
  split; [exact Htrezor | split; [exact Hledger | apply Hearlier]].
Defined.

(** X2. The two variants place the validation of the derivation path
    differently.  The Trezor [signTransaction] validates it before its
    [try]: the validator's error is thrown as it is and nothing is sent.
    The Ledger [signTransaction] validates it inside the [try], after
    connecting to the device: the connection is made, nothing is sent for
    signing, and the error goes to [handleLedgerConnectionError] with the
    generic message, like a failure of the device. *)
Theorem X2_derivation_path_is_validated_after_connecting :
  forall (messages : Messages) (core : Core),
    (forall (service : Trezor.Service) (obj : WithDerivationPath.t)
            (validated : TransactionObjectTypeWithTo) (e : Error),
        transactionObjectValidator core (transactionObjectOf obj)
          = Return validated ->
        derivationPathValidator core (WithDerivationPath.derivationPath obj)
          = Throw e ->
        Trezor.signTransaction messages core service obj = ([], Throw e))
    /\
    (forall (service : LedgerService) (obj : WithDerivationPath.t)
            (validated : TransactionObjectTypeWithTo)
            (ledger : LedgerInstanceType.t) (e : Error),
        transactionObjectValidator core (transactionObjectOf obj)
          = Return validated ->
        ledgerConnection service = Return ledger ->
        derivationPathValidator core (WithDerivationPath.derivationPath obj)
          = Throw e ->
        Ledger.signTransaction messages core service obj
        = ([LedgerConnection],
           handleLedgerConnectionError service e
             (userSignTxGenericError messages ++ ": "
              ++ objectToErrorString core
                   (Ledger.transactionObjectEntries (transactionObjectOf obj))
              ++ " " ++ message e))).
Proof.
  intros messages core. split.
  - intros service obj validated e Hv Hp. unfold Trezor.signTransaction.
    change (mkTransactionObject _ _ _ _ _ _ _) with (transactionObjectOf obj).
    now run_validators.
  - intros service obj validated ledger e Hv Hc Hp.
    unfold Ledger.signTransaction.
    change (mkTransactionObject _ _ _ _ _ _ _) with (transactionObjectOf obj).
    run_validators. rewrite Hc, Hp. cbn.
    unfold lift. now destruct (handleLedgerConnectionError service e _).
Qed.

Lemma X2_derivation_path_is_validated_after_connecting_witness :
  Trezor.signTransaction Reference.messages (Reference.core (Return true))
    (Reference.trezor (Throw (new_Error "unused")))
    ReferenceWallet.invalidPathRequest
    = ([], Throw (new_Error "InvalidDerivationPath"))
  /\ Ledger.signTransaction Reference.messages (Reference.core (Return true))
       (Reference.ledger (Throw (new_Error "unused"))
          (Throw (new_Error "unused")))
       ReferenceWallet.invalidPathRequest
     = ([LedgerConnection],
        Throw (new_Error
          ("Could not sign the transaction: chainId: 1, gasPrice: 3b9aca00, "
           ++ "gasLimit: 5208, nonce: 0, value: 0, inputData: 0x, "
           ++ "to: 0x3535353535353535353535353535353535353535 "
           ++ "InvalidDerivationPath"))).
Proof.
  pose proof (X2_derivation_path_is_validated_after_connecting
                Reference.messages (Reference.core (Return true)))
    as [Htrezor Hledger].
  split.
  - apply (Htrezor _ ReferenceWallet.invalidPathRequest
             (transactionObjectOf ReferenceWallet.invalidPathRequest)
             (new_Error "InvalidDerivationPath")); reflexivity.
  - rewrite (Hledger (Reference.ledger (Throw (new_Error "unused"))
                        (Throw (new_Error "unused")))
               ReferenceWallet.invalidPathRequest
               (transactionObjectOf ReferenceWallet.invalidPathRequest)
               (ReferenceWallet.device (Throw (new_Error "unused"))
                  (Throw (new_Error "unused")))
               (new_Error "InvalidDerivationPath"));
      reflexivity.
Defined.

(** X3. When the connection to the Ledger cannot be made, [signTransaction]
    and [signMessage] log no warning and send nothing for signing; the
    connection's error goes to [handleLedgerConnectionError], with the
    generic message of the method. *)
Theorem X3_ledger_connection_failure :
  forall (messages : Messages) (core : Core) (service : LedgerService)
         (e : Error),
    ledgerConnection service = Throw e ->
    (forall (obj : WithDerivationPath.t)
            (validated : TransactionObjectTypeWithTo),
        transactionObjectValidator core (transactionObjectOf obj)
          = Return validated ->
        Ledger.signTransaction messages core service obj
        = ([LedgerConnection],
           handleLedgerConnectionError service e
             (userSignTxGenericError messages ++ ": "
              ++ objectToErrorString core
                   (Ledger.transactionObjectEntries (transactionObjectOf obj))
              ++ " " ++ message e)))
    /\
    (forall (o : SignMessage.t) (toSign : bufferSource),
        derivationPathValidator core (SignMessage.derivationPath o)
          = Return tt ->
        messageOrDataValidator core (SignMessage.message o)
          (SignMessage.messageData o) = Return toSign ->
        Ledger.signMessage messages core service (ArgObject o)
        = ([LedgerConnection],
           handleLedgerConnectionError service e
             (userSignTxGenericError messages ++ ": message: ("
              ++ bufferSource_toString toSign ++ ") " ++ message e))).
Proof.
  intros messages core service e Hc. split.
  - intros obj validated Hv. unfold Ledger.signTransaction.
    change (mkTransactionObject _ _ _ _ _ _ _) with (transactionObjectOf obj).
    run_validators. rewrite Hc. cbn.
    unfold lift. now destruct (handleLedgerConnectionError service e _).
  - intros o toSign Hp Hm. unfold Ledger.signMessage.
    run_validators. rewrite Hc. cbn.
    unfold lift. now destruct (handleLedgerConnectionError service e _).
Qed.

Lemma X3_ledger_connection_failure_witness :
  Ledger.signTransaction Reference.messages (Reference.core (Return true))
    ReferenceWallet.noDevice Reference.request
  = ([LedgerConnection],
     Throw (new_Error
       ("Could not sign the transaction: chainId: 1, gasPrice: 3b9aca00, "
        ++ "gasLimit: 5208, nonce: 0, value: 0, inputData: 0x, "
        ++ "to: 0x3535353535353535353535353535353535353535 "
        ++ "No device found")))
  /\ Ledger.signMessage Reference.messages (Reference.core (Return true))
       ReferenceWallet.noDevice
       (ArgObject (SignMessage.mk "m/44'/60'/0'/0/0" (Some "hello") None))
     = ([LedgerConnection],
        Throw (new_Error
          "Could not sign the transaction: message: (hello) No device found")).
Proof.
  pose proof (X3_ledger_connection_failure Reference.messages
                (Reference.core (Return true)) ReferenceWallet.noDevice
                (new_Error "No device found") eq_refl) as [Htx Hmsg].
  split.
  - rewrite (Htx Reference.request (transactionObjectOf Reference.request));
      reflexivity.
  - rewrite (Hmsg (SignMessage.mk "m/44'/60'/0'/0/0" (Some "hello") None)
               (SrcString "hello")); reflexivity.
Defined.

(** X4. When the Trezor service fails while signing a message and the
    error is not the cancellation signal, [signMessage] throws the generic
    error with the [message] property of its argument in it, after the
    warning and the one request to the service.  The text to be signed is
    not what is shown: when the caller gave [messageData] and no
    [message], the error reads [message: (undefined)]. *)
Theorem X4_trezor_signMessage_generic_error :
  forall (messages : Messages) (core : Core) (service : Trezor.Service)
         (o : SignMessage.t) (toSign : bufferSource) (caughtError : Error),
    derivationPathValidator core (SignMessage.derivationPath o) = Return tt ->
    messageOrDataValidator core (SignMessage.message o)
      (SignMessage.messageData o) = Return toSign ->
    Trezor.payloadListener service (signMessagePayload core service o toSign)
      = Throw caughtError ->
    message caughtError <> Trezor.CANCEL_TX_SIGN service ->
    Trezor.signMessage messages core service (ArgObject o)
    = ([Warned (messageSignatureOnlyTrezor messages);
        TrezorPayload (signMessagePayload core service o toSign)],
       Throw (new_Error
         (userSignTxGenericError messages ++ ": message: ("
          ++ match SignMessage.message o with
             | Some text => text
             | None => "undefined"
             end
          ++ ") " ++ message caughtError))).
Proof.
  intros messages core service o toSign e Hp Hm He Hother.
  rewrite (trezor_signMessage_run messages core service o toSign Hp Hm).
  cbn zeta. rewrite He.
  destruct (String.eqb_spec (message e) (Trezor.CANCEL_TX_SIGN service));
    [contradiction | reflexivity].
Qed.

Lemma X4_trezor_signMessage_generic_error_witness :
  outcome (Trezor.signMessage Reference.messages (Reference.core (Return true))
             (Reference.trezor (Throw (new_Error "Device disconnected")))
             (ArgObject (SignMessage.mk "m/44'/60'/0'/0/0" None
                           (Some (SrcString "hello")))))
  = Throw (new_Error
      "Could not sign the transaction: message: (undefined) Device disconnected").
Proof.
  rewrite (X4_trezor_signMessage_generic_error Reference.messages
             (Reference.core (Return true))
             (Reference.trezor (Throw (new_Error "Device disconnected")))
             (SignMessage.mk "m/44'/60'/0'/0/0" None (Some (SrcString "hello")))
             (SrcString "hello") (new_Error "Device disconnected"));
    [reflexivity | reflexivity | reflexivity | reflexivity | discriminate].
Defined.

(** X5. [signMessage] validates the derivation path first and the message
    second, and throws the first error met as it is: the Trezor variant
    has not yet logged its warning, the Ledger variant has not yet
    connected, and the Ledger's error handler does not see it. *)
Theorem X5_signMessage_validates_before_the_device :
  forall (trezorMessages ledgerMessages : Messages) (core : Core)
         (trezor : Trezor.Service) (ledger : LedgerService)
         (o : SignMessage.t) (e : Error),
    derivationPathValidator core (SignMessage.derivationPath o) = Throw e
    \/ (derivationPathValidator core (SignMessage.derivationPath o) = Return tt
        /\ messageOrDataValidator core (SignMessage.message o)
             (SignMessage.messageData o) = Throw e) ->
    Trezor.signMessage trezorMessages core trezor (ArgObject o) = ([], Throw e)
    /\ Ledger.signMessage ledgerMessages core ledger (ArgObject o)
       = ([], Throw e).
Proof.
  intros trezorMessages ledgerMessages core trezor ledger o e [Hp | [Hp Hm]];
    unfold Trezor.signMessage, Ledger.signMessage; now run_validators.
Qed.

Lemma X5_signMessage_validates_before_the_device_witness :
  let both := ArgObject (SignMessage.mk "m/44'/60'/0'/0/0" (Some "hello")
                           (Some (SrcString "hello"))) in
  Trezor.signMessage Reference.messages (Reference.core (Return true))
    (Reference.trezor (Throw (new_Error "unused"))) both
    = ([], Throw (new_Error "AmbiguousOrMissingMessage"))
  /\ Ledger.signMessage Reference.messages (Reference.core (Return true))
       ReferenceWallet.noDevice both
     = ([], Throw (new_Error "AmbiguousOrMissingMessage")).
Proof.
  cbv zeta.
  apply (X5_signMessage_validates_before_the_device Reference.messages
           Reference.messages (Reference.core (Return true))).
  right. split; reflexivity.
Defined.

(* ================================================================== *)
(** * The payload of the Trezor's signTransaction *)
(* ================================================================== *)

Lemma existsb_eqb_false (k : string) (keys : list string) (key : string) :
  existsb (String.eqb k) keys = false -> In key keys ->
  String.eqb key k = false.
Proof.
  intros Hnone Hin. rewrite String.eqb_sym.
  destruct (String.eqb k key) eqn:E; [|reflexivity].
  rewrite <- Hnone. symmetry. apply existsb_exists. now exists key.
Qed.

(** X6. The payload that the Trezor [signTransaction] sends is the
    template [PAYLOAD_SIGNTX] overwritten by the request: the seven
    properties made from the request hold the request's values whatever
    the template had there ([gas_limit] the gas limit, [chain_id] the
    chain id as a number, [data] the input data without its prefix), and
    every property that the method does not write is as in a copy of the
    template. *)
Theorem X6_trezor_payload_overwrites_the_template :
  forall (core : Core) (service : Trezor.Service)
         (validated : TransactionObjectTypeWithTo) (derivationPath : string),
    let payload :=
      Trezor.modifiedPayloadObject core service validated derivationPath in
    get payload "address_n"
      = Some (JArr (toPathArray core
                      (derivationPathNormalizer core derivationPath)))
    /\ get payload "gas_price"
       = Some (JStr (multipleOfTwoHexValueNormalizer (gasPrice validated)))
    /\ get payload "gas_limit"
       = Some (JStr (multipleOfTwoHexValueNormalizer (gasLimit validated)))
    /\ get payload "chain_id" = Some (JNum (chainId validated))
    /\ get payload "nonce"
       = Some (JStr (multipleOfTwoHexValueNormalizer
                       (Number_toString16 (nonce validated))))
    /\ get payload "value"
       = Some (JStr (multipleOfTwoHexValueNormalizer (value validated)))
    /\ get payload "data" = Some (JStr (stripPrefix (inputData validated)))
    /\ forall k : string,
         existsb (String.eqb k) payloadKeys = false ->
         get payload k
         = get (Object_assign [] [Trezor.PAYLOAD_SIGNTX service]) k.
Proof.
  intros core service validated derivationPath payload. subst payload.
  unfold Trezor.modifiedPayloadObject. rewrite Object_assign_3.
  repeat match goal with
  | |- _ /\ _ => split
  end;
    try (rewrite get_assign1, whenTo_other by reflexivity;
         rewrite get_assign1; reflexivity).
  intros k Hk.
  assert (forall key, In key payloadKeys -> String.eqb key k = false) as Hkeys
    by (intros key; now apply existsb_eqb_false).
  rewrite get_assign1, whenTo_other by (apply Hkeys; cbn; tauto).
  rewrite get_assign1. cbn [rev app get].
  rewrite !Hkeys by (cbn; tauto). reflexivity.
Qed.

Lemma X6_trezor_payload_overwrites_the_template_witness :
  let service :=
    {| Trezor.payloadListener := fun _ => Throw (new_Error "unused");
       Trezor.PAYLOAD_SIGNTX :=
         [("type", JStr "signtx"); ("gas_limit", JStr "00");
          ("requiredFirmware", JStr "1.4.0")];
       Trezor.PAYLOAD_SIGNMSG := [];
       Trezor.PAYLOAD_VERIFYMSG := [];
       Trezor.CANCEL_TX_SIGN := "Action cancelled by user" |} in
  let payload :=
    Trezor.modifiedPayloadObject (Reference.core (Return true)) service
      (transactionObjectOf Reference.request) "m/44'/60'/0'/0/0" in
  get payload "gas_limit" = Some (JStr "5208")
  /\ get payload "requiredFirmware" = Some (JStr "1.4.0").
Proof.
  cbv zeta.
  pose proof (X6_trezor_payload_overwrites_the_template
                (Reference.core (Return true))
                {| Trezor.payloadListener := fun _ => Throw (new_Error "unused");
                   Trezor.PAYLOAD_SIGNTX :=
                     [("type", JStr "signtx"); ("gas_limit", JStr "00");
                      ("requiredFirmware", JStr "1.4.0")];
                   Trezor.PAYLOAD_SIGNMSG := [];
                   Trezor.PAYLOAD_VERIFYMSG := [];
                   Trezor.CANCEL_TX_SIGN := "Action cancelled by user" |}
                (transactionObjectOf Reference.request) "m/44'/60'/0'/0/0")
    as (_ & _ & Hlimit & _ & _ & _ & _ & Hrest).
  split.
  - exact Hlimit.
  - rewrite (Hrest "requiredFirmware"); reflexivity.
Defined.

(* ================================================================== *)
(** * What the devices are asked to sign *)
(* ================================================================== *)

Lemma bufferToInt_stripZeros (b : Buffer) :
  bufferToInt (stripZeros b) = bufferToInt b.
Proof.
  unfold bufferToInt. induction b as [|x rest IH]; [reflexivity|].
  cbn [stripZeros]. destruct (N.eqb_spec (Byte.to_N x) 0) as [Hx|Hx];
    [|reflexivity].
  rewrite IH. cbn [fold_left]. now rewrite Hx.
Qed.

(** A numeric field of the request, written with hexadecimal digits,
    padded and prefixed by the two normalizers, is read by a number field
    of the transaction as the number it stands for. *)
Lemma number_field_reads_the_request (x : numeric) :
  plainHex x = true ->
  bufferToInt (stripZeros (hexBytes (hexSequenceNormalizer
    (multipleOfTwoHexValueNormalizer x) true))) = numericValue x.
Proof.
  intros Hx. rewrite bufferToInt_stripZeros.
  assert (allHex (toString16 x) = true /\ hexValue (toString16 x) = numericValue x)
    as [Hhex Hvalue].
  { destruct x as [s|n]; cbn [toString16 numericValue plainHex] in *.
    - now split.
    - split; [apply allHex_toString16 | apply hexValue_toString16]. }
  unfold hexBytes, hexSequenceNormalizer, multipleOfTwoHexValueNormalizer.
  rewrite stripPrefix_withPrefix.
  rewrite (stripPrefix_allHex _ (allHex_padToEven _ Hhex)).
  rewrite padToEven_idempotent, bufferToInt_from_hex.
  - now rewrite hexValue_padToEven.
  - now apply allHex_padToEven.
  - apply even_padToEven.
Qed.

Lemma hexDigits_plainHex (x : numeric) : hexDigits x = true -> plainHex x = true.
Proof. now destruct x. Qed.

(** What a number field holds once the constructor has accepted a
    normalized hex string for it. *)
Lemma created_number_field
    (field : Tx.Field) (x : string) (b : Buffer) :
  Tx.byteLength field = Some 32%N -> Tx.allowLess field = true ->
  Tx.setter field (FromString x) = Return b ->
  b = stripZeros (hexBytes x).
Proof.
  intros Hlength Hless Hset.
  destruct (setter_allowLess field 32 _ _ Hlength Hless Hset)
    as (given & Hgiven & -> & _).
  apply toBuffer_string in Hgiven. now destruct Hgiven as [_ ->].
Qed.

(** The Trezor's unsigned transaction has no destination. *)
Lemma trezor_unsigned_has_no_destination
    (core : Core) (validated : TransactionObjectTypeWithTo) (unsigned : Tx.t) :
  Trezor.unsignedTransaction core validated = Return unsigned ->
  Tx.to unsigned = [].
Proof.
  intros Hcreate.
  destruct (create_fields _ _ _ Hcreate) as (_ & _ & _ & _ & Hto & _).
  rewrite (given_nothing (Trezor.unsignedTransactionData core validated)
             "to" eq_refl) in Hto.
  now injection Hto.
Qed.

(** X7. The transaction that the Trezor [signTransaction] returns never
    carries the destination address nor the signature: its unsigned
    transaction is made without a [to], and the three signature values go
    through [Buffer.from] with their prefix on.  Once the validators and
    the constructor of the unsigned transaction have accepted the request
    and the service has answered, the fields [to], [v], [r] and [s] read
    back from the returned hex are empty, whatever the request asked for
    and whatever the service answered. *)
Theorem X7_trezor_returns_no_destination_and_no_signature :
  forall (messages : Messages) (core : Core) (service : Trezor.Service)
         (obj : WithDerivationPath.t)
         (validated : TransactionObjectTypeWithTo) (unsigned : Tx.t)
         (response : Trezor.Response),
    transactionObjectValidator core (transactionObjectOf obj)
      = Return validated ->
    derivationPathValidator core (WithDerivationPath.derivationPath obj)
      = Return tt ->
    Trezor.unsignedTransaction core validated = Return unsigned ->
    Trezor.payloadListener service
      (Trezor.modifiedPayloadObject core service validated
         (WithDerivationPath.derivationPath obj)) = Return response ->
    encodable (Tx.raw (unsignedFields unsigned)) ->
    exists out : string,
      Trezor.signTransaction messages core service obj
        = ([TrezorPayload (Trezor.modifiedPayloadObject core service validated
              (WithDerivationPath.derivationPath obj))],
           Return out)
      /\ decodeSigned out
         = Some [Tx.nonce unsigned; Tx.gasPrice unsigned; Tx.gasLimit unsigned;
                 []; Tx.value unsigned; Tx.data unsigned; []; []; []].
Proof.
  intros messages core service obj validated unsigned response
    Hv Hp Hcreate Hr Henc.
  eexists. split.
  - rewrite (trezor_signTransaction_run messages core service obj validated
               unsigned Hv Hp Hcreate).
    cbn zeta. now rewrite Hr.
  - rewrite (decodeSigned_serialized _ Henc).
    unfold unsignedFields, Tx.raw.
    cbn [Tx.nonce Tx.gasPrice Tx.gasLimit Tx.to Tx.value Tx.data
         Tx.v Tx.r Tx.s].
    now rewrite (trezor_unsigned_has_no_destination _ _ _ Hcreate).
Qed.

Lemma X7_trezor_returns_no_destination_and_no_signature_witness :
  exists out : string,
    Trezor.signTransaction Reference.messages (Reference.core (Return true))
      (Reference.trezor (Return (Trezor.mkResponse
         Reference.rHex Reference.sHex 37 None true)))
      Reference.request
    = ([TrezorPayload (Trezor.modifiedPayloadObject
          (Reference.core (Return true))
          (Reference.trezor (Return (Trezor.mkResponse
             Reference.rHex Reference.sHex 37 None true)))
          (transactionObjectOf Reference.request) "m/44'/60'/0'/0/0")],
       Return out)
    /\ decodeSigned out
       = Some [[]; hexBytes "3b9aca00"; hexBytes "3b9aca00"; [];
               []; []; []; []; []].
Proof.
  apply (X7_trezor_returns_no_destination_and_no_signature Reference.messages
           (Reference.core (Return true))
           (Reference.trezor (Return (Trezor.mkResponse
              Reference.rHex Reference.sHex 37 None true)))
           Reference.request (transactionObjectOf Reference.request)
           Reference.unsignedTrezor
           (Trezor.mkResponse Reference.rHex Reference.sHex 37 None true));
    try reflexivity.
  apply encodable_by_computation. vm_compute. reflexivity.
Defined.

(** The seeds of the object that the Ledger variant hands to the
    constructor. *)
Lemma ledger_unsigned_seed_slots
    (core : Core) (validated : TransactionObjectTypeWithTo) :
  let txData := Ledger.unsignedTransactionData core validated in
  get txData "r" = Some (JStr (hexSequenceNormalizer
    (multipleOfTwoHexValueNormalizer (String_of_number (SIGNATURE_R core))) true))
  /\ get txData "s" = Some (JStr (hexSequenceNormalizer
    (multipleOfTwoHexValueNormalizer (String_of_number (SIGNATURE_S core))) true))
  /\ get txData "v" = Some (JStr (hexSequenceNormalizer
    (multipleOfTwoHexValueNormalizer (Number_toString16 (chainId validated))) true)).
Proof.
  unfold Ledger.unsignedTransactionData. rewrite Object_assign_2.
  repeat split; rewrite get_assign1, whenTo_other by reflexivity;
    rewrite get_assign1; reflexivity.
Qed.

(** The Ledger's unsigned transaction has the bytes of the destination
    address, when there is one. *)
Lemma ledger_unsigned_destination
    (core : Core) (validated : TransactionObjectTypeWithTo) (unsigned : Tx.t) :
  Ledger.unsignedTransaction core validated = Return unsigned ->
  Tx.to unsigned = match to validated with
                   | Some address => if truthy (to validated)
                                     then hexBytes address
                                     else []
                   | None => []
                   end.
Proof.
  intros Hcreate.
  destruct (create_fields _ _ _ Hcreate) as (_ & _ & _ & _ & Hto & _).
  assert (get (Ledger.unsignedTransactionData core validated) "to"
          = if truthy (to validated)
            then option_map (fun a => JStr (withPrefix a)) (to validated)
            else None) as Hslot.
  { unfold Ledger.unsignedTransactionData. rewrite Object_assign_2.
    rewrite get_assign1, whenTo_to.
    destruct (truthy (to validated)) eqn:Et.
    - destruct (to validated); [reflexivity | discriminate].
    - rewrite get_assign1. reflexivity. }
  destruct (to validated) as [address|] eqn:Eto.
  - destruct (truthy (Some address)) eqn:Et.
    + rewrite (given_string _ _ _ Hslot) in Hto.
      apply setter_to in Hto. destruct Hto as [Hto _].
      apply toBuffer_string in Hto. now destruct Hto as [_ ->].
    + rewrite (given_nothing _ _ Hslot) in Hto. now injection Hto.
  - rewrite (given_nothing _ _ Hslot) in Hto. now injection Hto.
Qed.

(** X8. What the Ledger is asked to sign is the request it was given.
    Once the request and the path are validated, the device is connected
    and the constructor has accepted the unsigned transaction, the hex
    string that goes to the device, whatever the device then answers, is
    the RLP of nine fields.  Read as numbers, the nonce, the gas price,
    the gas limit and the value are those of the request (for fees and a
    value given as strings of hexadecimal digits), and the recovery field
    is the chain id; the destination is the bytes of the address, or
    empty when there is none; the data is the bytes of the input data;
    [r] and [s] are the bytes of the placeholders' digits. *)
Theorem X8_ledger_is_asked_to_sign_the_request :
  forall (messages : Messages) (core : Core) (service : LedgerService)
         (obj : WithDerivationPath.t)
         (validated : TransactionObjectTypeWithTo)
         (ledger : LedgerInstanceType.t) (unsigned : Tx.t),
    transactionObjectValidator core (transactionObjectOf obj)
      = Return validated ->
    ledgerConnection service = Return ledger ->
    derivationPathValidator core (WithDerivationPath.derivationPath obj)
      = Return tt ->
    Ledger.unsignedTransaction core validated = Return unsigned ->
    hexDigits (gasPrice validated) = true ->
    hexDigits (gasLimit validated) = true ->
    hexDigits (value validated) = true ->
    encodable (Tx.raw unsigned) ->
    exists (unsignedHex : string)
           (nonce_ gasPrice_ gasLimit_ to_ value_ data_ v_ r_ s_ : Buffer),
      events (Ledger.signTransaction messages core service obj)
        = [LedgerConnection; Warned (userSignInteractionWarning messages);
           LedgerSignTransaction
             (derivationPathNormalizer core
                (WithDerivationPath.derivationPath obj))
             unsignedHex]
      /\ rlp_decode (Buffer_from_hex unsignedHex)
         = Some [nonce_; gasPrice_; gasLimit_; to_; value_; data_; v_; r_; s_]
      /\ bufferToInt nonce_ = nonce validated
      /\ bufferToInt gasPrice_ = numericValue (gasPrice validated)
      /\ bufferToInt gasLimit_ = numericValue (gasLimit validated)
      /\ to_ = match to validated with
               | Some address => if truthy (to validated)
                                 then hexBytes address
                                 else []
               | None => []
               end
      /\ bufferToInt value_ = numericValue (value validated)
      /\ data_ = hexBytes (inputData validated)
      /\ bufferToInt v_ = chainId validated
      /\ r_ = stripZeros (hexBytes (padToEven
                (String_of_number (SIGNATURE_R core))))
      /\ s_ = stripZeros (hexBytes (padToEven
                (String_of_number (SIGNATURE_S core)))).
Proof.
  intros messages core service obj validated ledger unsigned
    Hv Hc Hp Hcreate Hgp Hgl Hval Henc.
  destruct (ledger_unsigned_slots core validated)
    as (Sgp & Sgl & Snonce & Svalue & Sdata).
  destruct (ledger_unsigned_seed_slots core validated) as (Sr & Ss & Sv).
  destruct (create_fields _ _ _ Hcreate)
    as (_ & Fnonce & Fgp & Fgl & Fto & Fvalue & Fdata & Fv & Fr & Fs & _).
  rewrite (given_string _ _ _ Snonce) in Fnonce.
  rewrite (given_string _ _ _ Sgp) in Fgp.
  rewrite (given_string _ _ _ Sgl) in Fgl.
  rewrite (given_string _ _ _ Svalue) in Fvalue.
  rewrite (given_string _ _ _ Sdata) in Fdata.
  rewrite (given_string _ _ _ Sv) in Fv.
  rewrite (given_string _ _ _ Sr) in Fr.
  rewrite (given_string _ _ _ Ss) in Fs.
  apply created_number_field in Fnonce, Fgp, Fgl, Fvalue, Fr, Fs;
    try reflexivity.
  rewrite setter_unbounded in Fdata, Fv by reflexivity.
  apply toBuffer_string in Fdata, Fv.
  destruct Fdata as [_ Fdata], Fv as [_ Fv].
  do 10 eexists. split; [|split].
  - rewrite (ledger_signTransaction_run messages core service obj validated
               ledger unsigned Hv Hc Hp Hcreate).
    reflexivity.
  - rewrite Buffer_from_hex_toString_hex. unfold Tx.serialize.
    rewrite (rlp_decode_encode _ Henc). reflexivity.
  - rewrite Fnonce, Fgp, Fgl, Fvalue, Fdata, Fv, Fr, Fs.
    repeat split.
    + apply (number_field_reads_the_request (NumBig (nonce validated))).
      reflexivity.
    + now apply number_field_reads_the_request, hexDigits_plainHex.
    + now apply number_field_reads_the_request, hexDigits_plainHex.
    + exact (ledger_unsigned_destination core validated unsigned Hcreate).
    + now apply number_field_reads_the_request, hexDigits_plainHex.
    + apply hexBytes_normalized_number.
Qed.

Lemma X8_ledger_is_asked_to_sign_the_request_witness :
  exists (unsignedHex : string)
         (nonce_ gasPrice_ gasLimit_ to_ value_ data_ v_ r_ s_ : Buffer),
    events (Ledger.signTransaction Reference.messages
              (Reference.core (Return true))
              (Reference.ledger (Throw (new_Error "Device disconnected"))
                 (Throw (new_Error "unused")))
              Reference.request)
      = [LedgerConnection; Warned "Confirm the transaction on the device";
         LedgerSignTransaction "m/44'/60'/0'/0/0" unsignedHex]
    /\ rlp_decode (Buffer_from_hex unsignedHex)
       = Some [nonce_; gasPrice_; gasLimit_; to_; value_; data_; v_; r_; s_]
    /\ bufferToInt nonce_ = 0%N
    /\ bufferToInt gasPrice_ = 1000000000%N
    /\ bufferToInt gasLimit_ = 21000%N
    /\ to_ = hexBytes "0x3535353535353535353535353535353535353535"
    /\ bufferToInt value_ = 0%N
    /\ data_ = []
    /\ bufferToInt v_ = 1%N
    /\ r_ = []
    /\ s_ = [].
Proof.
  apply (X8_ledger_is_asked_to_sign_the_request Reference.messages
           (Reference.core (Return true))
           (Reference.ledger (Throw (new_Error "Device disconnected"))
              (Throw (new_Error "unused")))
           Reference.request (transactionObjectOf Reference.request)
           (ReferenceWallet.device (Throw (new_Error "Device disconnected"))
              (Throw (new_Error "unused")))
           Reference.unsignedLedger);
    try reflexivity.
  apply encodable_by_computation. vm_compute. reflexivity.
Defined.

(** X9. The message that the device is asked to sign is the message that
    was given: the hex string in the Trezor's payload, and the one handed
    to the Ledger's [signPersonalMessage], decode to the bytes of the
    text, or to the bytes of the message data, that
    [messageOrDataValidator] returned. *)
Theorem X9_the_device_gets_the_bytes_of_the_message :
  forall (trezorMessages ledgerMessages : Messages) (core : Core)
         (o : SignMessage.t) (toSign : bufferSource),
    derivationPathValidator core (SignMessage.derivationPath o) = Return tt ->
    messageOrDataValidator core (SignMessage.message o)
      (SignMessage.messageData o) = Return toSign ->
    (forall (service : Trezor.Service),
        exists (payload : jsobj) (messageHex : string),
          events (Trezor.signMessage trezorMessages core service (ArgObject o))
            = [Warned (messageSignatureOnlyTrezor trezorMessages);
               TrezorPayload payload]
          /\ get payload "message" = Some (JStr messageHex)
          /\ Buffer_from_hex messageHex = Buffer_from toSign)
    /\
    (forall (service : LedgerService) (ledger : LedgerInstanceType.t),
        ledgerConnection service = Return ledger ->
        exists (messageHex : string),
          events (Ledger.signMessage ledgerMessages core service (ArgObject o))
            = [LedgerConnection;
               Warned (userSignMessageInteractionWarning ledgerMessages);
               LedgerSignPersonalMessage
                 (derivationPathNormalizer core (SignMessage.derivationPath o))
                 messageHex]
          /\ Buffer_from_hex messageHex = Buffer_from toSign).
Proof.
  intros trezorMessages ledgerMessages core o toSign Hp Hm. split.
  - intros service. do 2 eexists. split; [|split].
    + now rewrite (trezor_signMessage_run trezorMessages core service o toSign
                     Hp Hm).
    + unfold signMessagePayload. rewrite Object_assign_2, get_assign1.
      reflexivity.
    + apply Buffer_from_hex_toString_hex.
  - intros service ledger Hc. eexists. split.
    + now rewrite (ledger_signMessage_run ledgerMessages core service o toSign
                     ledger Hp Hm Hc).
    + apply Buffer_from_hex_toString_hex.
Qed.

Lemma X9_the_device_gets_the_bytes_of_the_message_witness :
  exists (messageHex : string),
    events (Ledger.signMessage Reference.messages (Reference.core (Return true))
              (Reference.ledger (Throw (new_Error "unused"))
                 (Throw (new_Error "Device disconnected")))
              (ArgObject (SignMessage.mk "m/44'/60'/0'/0/0" (Some "hello") None)))
      = [LedgerConnection; Warned "Confirm the message on the device";
         LedgerSignPersonalMessage "m/44'/60'/0'/0/0" messageHex]
    /\ Buffer_from_hex messageHex = Buffer_from (SrcString "hello").
Proof.
  pose proof (X9_the_device_gets_the_bytes_of_the_message Reference.messages
                Reference.messages (Reference.core (Return true))
                (SignMessage.mk "m/44'/60'/0'/0/0" (Some "hello") None)
                (SrcString "hello") eq_refl eq_refl) as [_ Hledger].
  apply (Hledger (Reference.ledger (Throw (new_Error "unused"))
                    (Throw (new_Error "Device disconnected")))
           (ReferenceWallet.device (Throw (new_Error "unused"))
              (Throw (new_Error "Device disconnected")))).
  reflexivity.
Defined.

(** X10. Once its arguments are validated, the Trezor [verifyMessage] logs
    the Trezor-only warning and sends one payload, with the address and
    the signature without their prefixes.  When the service answers, the
    result is its [success] and nothing more is logged; when the request
    fails, the failure is logged as a warning that names the message and
    the signature, and the result is [false]. *)
Theorem X10_trezor_verifyMessage_trace :
  forall (messages : Messages) (core : Core) (service : Trezor.Service)
         (obj : VerifyTrezor.t) (checked : string * string),
    addressValidator core (VerifyTrezor.address obj) = Return tt ->
    messageVerificationObjectValidator core
      (VerifyTrezor.message obj, VerifyTrezor.signature obj) = Return checked ->
    let payload := verifyMessagePayload service (VerifyTrezor.address obj)
                     (fst checked) (snd checked) in
    get payload "address" = Some (JStr (stripPrefix (VerifyTrezor.address obj)))
    /\ get payload "message" = Some (JStr (fst checked))
    /\ get payload "signature" = Some (JStr (stripPrefix (snd checked)))
    /\ Trezor.verifyMessage messages core service obj
       = match Trezor.payloadListener service payload with
         | Return response =>
             ([Warned (messageSignatureOnlyTrezor messages);
               TrezorPayload payload],
              Return (Trezor.success response))
         | Throw _ =>
             ([Warned (messageSignatureOnlyTrezor messages);
               TrezorPayload payload;
               Warned (messageSignatureInvalid messages ++ ": message ("
                       ++ fst checked ++ "), signature ("
                       ++ snd checked ++ ")")],
              Return false)
         end.
Proof.
  intros messages core service obj checked Ha Hm payload. subst payload.
  repeat split;
    try (unfold verifyMessagePayload; rewrite Object_assign_2, get_assign1;
         reflexivity).
  unfold Trezor.verifyMessage. run_validators.
  fold (verifyMessagePayload service (VerifyTrezor.address obj)
          (fst checked) (snd checked)).
  destruct (Trezor.payloadListener service _); reflexivity.
Qed.

Lemma X10_trezor_verifyMessage_trace_witness :
  exists payload,
    Trezor.verifyMessage Reference.messages (Reference.core (Return true))
      (Reference.trezor (Throw (new_Error "Invalid signature")))
      (VerifyTrezor.mk "0x3535353535353535353535353535353535353535"
         "hello" "0xabcd")
    = ([Warned "Signatures made with a Trezor verify only on a Trezor";
        TrezorPayload payload;
        Warned "The message signature is invalid: message (hello), signature (0xabcd)"],
       Return false)
    /\ get payload "address"
       = Some (JStr "3535353535353535353535353535353535353535")
    /\ get payload "signature" = Some (JStr "abcd").
Proof.
  destruct (X10_trezor_verifyMessage_trace Reference.messages
              (Reference.core (Return true))
              (Reference.trezor (Throw (new_Error "Invalid signature")))
              (VerifyTrezor.mk "0x3535353535353535353535353535353535353535"
                 "hello" "0xabcd")
              ("hello", "0xabcd") eq_refl eq_refl)
    as (Haddress & _ & Hsignature & Hrun).
  eexists. split; [exact Hrun | split; [exact Haddress | exact Hsignature]].
Defined.

(* ================================================================== *)
(** * The earlier variant of the Ledger methods *)
(* ================================================================== *)

(** X11. For fees and a value given as strings, as the type declarations
    have them, the TypeScript Ledger [signTransaction] and the earlier
    variant do the same up to the signature.  They log the same warnings
    and send the same requests to the device, whatever else the caller's
    object holds; and when the device gives no signature (the request is
    rejected, the connection fails, the path or the unsigned transaction
    is refused, or the device fails), they end alike, with the same
    error, provided that the caller's object dumps like the transaction
    object that the TypeScript variant makes of it. *)
Theorem X11_ledger_variants_agree_until_the_signature :
  forall (messages : Messages) (core : Core) (service : LedgerService)
         (obj : WithDerivationPath.t) (rest : jsobj),
    (forall validated : TransactionObjectTypeWithTo,
        transactionObjectValidator core (transactionObjectOf obj)
          = Return validated ->
        stringFees validated = true) ->
    events (Ledger.signTransaction messages core service obj)
      = events (LedgerFlow.signTransaction messages core service obj rest)
    /\ (objectToErrorString core rest
        = objectToErrorString core
            (Ledger.transactionObjectEntries (transactionObjectOf obj)) ->
        (forall validated ledger unsigned sig,
            transactionObjectValidator core (transactionObjectOf obj)
              = Return validated ->
            ledgerConnection service = Return ledger ->
            derivationPathValidator core
              (WithDerivationPath.derivationPath obj) = Return tt ->
            Ledger.unsignedTransaction core validated = Return unsigned ->
            LedgerInstanceType.signTransaction ledger
              (derivationPathNormalizer core
                 (WithDerivationPath.derivationPath obj))
              (Buffer_toString_hex (Tx.serialize unsigned))
              <> Return sig) ->
        Ledger.signTransaction messages core service obj
          = LedgerFlow.signTransaction messages core service obj rest).
Proof.
  intros messages core service obj rest _.
  split.
  - unfold Ledger.signTransaction, LedgerFlow.signTransaction.
    change (mkTransactionObject _ _ _ _ _ _ _) with (transactionObjectOf obj).
    destruct (transactionObjectValidator core (transactionObjectOf obj))
      as [validated|e]; [|reflexivity].
    rewrite !bind_lift_Return.
    change (LedgerFlow.unsignedTransaction core validated)
      with (Ledger.unsignedTransaction core validated).
    destruct (ledgerConnection service) as [ledger|e]; [|reflexivity].
    destruct (derivationPathValidator core _) as [[]|e]; [|reflexivity].
    destruct (Ledger.unsignedTransaction core validated) as [unsigned|e];
      [|reflexivity].
    cbn [bind await lift warning ret try_catch app].
    destruct (LedgerInstanceType.signTransaction ledger _ _) as [sig|e];
      [|reflexivity].
    rewrite ledger_signedTransaction.
    now destruct (LedgerFlow.signedTransaction unsigned sig).
  - intros Hdump Hnot.
    unfold Ledger.signTransaction, LedgerFlow.signTransaction.
    change (mkTransactionObject _ _ _ _ _ _ _) with (transactionObjectOf obj).
    rewrite Hdump.
    destruct (transactionObjectValidator core (transactionObjectOf obj))
      as [validated|e] eqn:Hv; [|reflexivity].
    rewrite !bind_lift_Return.
    change (LedgerFlow.unsignedTransaction core validated)
      with (Ledger.unsignedTransaction core validated).
    destruct (ledgerConnection service) as [ledger|e] eqn:Hc; [|reflexivity].
    destruct (derivationPathValidator core _) as [[]|e] eqn:Hp; [|reflexivity].
    destruct (Ledger.unsignedTransaction core validated) as [unsigned|e]
      eqn:Hcreate; [|reflexivity].
    cbn [bind await lift warning ret try_catch app].
    destruct (LedgerInstanceType.signTransaction ledger _ _) as [sig|e] eqn:Hs;
      [|reflexivity].
    now elim (Hnot validated ledger unsigned sig eq_refl eq_refl eq_refl
                Hcreate Hs).
Qed.

Lemma X11_ledger_variants_agree_until_the_signature_witness :
  Ledger.signTransaction Reference.messages (Reference.core (Return true))
    (Reference.ledger (Throw (new_Error "Device disconnected"))
       (Throw (new_Error "unused")))
    Reference.request
  = LedgerFlow.signTransaction Reference.messages
      (Reference.core (Return true))
      (Reference.ledger (Throw (new_Error "Device disconnected"))
         (Throw (new_Error "unused")))
      Reference.request ReferenceWallet.literalRest.
Proof.
  apply (X11_ledger_variants_agree_until_the_signature Reference.messages
           (Reference.core (Return true))
           (Reference.ledger (Throw (new_Error "Device disconnected"))
              (Throw (new_Error "unused")))
           Reference.request ReferenceWallet.literalRest).
  - intros validated [= <-]. reflexivity.
  - reflexivity.
  - intros validated ledger unsigned sig _ Hc _ _.
    injection Hc as <-. discriminate.
Defined.

(** X12. For an object argument, [signMessage] and [verifyMessage] of the
    earlier Ledger variant do what the TypeScript ones do: the same
    validations in the same order, the same requests to the device, the
    same result. *)
Theorem X12_earlier_message_methods_agree :
  forall (messages : Messages) (core : Core) (service : LedgerService),
    (forall o : SignMessage.t,
        LedgerFlow.signMessage messages core service o
        = Ledger.signMessage messages core service (ArgObject o))
    /\ (forall obj : VerifyLedger.t,
          LedgerFlow.verifyMessage core obj = Ledger.verifyMessage core obj).
Proof. intros messages core service. split; reflexivity. Qed.

(* ================================================================== *)
(** * The wallets' methods *)
(* ================================================================== *)

Section Binds.

Context {A B : Type}.

Lemma bind_ret (a : A) (k : A -> M B) : bind (ret a) k = k a.
Proof. apply bind_lift_Return. Qed.

Lemma bind_warning_ret (w : string) (a : A) (k : A -> M B) :
  bind (bind (warning w) (fun _ => ret a)) k
  = (Warned w :: events (k a), outcome (k a)).
Proof. unfold bind, warning, ret, events, outcome. cbn. now destruct (k a). Qed.

(** A step that ends in a value hands it over, and what it logged comes
    first; a step that throws ends the computation. *)
Lemma bind_accepted (m : M A) (k : A -> M B) (a : A) :
  outcome m = Return a ->
  bind m k = ((events m ++ events (k a))%list, outcome (k a)).
Proof.
  destruct m as [t r]. cbn. intros ->. cbn. now destruct (k a).
Qed.

Lemma bind_rejected (m : M A) (k : A -> M B) (e : Error) :
  outcome m = Throw e -> bind m k = (events m, Throw e).
Proof. destruct m as [t r]. cbn. now intros ->. Qed.

End Binds.

(** X13. The Trezor wallet's [sign] asks for the properties of a transfer
    when the transaction has a destination, and for those of a contract
    deployment when it has none.  The warning about contract deployments
    is logged before the transaction is validated: when the validator
    rejects the transaction, the trace is that warning, for a deployment,
    and then whatever the validator logged.  Either way the error of
    [userInputValidator] is thrown as it is and the device is not
    reached. *)
Theorem X13_trezor_sign_requires_by_destination :
  forall (messages : Messages) (core : Core) (service : Trezor.Service)
         (defaults : WalletDefaults) (this : TrezorWallet.t)
         (transactionObject : SignObject.t) (e : Error),
    outcome (userInputValidator defaults
               (trezorSignInput defaults transactionObject)) = Throw e ->
    TrezorWallet.sign messages core service defaults this transactionObject
    = (((if truthy (SignObject.to transactionObject)
         then []
         else [Warned (signContractDeployment defaults)])
        ++ events (userInputValidator defaults
                     (trezorSignInput defaults transactionObject)))%list,
       Throw e).
Proof.
  intros messages core service defaults this transactionObject e He.
  unfold TrezorWallet.sign. unfold trezorSignInput in *.
  destruct (truthy (SignObject.to transactionObject)).
  - rewrite bind_ret. now rewrite (bind_rejected _ _ _ He).
  - rewrite bind_warning_ret. now rewrite (bind_rejected _ _ _ He).
Qed.

Lemma X13_trezor_sign_requires_by_destination_witness :
  TrezorWallet.sign Reference.messages (Reference.core (Return true))
    (Reference.trezor (Throw (new_Error "unused"))) ReferenceWallet.strict
    ReferenceWallet.trezorWallet ReferenceWallet.bareDeployment
  = ([Warned "A contract deployment needs the inputData";
      Warned "MissingField"],
     Throw (new_Error "MissingField")).
Proof.
  apply (X13_trezor_sign_requires_by_destination Reference.messages
           (Reference.core (Return true))
           (Reference.trezor (Throw (new_Error "unused")))
           ReferenceWallet.strict ReferenceWallet.trezorWallet
           ReferenceWallet.bareDeployment (new_Error "MissingField")).
  reflexivity.
Defined.

(** X14. The Trezor wallet's [sign] signs with the wallet's own derivation
    path, and on the wallet's chain when the transaction names none.  Once
    the input is accepted, the validators keep the chain id and the
    constructor has accepted the unsigned transaction, one payload goes to
    the Trezor service, after the deployment warning if there is no
    destination and after whatever the input validator logged; its
    [address_n] is the path array of the wallet's normalized derivation
    path and its [chain_id] is the transaction's chain id, or the
    wallet's. *)
Theorem X14_trezor_sign_uses_the_wallets_path_and_chain :
  forall (messages : Messages) (core : Core) (service : Trezor.Service)
         (defaults : WalletDefaults) (this : TrezorWallet.t)
         (transactionObject : SignObject.t) (derivationPath : string)
         (validated : TransactionObjectTypeWithTo) (unsigned : Tx.t),
    outcome (userInputValidator defaults
               (trezorSignInput defaults transactionObject)) = Return tt ->
    GenericWallet.derivationPath (TrezorWallet.generic this)
      = Return derivationPath ->
    transactionObjectValidator core
      (transactionObjectOf
         (requestOf (TrezorWallet.generic this) transactionObject derivationPath))
      = Return validated ->
    chainId validated
      = chainIdOr (SignObject.chainId transactionObject)
          (GenericWallet.chainId (TrezorWallet.generic this)) ->
    derivationPathValidator core derivationPath = Return tt ->
    Trezor.unsignedTransaction core validated = Return unsigned ->
    exists payload,
      events (TrezorWallet.sign messages core service defaults this
                transactionObject)
        = ((if truthy (SignObject.to transactionObject)
            then []
            else [Warned (signContractDeployment defaults)])
           ++ events (userInputValidator defaults
                        (trezorSignInput defaults transactionObject))
           ++ [TrezorPayload payload])%list
      /\ get payload "address_n"
         = Some (JArr (toPathArray core
                         (derivationPathNormalizer core derivationPath)))
      /\ get payload "chain_id"
         = Some (JNum
             match SignObject.chainId transactionObject with
             | Some given => given
             | None => GenericWallet.chainId (TrezorWallet.generic this)
             end).
Proof.
  intros messages core service defaults this transactionObject derivationPath
    validated unsigned Hinput Hpath Hv Hchain Hp Hcreate.
  exists (Trezor.modifiedPayloadObject core service validated derivationPath).
  split; [|split].
  - unfold TrezorWallet.sign. unfold trezorSignInput in *.
    unfold requestOf in Hv. cbv zeta.
    destruct (truthy (SignObject.to transactionObject)).
    + rewrite bind_ret, (bind_accepted _ _ _ Hinput). run_validators.
      now rewrite (trezor_signTransaction_run messages core service _ validated
                     unsigned Hv Hp Hcreate).
    + rewrite bind_warning_ret, (bind_accepted _ _ _ Hinput). run_validators.
      now rewrite (trezor_signTransaction_run messages core service _ validated
                     unsigned Hv Hp Hcreate).
  - unfold Trezor.modifiedPayloadObject. rewrite Object_assign_3.
    rewrite get_assign1, whenTo_other by reflexivity.
    rewrite get_assign1. reflexivity.
  - unfold Trezor.modifiedPayloadObject. rewrite Object_assign_3.
    rewrite get_assign1, whenTo_other by reflexivity.
    rewrite get_assign1. cbn [rev app get String.eqb Ascii.eqb Bool.eqb].
    rewrite Hchain. reflexivity.
Qed.

Lemma X14_trezor_sign_uses_the_wallets_path_and_chain_witness :
  exists payload,
    events (TrezorWallet.sign Reference.messages (Reference.core (Return true))
              (Reference.trezor (Throw (new_Error "unused")))
              ReferenceWallet.defaults ReferenceWallet.trezorWallet
              ReferenceWallet.transfer)
      = [TrezorPayload payload]
    /\ get payload "address_n"
       = Some (JArr (Reference.toPathArray "m/44'/1'/0'/0/0"))
    /\ get payload "chain_id" = Some (JNum 3).
Proof.
  apply (X14_trezor_sign_uses_the_wallets_path_and_chain Reference.messages
           (Reference.core (Return true))
           (Reference.trezor (Throw (new_Error "unused")))
           ReferenceWallet.defaults ReferenceWallet.trezorWallet
           ReferenceWallet.transfer "m/44'/1'/0'/0/0"
           (transactionObjectOf
              (requestOf ReferenceWallet.instance ReferenceWallet.transfer
                 "m/44'/1'/0'/0/0"))
           (Tx.mk (hexBytes "07") (hexBytes "3b9aca00") (hexBytes "3b9aca00")
              [] (hexBytes "0de0b6b3a7640000") [] (hexBytes "03") [] []
              (Common.mk 3 false)));
    reflexivity.
Defined.

(** X15. The Ledger wallet's [sign] signs with the wallet's own derivation
    path, and on the wallet's chain when the transaction names none.  Once
    the input is accepted, the validators keep the chain id, the device
    is connected and the constructor has accepted the unsigned
    transaction, the device is asked to sign, on the wallet's normalized
    derivation path, a transaction whose recovery field is the
    transaction's chain id, or the wallet's. *)
Theorem X15_ledger_sign_uses_the_wallets_path_and_chain :
  forall (messages : Messages) (core : Core) (service : LedgerService)
         (defaults : WalletDefaults) (this : LedgerWallet.t)
         (transactionObject : SignObject.t) (derivationPath : string)
         (validated : TransactionObjectTypeWithTo)
         (ledger : LedgerInstanceType.t) (unsigned : Tx.t),
    outcome (userInputValidator defaults (ledgerSignInput transactionObject))
      = Return tt ->
    GenericWallet.derivationPath (LedgerWallet.generic this)
      = Return derivationPath ->
    transactionObjectValidator core
      (transactionObjectOf
         (requestOf (LedgerWallet.generic this) transactionObject derivationPath))
      = Return validated ->
    chainId validated
      = chainIdOr (SignObject.chainId transactionObject)
          (GenericWallet.chainId (LedgerWallet.generic this)) ->
    ledgerConnection service = Return ledger ->
    derivationPathValidator core derivationPath = Return tt ->
    Ledger.unsignedTransaction core validated = Return unsigned ->
    events (LedgerWallet.sign messages core service defaults this
              transactionObject)
      = (events (userInputValidator defaults
                   (ledgerSignInput transactionObject))
         ++ [LedgerConnection; Warned (userSignInteractionWarning messages);
             LedgerSignTransaction
               (derivationPathNormalizer core derivationPath)
               (Buffer_toString_hex (Tx.serialize unsigned))])%list
    /\ bufferToInt (Tx.v unsigned)
       = match SignObject.chainId transactionObject with
         | Some given => given
         | None => GenericWallet.chainId (LedgerWallet.generic this)
         end.
Proof.
  intros messages core service defaults this transactionObject derivationPath
    validated ledger unsigned Hinput Hpath Hv Hchain Hc Hp Hcreate.
  split.
  - unfold LedgerWallet.sign. unfold requestOf in Hv.
    unfold ledgerSignInput in *. cbv zeta.
    rewrite (bind_accepted _ _ _ Hinput). run_validators.
    now rewrite (ledger_signTransaction_run messages core service _ validated
                   ledger unsigned Hv Hc Hp Hcreate).
  - rewrite (created_v_reads_the_seed _ _ _ _
               (ledger_unsigned_v_slot core validated) Hcreate).
    exact Hchain.
Qed.

Lemma X15_ledger_sign_uses_the_wallets_path_and_chain_witness :
  events (LedgerWallet.sign Reference.messages (Reference.core (Return true))
            (Reference.ledger (Throw (new_Error "Device disconnected"))
               (Throw (new_Error "unused")))
            ReferenceWallet.defaults ReferenceWallet.ledgerWallet
            ReferenceWallet.transfer)
    = [LedgerConnection; Warned "Confirm the transaction on the device";
       LedgerSignTransaction "m/44'/1'/0'/0/0"
         (Buffer_toString_hex (Tx.serialize ReferenceWallet.unsignedTransfer))]
  /\ bufferToInt (Tx.v ReferenceWallet.unsignedTransfer) = 3%N.
Proof.
  apply (X15_ledger_sign_uses_the_wallets_path_and_chain Reference.messages
           (Reference.core (Return true))
           (Reference.ledger (Throw (new_Error "Device disconnected"))
              (Throw (new_Error "unused")))
           ReferenceWallet.defaults ReferenceWallet.ledgerWallet
           ReferenceWallet.transfer "m/44'/1'/0'/0/0"
           (transactionObjectOf
              (requestOf ReferenceWallet.instance ReferenceWallet.transfer
                 "m/44'/1'/0'/0/0"))
           (ReferenceWallet.device (Throw (new_Error "Device disconnected"))
              (Throw (new_Error "unused")))
           ReferenceWallet.unsignedTransfer);
    reflexivity.
Defined.

(** X16. Input that [userInputValidator] rejects reaches no device.  The
    Ledger wallet's [sign], and [signMessage] and [verifyMessage] of both
    wallets, throw the validator's error as it is: nothing is logged but
    what the validator logs, the wallet's derivation path or public key is
    not awaited, and neither the device nor the service is asked. *)
Theorem X16_rejected_input_reaches_no_device :
  forall (trezorMessages ledgerMessages : Messages) (core : Core)
         (trezor : Trezor.Service) (ledger : LedgerService)
         (defaults : WalletDefaults)
         (trezorWallet : TrezorWallet.t) (ledgerWallet : LedgerWallet.t)
         (e : Error),
    (forall transactionObject : SignObject.t,
        outcome (userInputValidator defaults
                   (ledgerSignInput transactionObject)) = Throw e ->
        LedgerWallet.sign ledgerMessages core ledger defaults ledgerWallet
          transactionObject
        = (events (userInputValidator defaults
                     (ledgerSignInput transactionObject)),
           Throw e))
    /\
    (forall messageObject : SignMessageData.t,
        outcome (userInputValidator defaults
                   (signMessageInput defaults messageObject)) = Throw e ->
        TrezorWallet.signMessage trezorMessages core trezor defaults
          trezorWallet messageObject
        = (events (userInputValidator defaults
                     (signMessageInput defaults messageObject)),
           Throw e)
        /\ LedgerWallet.signMessage ledgerMessages core ledger defaults
             ledgerWallet messageObject
           = (events (userInputValidator defaults
                        (signMessageInput defaults messageObject)),
              Throw e))
    /\
    (forall signatureVerificationObject : MessageVerificationObjectType.t,
        outcome (userInputValidator defaults
                   (verifyMessageInput defaults signatureVerificationObject))
          = Throw e ->
        TrezorWallet.verifyMessage trezorMessages core trezor defaults
          trezorWallet signatureVerificationObject
        = (events (userInputValidator defaults
                     (verifyMessageInput defaults signatureVerificationObject)),
           Throw e)
        /\ LedgerWallet.verifyMessage core defaults ledgerWallet
             signatureVerificationObject
           = (events (userInputValidator defaults
                        (verifyMessageInput defaults
                           signatureVerificationObject)),
              Throw e)).
Proof.
  intros trezorMessages ledgerMessages core trezor ledger defaults
    trezorWallet ledgerWallet e.
  split; [|split].
  - intros transactionObject He. unfold LedgerWallet.sign.
    unfold ledgerSignInput in *. now rewrite (bind_rejected _ _ _ He).
  - intros messageObject He.
    unfold TrezorWallet.signMessage, LedgerWallet.signMessage.
    unfold signMessageInput in *. now rewrite !(bind_rejected _ _ _ He).
  - intros signatureVerificationObject He.
    unfold TrezorWallet.verifyMessage, LedgerWallet.verifyMessage.
    unfold verifyMessageInput in *. now rewrite !(bind_rejected _ _ _ He).
Qed.

Lemma X16_rejected_input_reaches_no_device_witness :
  TrezorWallet.signMessage Reference.messages (Reference.core (Return true))
    (Reference.trezor (Throw (new_Error "unused"))) ReferenceWallet.defaults
    ReferenceWallet.trezorWallet (SignMessageData.mk None None)
  = ([Warned "MissingField"], Throw (new_Error "MissingField"))
  /\ LedgerWallet.signMessage Reference.messages (Reference.core (Return true))
       ReferenceWallet.noDevice ReferenceWallet.defaults
       ReferenceWallet.ledgerWallet (SignMessageData.mk None None)
     = ([Warned "MissingField"], Throw (new_Error "MissingField")).
Proof.
  destruct (X16_rejected_input_reaches_no_device Reference.messages
              Reference.messages (Reference.core (Return true))
              (Reference.trezor (Throw (new_Error "unused")))
              ReferenceWallet.noDevice ReferenceWallet.defaults
              ReferenceWallet.trezorWallet ReferenceWallet.ledgerWallet
              (new_Error "MissingField"))
    as (_ & HsignMessage & _).
  apply (HsignMessage (SignMessageData.mk None None)). reflexivity.
Defined.

(** X17. A wallet whose derivation path cannot be had signs nothing.  When
    the promise of the wallet's derivation path is rejected, [sign] and
    [signMessage] of both wallets throw its error once the input is
    accepted; no request is validated and no device is reached.  Only the
    Trezor wallet's deployment warning, and what the input validator
    logged, have been logged by then. *)
Theorem X17_no_derivation_path_no_signature :
  forall (trezorMessages ledgerMessages : Messages) (core : Core)
         (trezor : Trezor.Service) (ledger : LedgerService)
         (defaults : WalletDefaults)
         (trezorWallet : TrezorWallet.t) (ledgerWallet : LedgerWallet.t)
         (e : Error),
    GenericWallet.derivationPath (TrezorWallet.generic trezorWallet)
      = Throw e ->
    GenericWallet.derivationPath (LedgerWallet.generic ledgerWallet)
      = Throw e ->
    (forall transactionObject : SignObject.t,
        (outcome (userInputValidator defaults
                    (trezorSignInput defaults transactionObject))
           = Return tt ->
         TrezorWallet.sign trezorMessages core trezor defaults trezorWallet
           transactionObject
         = (((if truthy (SignObject.to transactionObject)
              then []
              else [Warned (signContractDeployment defaults)])
             ++ events (userInputValidator defaults
                          (trezorSignInput defaults transactionObject)))%list,
            Throw e))
        /\
        (outcome (userInputValidator defaults
                    (ledgerSignInput transactionObject)) = Return tt ->
         LedgerWallet.sign ledgerMessages core ledger defaults ledgerWallet
           transactionObject
         = (events (userInputValidator defaults
                      (ledgerSignInput transactionObject)),
            Throw e)))
    /\
    (forall messageObject : SignMessageData.t,
        outcome (userInputValidator defaults
                   (signMessageInput defaults messageObject)) = Return tt ->
        TrezorWallet.signMessage trezorMessages core trezor defaults
          trezorWallet messageObject
        = (events (userInputValidator defaults
                     (signMessageInput defaults messageObject)),
           Throw e)
        /\ LedgerWallet.signMessage ledgerMessages core ledger defaults
             ledgerWallet messageObject
           = (events (userInputValidator defaults
                        (signMessageInput defaults messageObject)),
              Throw e)).
Proof.
  intros trezorMessages ledgerMessages core trezor ledger defaults
    trezorWallet ledgerWallet e Htrezor Hledger.
  split.
  - intros transactionObject. split; intros Hinput.
    + unfold TrezorWallet.sign. unfold trezorSignInput in *.
      destruct (truthy (SignObject.to transactionObject)).
      * rewrite bind_ret, (bind_accepted _ _ _ Hinput). run_validators.
        cbn. now rewrite app_nil_r.
      * rewrite bind_warning_ret, (bind_accepted _ _ _ Hinput).
        run_validators. cbn. now rewrite app_nil_r.
    + unfold LedgerWallet.sign. unfold ledgerSignInput in *. cbv zeta.
      rewrite (bind_accepted _ _ _ Hinput). run_validators.
      cbn. now rewrite app_nil_r.
  - intros messageObject Hinput.
    unfold TrezorWallet.signMessage, LedgerWallet.signMessage.
    unfold signMessageInput in *.
    rewrite !(bind_accepted _ _ _ Hinput). run_validators.
    cbn. now rewrite app_nil_r.
Qed.

Lemma X17_no_derivation_path_no_signature_witness :
  TrezorWallet.sign Reference.messages (Reference.core (Return true))
    (Reference.trezor (Throw (new_Error "unused"))) ReferenceWallet.defaults
    ReferenceWallet.lostTrezorWallet ReferenceWallet.deployment
  = ([Warned "A contract deployment needs the inputData"],
     Throw (new_Error "No derivation path")).
Proof.
  destruct (X17_no_derivation_path_no_signature Reference.messages
              Reference.messages (Reference.core (Return true))
              (Reference.trezor (Throw (new_Error "unused")))
              ReferenceWallet.noDevice ReferenceWallet.defaults
              ReferenceWallet.lostTrezorWallet ReferenceWallet.lostLedgerWallet
              (new_Error "No derivation path") eq_refl eq_refl)
    as [Hsign _].
  destruct (Hsign ReferenceWallet.deployment) as [Htrezor _].
  apply Htrezor. reflexivity.
Defined.

(** X18. The wallets verify against their own key.  Once the input and
    the message and signature are accepted, the Trezor wallet's
    [verifyMessage] logs, after whatever the input validator logged, the
    Trezor-only warning and sends a payload whose [address] is the
    wallet's address without its prefix; the Ledger wallet's
    [verifyMessage] asks no device: its result is what
    [verifyMessageSignature] says of the wallet's public key and the
    signature, both with their prefix. *)
Theorem X18_wallets_verify_against_their_own_key :
  forall (messages : Messages) (core : Core) (defaults : WalletDefaults)
         (signatureVerificationObject : MessageVerificationObjectType.t)
         (checked : string * string),
    outcome (userInputValidator defaults
               (verifyMessageInput defaults signatureVerificationObject))
      = Return tt ->
    messageVerificationObjectValidator core
      (MessageVerificationObjectType.message signatureVerificationObject,
       MessageVerificationObjectType.signature signatureVerificationObject)
      = Return checked ->
    (forall (service : Trezor.Service) (this : TrezorWallet.t),
        addressValidator core
          (GenericWallet.address (TrezorWallet.generic this)) = Return tt ->
        exists (payload : jsobj) (rest : list event),
          events (TrezorWallet.verifyMessage messages core service defaults
                    this signatureVerificationObject)
            = (events (userInputValidator defaults
                         (verifyMessageInput defaults
                            signatureVerificationObject))
               ++ Warned (messageSignatureOnlyTrezor messages)
                  :: TrezorPayload payload :: rest)%list
          /\ get payload "address"
             = Some (JStr (stripPrefix
                  (GenericWallet.address (TrezorWallet.generic this)))))
    /\
    (forall (this : LedgerWallet.t) (publicKey : string),
        GenericWallet.publicKey (LedgerWallet.generic this)
          = Return publicKey ->
        hexSequenceValidator core publicKey = Return tt ->
        LedgerWallet.verifyMessage core defaults this
          signatureVerificationObject
        = (events (userInputValidator defaults
                     (verifyMessageInput defaults
                        signatureVerificationObject)),
           verifyMessageSignature core
             (withPrefix publicKey) (fst checked)
             (withPrefix (snd checked)))).
Proof.
  intros messages core defaults signatureVerificationObject checked
    Hinput Hchecked.
  unfold verifyMessageInput in *.
  split.
  - intros service this Haddress.
    exists (verifyMessagePayload service
              (GenericWallet.address (TrezorWallet.generic this))
              (fst checked) (snd checked)).
    unfold TrezorWallet.verifyMessage, Trezor.verifyMessage. cbv zeta.
    cbn [VerifyTrezor.address VerifyTrezor.message VerifyTrezor.signature].
    rewrite (bind_accepted _ _ _ Hinput).
    run_validators.
    fold (verifyMessagePayload service
            (GenericWallet.address (TrezorWallet.generic this))
            (fst checked) (snd checked)).
    destruct (Trezor.payloadListener service _); eexists;
      (split; [reflexivity|]);
      unfold verifyMessagePayload; rewrite Object_assign_2, get_assign1;
      reflexivity.
  - intros this publicKey Hkey Hhex.
    unfold LedgerWallet.verifyMessage, Ledger.verifyMessage. cbv zeta.
    cbn [VerifyLedger.publicKey VerifyLedger.message VerifyLedger.signature].
    rewrite (bind_accepted _ _ _ Hinput).
    run_validators.
    unfold bind, lift. cbn.
    destruct (verifyMessageSignature core _ _ _); cbn; now rewrite app_nil_r.
Qed.

Lemma X18_wallets_verify_against_their_own_key_witness :
  LedgerWallet.verifyMessage (Reference.core (Return true))
    ReferenceWallet.defaults ReferenceWallet.ledgerWallet
    (MessageVerificationObjectType.mk "hello" "abcd")
  = ([], Return true).
Proof.
  destruct (X18_wallets_verify_against_their_own_key Reference.messages
              (Reference.core (Return true)) ReferenceWallet.defaults
              (MessageVerificationObjectType.mk "hello" "abcd")
              ("hello", "abcd") eq_refl eq_refl)
    as [_ Hledger].
  apply (Hledger ReferenceWallet.ledgerWallet "04abcdef"); reflexivity.
Defined.

(** X19. The wallets sign messages on their own derivation path.  Once the
    input, the path and the message are accepted, the payload that the
    Trezor wallet's [signMessage] sends has the path array of the wallet's
    normalized derivation path, and the Ledger wallet's [signMessage] asks
    the connected device to sign the bytes of the message on the wallet's
    normalized derivation path; before that the trace has only what the
    input validator logged. *)
Theorem X19_wallets_sign_messages_on_their_own_path :
  forall (trezorMessages ledgerMessages : Messages) (core : Core)
         (defaults : WalletDefaults) (messageObject : SignMessageData.t)
         (derivationPath : string) (toSign : bufferSource),
    outcome (userInputValidator defaults
               (signMessageInput defaults messageObject)) = Return tt ->
    derivationPathValidator core derivationPath = Return tt ->
    messageOrDataValidator core (SignMessageData.message messageObject)
      (SignMessageData.messageData messageObject) = Return toSign ->
    (forall (service : Trezor.Service) (this : TrezorWallet.t),
        GenericWallet.derivationPath (TrezorWallet.generic this)
          = Return derivationPath ->
        exists payload : jsobj,
          events (TrezorWallet.signMessage trezorMessages core service
                    defaults this messageObject)
            = (events (userInputValidator defaults
                         (signMessageInput defaults messageObject))
               ++ [Warned (messageSignatureOnlyTrezor trezorMessages);
                   TrezorPayload payload])%list
          /\ get payload "path"
             = Some (JArr (toPathArray core
                             (derivationPathNormalizer core derivationPath))))
    /\
    (forall (service : LedgerService) (this : LedgerWallet.t)
            (ledger : LedgerInstanceType.t),
        GenericWallet.derivationPath (LedgerWallet.generic this)
          = Return derivationPath ->
        ledgerConnection service = Return ledger ->
        events (LedgerWallet.signMessage ledgerMessages core service defaults
                  this messageObject)
        = (events (userInputValidator defaults
                     (signMessageInput defaults messageObject))
           ++ [LedgerConnection;
               Warned (userSignMessageInteractionWarning ledgerMessages);
               LedgerSignPersonalMessage
                 (derivationPathNormalizer core derivationPath)
                 (Buffer_toString_hex (Buffer_from toSign))])%list).
Proof.
  intros trezorMessages ledgerMessages core defaults messageObject
    derivationPath toSign Hinput Hp Hm.
  unfold signMessageInput in *.
  split.
  - intros service this Hpath.
    eexists. split.
    + unfold TrezorWallet.signMessage.
      rewrite (bind_accepted _ _ _ Hinput). run_validators.
      now rewrite (trezor_signMessage_run trezorMessages core service
                     (SignMessage.mk derivationPath
                        (SignMessageData.message messageObject)
                        (SignMessageData.messageData messageObject))
                     toSign Hp Hm).
    + unfold signMessagePayload. rewrite Object_assign_2, get_assign1.
      reflexivity.
  - intros service this ledger Hpath Hc.
    unfold LedgerWallet.signMessage.
    rewrite (bind_accepted _ _ _ Hinput). run_validators.
    now rewrite (ledger_signMessage_run ledgerMessages core service
                   (SignMessage.mk derivationPath
                      (SignMessageData.message messageObject)
                      (SignMessageData.messageData messageObject))
                   toSign ledger Hp Hm Hc).
Qed.

Lemma X19_wallets_sign_messages_on_their_own_path_witness :
  events (LedgerWallet.signMessage Reference.messages
            (Reference.core (Return true))
            (Reference.ledger (Throw (new_Error "unused"))
               (Throw (new_Error "Device disconnected")))
            ReferenceWallet.defaults ReferenceWallet.ledgerWallet
            (SignMessageData.mk (Some "hello") None))
  = [LedgerConnection; Warned "Confirm the message on the device";
     LedgerSignPersonalMessage "m/44'/1'/0'/0/0" "68656c6c6f"].
Proof.
  destruct (X19_wallets_sign_messages_on_their_own_path Reference.messages
              Reference.messages (Reference.core (Return true))
              ReferenceWallet.defaults
              (SignMessageData.mk (Some "hello") None)
              "m/44'/1'/0'/0/0" (SrcString "hello")
              eq_refl eq_refl eq_refl)
    as [_ Hledger].
  apply (Hledger (Reference.ledger (Throw (new_Error "unused"))
                    (Throw (new_Error "Device disconnected")))
           ReferenceWallet.ledgerWallet
           (ReferenceWallet.device (Throw (new_Error "unused"))
              (Throw (new_Error "Device disconnected"))));
    reflexivity.
Defined.

(* ================================================================== *)
(** * Opening a Trezor wallet *)
(* ================================================================== *)

Section Opening.

Variable core : Core.
Variable service : TrezorIndex.Service.
Variable defaults : TrezorIndex.Defaults.
Variable walletDefaults : WalletDefaults.

(** The chain that [open] settles on. *)
Lemma open_run (argument : option WalletArgumentsType.t) :
  let argumentObject :=
    match argument with
    | Some o => o
    | None => WalletArgumentsType.mk None None
    end in
  let chainId := chainIdOr (WalletArgumentsType.chainId argumentObject)
                   (TrezorIndex.CHAIN_IDS_HOMESTEAD defaults) in
  let payload := TrezorIndex.modifiedPayloadObject core service defaults chainId in
  let logged := events (userInputValidator walletDefaults (openInput argument)) in
  outcome (userInputValidator walletDefaults (openInput argument))
    = Return tt ->
  TrezorIndex.open core service defaults walletDefaults argument
  = match
      match TrezorIndex.payloadListener service payload with
      | Return response =>
          TrezorWallet.constructor walletDefaults
            {| GenericClassArgumentsType.publicKey :=
                 TrezorIndex.publicKey response;
               GenericClassArgumentsType.chainCode :=
                 Some (TrezorIndex.chainCode response);
               GenericClassArgumentsType.rootDerivationPath :=
                 TrezorIndex.rootDerivationPathOf defaults chainId;
               GenericClassArgumentsType.addressCount :=
                 WalletArgumentsType.addressCount argumentObject;
               GenericClassArgumentsType.chainId := Some chainId |}
      | Throw e => Throw e
      end
    with
    | Return walletInstance =>
        ((logged ++ [TrezorPayload payload])%list,
         Return (Some walletInstance))
    | Throw caughtError =>
        if String.eqb (message caughtError) (TrezorIndex.CANCEL_ACC_EXPORT service)
        then ((logged ++ [TrezorPayload payload;
                          Warned (TrezorIndex.userExportCancel defaults)])%list,
              Return None)
        else ((logged ++ [TrezorPayload payload])%list,
              Throw (new_Error
                (TrezorIndex.userExportGenericError defaults ++ ": "
                 ++ objectToErrorString core payload ++ " "
                 ++ message caughtError)))
    end.
Proof.
  intros argumentObject chainId payload logged Hinput.
  unfold TrezorIndex.open. unfold openInput in *.
  fold argumentObject in Hinput |- *. cbv zeta.
  rewrite (bind_accepted _ _ _ Hinput). fold logged.
  fold chainId. fold payload.
  destruct (TrezorIndex.payloadListener service payload) as [response|e].
  - cbn. destruct (TrezorWallet.constructor walletDefaults _) as [wallet|e].
    + reflexivity.
    + cbn. now destruct (String.eqb (message e) _).
  - cbn. now destruct (String.eqb (message e) _).
Qed.

(** X20. [open] does not throw when the user cancels.  When the request
    for the public key fails, or the wallet's constructor fails, with an
    error whose message is that of a cancelled export, [open] logs the
    cancellation as a warning and returns nothing; no wallet is made and
    no error is thrown.  The trace is what the input validator logged, the
    payload that was sent and that warning. *)
Theorem X20_open_cancelled_returns_nothing :
  forall (argument : option WalletArgumentsType.t) (caughtError : Error),
    let argumentObject :=
      match argument with
      | Some o => o
      | None => WalletArgumentsType.mk None None
      end in
    let chainId := chainIdOr (WalletArgumentsType.chainId argumentObject)
                     (TrezorIndex.CHAIN_IDS_HOMESTEAD defaults) in
    let payload :=
      TrezorIndex.modifiedPayloadObject core service defaults chainId in
    outcome (userInputValidator walletDefaults (openInput argument))
      = Return tt ->
    TrezorIndex.payloadListener service payload = Throw caughtError
    \/ (exists response,
          TrezorIndex.payloadListener service payload = Return response
          /\ GenericWallet_constructor walletDefaults
               {| GenericClassArgumentsType.publicKey :=
                    TrezorIndex.publicKey response;
                  GenericClassArgumentsType.chainCode :=
                    Some (TrezorIndex.chainCode response);
                  GenericClassArgumentsType.rootDerivationPath :=
                    TrezorIndex.rootDerivationPathOf defaults chainId;
                  GenericClassArgumentsType.addressCount :=
                    WalletArgumentsType.addressCount argumentObject;
                  GenericClassArgumentsType.chainId := Some chainId |}
             = Throw caughtError) ->
    message caughtError = TrezorIndex.CANCEL_ACC_EXPORT service ->
    TrezorIndex.open core service defaults walletDefaults argument
    = ((events (userInputValidator walletDefaults (openInput argument))
        ++ [TrezorPayload payload;
            Warned (TrezorIndex.userExportCancel defaults)])%list,
       Return None).
Proof.
  intros argument caughtError argumentObject chainId payload Hinput Hfails
    Hcancel.
  rewrite (open_run argument Hinput).
  fold argumentObject. fold chainId. fold payload.
  destruct Hfails as [Hservice | (response & Hservice & Hconstructor)];
    rewrite Hservice.
  - now rewrite Hcancel, String.eqb_refl.
  - unfold TrezorWallet.constructor. rewrite Hconstructor.
    now rewrite Hcancel, String.eqb_refl.
Qed.

(** X21. Any other failure of [open] is thrown as a new error.  When the
    request for the public key fails with an error that is not a
    cancelled export, [open] throws an error whose message is the generic
    export message, a colon, the dump of the payload that was sent, and
    the message of the failure; nothing is logged but what the input
    validator logged. *)
Theorem X21_open_failure_names_the_payload :
  forall (argument : option WalletArgumentsType.t) (caughtError : Error),
    let argumentObject :=
      match argument with
      | Some o => o
      | None => WalletArgumentsType.mk None None
      end in
    let chainId := chainIdOr (WalletArgumentsType.chainId argumentObject)
                     (TrezorIndex.CHAIN_IDS_HOMESTEAD defaults) in
    let payload :=
      TrezorIndex.modifiedPayloadObject core service defaults chainId in
    outcome (userInputValidator walletDefaults (openInput argument))
      = Return tt ->
    TrezorIndex.payloadListener service payload = Throw caughtError ->
    message caughtError <> TrezorIndex.CANCEL_ACC_EXPORT service ->
    exists thrown : Error,
      TrezorIndex.open core service defaults walletDefaults argument
        = ((events (userInputValidator walletDefaults (openInput argument))
            ++ [TrezorPayload payload])%list,
           Throw thrown)
      /\ message thrown
         = TrezorIndex.userExportGenericError defaults ++ ": "
           ++ objectToErrorString core payload ++ " " ++ message caughtError.
Proof.
  intros argument caughtError argumentObject chainId payload Hinput Hservice
    Hother.
  rewrite (open_run argument Hinput).
  fold argumentObject. fold chainId. fold payload. rewrite Hservice.
  apply String.eqb_neq in Hother. rewrite Hother.
  eexists. split; reflexivity.
Qed.

(** X22. [open] makes the wallet on the path of the chain's coin type.
    The chain is the main net when none is given; the coin type is the
    main net's on the main net and the test nets' on any other chain.
    When the service answers and the generic constructor accepts, the
    payload that was sent carries the path array of the root derivation
    path of that coin type, and the wallet is a hardware wallet of subtype
    trezor made from the answer's public key and chain code, that same
    root derivation path, the address count given and the chain. *)
Theorem X22_open_makes_the_wallet_on_the_chains_path :
  forall (argument : option WalletArgumentsType.t)
         (response : TrezorIndex.XpubResponse) (super : GenericWallet.t),
    let argumentObject :=
      match argument with
      | Some o => o
      | None => WalletArgumentsType.mk None None
      end in
    let given := WalletArgumentsType.chainId argumentObject in
    let coinType :=
      match given with
      | Some chain =>
          if (chain =? TrezorIndex.CHAIN_IDS_HOMESTEAD defaults)%N
          then TrezorIndex.PATH_COIN_MAINNET defaults
          else TrezorIndex.PATH_COIN_TESTNET defaults
      | None => TrezorIndex.PATH_COIN_MAINNET defaults
      end in
    let chainId :=
      match given with
      | Some chain => chain
      | None => TrezorIndex.CHAIN_IDS_HOMESTEAD defaults
      end in
    let rootDerivationPath :=
      TrezorIndex.derivationPathSerializer defaults
        {| DerivationPathObjectType.purpose := None;
           DerivationPathObjectType.coinType := Some coinType;
           DerivationPathObjectType.account := None;
           DerivationPathObjectType.change :=
             Some (TrezorIndex.PATH_CHANGE defaults);
           DerivationPathObjectType.addressIndex := None |} in
    outcome (userInputValidator walletDefaults (openInput argument))
      = Return tt ->
    TrezorIndex.payloadListener service
      (TrezorIndex.modifiedPayloadObject core service defaults chainId)
      = Return response ->
    GenericWallet_constructor walletDefaults
      {| GenericClassArgumentsType.publicKey := TrezorIndex.publicKey response;
         GenericClassArgumentsType.chainCode :=
           Some (TrezorIndex.chainCode response);
         GenericClassArgumentsType.rootDerivationPath := rootDerivationPath;
         GenericClassArgumentsType.addressCount :=
           WalletArgumentsType.addressCount argumentObject;
         GenericClassArgumentsType.chainId := Some chainId |}
      = Return super ->
    exists payload : jsobj,
      TrezorIndex.open core service defaults walletDefaults argument
        = ((events (userInputValidator walletDefaults (openInput argument))
            ++ [TrezorPayload payload])%list,
           Return (Some {| TrezorWallet.generic := super;
                           TrezorWallet.type := TYPE_HARDWARE;
                           TrezorWallet.subtype := SUBTYPE_TREZOR |}))
      /\ get payload "path"
         = Some (JArr (toPathArray core rootDerivationPath)).
Proof.
  intros argument response super argumentObject given coinType chainId
    rootDerivationPath Hinput Hservice Hconstructor.
  assert (chainIdOr given (TrezorIndex.CHAIN_IDS_HOMESTEAD defaults) = chainId)
    as Hchain by reflexivity.
  assert (TrezorIndex.rootDerivationPathOf defaults chainId = rootDerivationPath)
    as Hroot.
  { unfold TrezorIndex.rootDerivationPathOf, TrezorIndex.coinTypeOf,
      rootDerivationPath, coinType, chainId.
    destruct given as [chain|]; [reflexivity|].
    now rewrite N.eqb_refl. }
  exists (TrezorIndex.modifiedPayloadObject core service defaults chainId).
  split.
  - rewrite (open_run argument Hinput).
    fold argumentObject. fold given. rewrite Hchain, Hservice, Hroot.
    unfold TrezorWallet.constructor. now rewrite Hconstructor.
  - unfold TrezorIndex.modifiedPayloadObject.
    rewrite Object_assign_2, get_assign1, Hroot. reflexivity.
Qed.

End Opening.

Lemma X20_open_cancelled_returns_nothing_witness :
  exists payload,
    TrezorIndex.open (Reference.core (Return true))
      (ReferenceWallet.xpub (Throw (new_Error "Cancelled")))
      ReferenceWallet.openDefaults ReferenceWallet.defaults None
    = ([TrezorPayload payload; Warned "User cancelled the account export"],
       Return None).
Proof.
  eexists.
  apply (X20_open_cancelled_returns_nothing (Reference.core (Return true))
           (ReferenceWallet.xpub (Throw (new_Error "Cancelled")))
           ReferenceWallet.openDefaults ReferenceWallet.defaults None
           (new_Error "Cancelled")).
  - reflexivity.
  - left. reflexivity.
  - reflexivity.
Defined.

Lemma X21_open_failure_names_the_payload_witness :
  exists (payload : jsobj) (thrown : Error),
    TrezorIndex.open (Reference.core (Return true))
      (ReferenceWallet.xpub (Throw (new_Error "Device disconnected")))
      ReferenceWallet.openDefaults ReferenceWallet.defaults
      (Some (WalletArgumentsType.mk None (Some 3%N)))
    = ([TrezorPayload payload], Throw thrown)
    /\ message thrown
       = "Could not export the account" ++ ": "
         ++ objectToErrorString (Reference.core (Return true)) payload
         ++ " " ++ "Device disconnected".
Proof.
  eexists.
  apply (X21_open_failure_names_the_payload (Reference.core (Return true))
           (ReferenceWallet.xpub (Throw (new_Error "Device disconnected")))
           ReferenceWallet.openDefaults ReferenceWallet.defaults
           (Some (WalletArgumentsType.mk None (Some 3%N)))
           (new_Error "Device disconnected")).
  - reflexivity.
  - reflexivity.
  - discriminate.
Defined.

Lemma X22_open_makes_the_wallet_on_the_chains_path_witness :
  exists payload : jsobj,
    TrezorIndex.open (Reference.core (Return true))
      (ReferenceWallet.xpub
         (Return (TrezorIndex.mkXpubResponse "04abcdef" "c0de")))
      ReferenceWallet.openDefaults ReferenceWallet.defaults
      (Some (WalletArgumentsType.mk None (Some 3%N)))
    = ([TrezorPayload payload],
       Return (Some (TrezorWallet.mk
         {| GenericWallet.address :=
              "0x3535353535353535353535353535353535353535";
            GenericWallet.chainId := 3;
            GenericWallet.derivationPath := Return "m/44'/1'/0'/0/0";
            GenericWallet.publicKey := Return "04abcdef" |}
         "hardware" "trezor")))
    /\ get payload "path" = Some (JArr (Reference.toPathArray "m/44'/1'/0'/0")).
Proof.
  apply (X22_open_makes_the_wallet_on_the_chains_path
           (Reference.core (Return true))
           (ReferenceWallet.xpub
              (Return (TrezorIndex.mkXpubResponse "04abcdef" "c0de")))
           ReferenceWallet.openDefaults ReferenceWallet.defaults
           (Some (WalletArgumentsType.mk None (Some 3%N)))
           (TrezorIndex.mkXpubResponse "04abcdef" "c0de"));
    reflexivity.
Defined.

(* ================================================================== *)
(** * The seeded recovery value on a chain definition after spuriousDragon *)
(* ================================================================== *)

Lemma bufferToInt_of_empty (b : Buffer) : blen b = 0%N -> bufferToInt b = 0%N.
Proof. destruct b; [reflexivity|]. unfold blen. cbn [List.length]. lia. Qed.

(** From [spuriousDragon] on, the constructor takes no object whose [v]
    slot is seeded with a number that is neither 27, 28 nor one of the two
    values that EIP-155 gives the chain. *)
Lemma seed_refused
    (txData : jsobj) (opts : TransactionOptions) (common : Common.t) (n : N) :
  get txData "v"
    = Some (JStr (hexSequenceNormalizer (multipleOfTwoHexValueNormalizer
               (Number_toString16 n)) true)) ->
  opts = Return common ->
  Common.gteSpuriousDragon common = true ->
  (0 < n)%N -> n <> 27%N -> n <> 28%N ->
  n <> (Common.chainId common * 2 + 35)%N ->
  n <> (Common.chainId common * 2 + 36)%N ->
  exists e : Error, Tx.create txData opts = Throw e.
Proof.
  intros Hseed Hopts Hfork Hpos H27 H28 H35 H36.
  destruct (Tx.create txData opts) as [tx|e] eqn:Hcreate; [|now exists e].
  exfalso.
  pose proof (created_v_reads_the_seed _ _ _ _ Hseed Hcreate) as Hv.
  destruct (create_fields _ _ _ Hcreate) as (Hcommon & Hrest).
  repeat match type of Hrest with _ /\ _ => destruct Hrest as [_ Hrest] end.
  rewrite Hopts in Hcommon. injection Hcommon as Hcommon.
  rewrite <- Hcommon in Hrest.
  unfold Tx.validateV in Hrest.
  destruct (blen (Tx.v tx) =? 0)%N eqn:Hlen.
  - apply N.eqb_eq, bufferToInt_of_empty in Hlen. lia.
  - rewrite Hfork in Hrest. cbn [negb] in Hrest.
    unfold bufferToNumber in Hrest. rewrite Hv in Hrest.
    destruct (n <? 2 ^ 53)%N; [|discriminate].
    cbn [andThen] in Hrest.
    apply N.eqb_neq in H27, H28, H35, H36.
    rewrite H27, H28, H35, H36 in Hrest. discriminate.
Qed.

(** X23. From [spuriousDragon] on, the seeded recovery value stops the
    signing.  The unsigned transaction is made with its [v] slot seeded
    with the request's chain id.  When the chain definition of that chain
    is on a hardfork from [spuriousDragon] on, and the chain id is not 0,
    27 or 28 nor one of the two recovery values that EIP-155 gives the
    definition's chain, the constructor refuses the seed.  The Trezor
    variant, which makes the transaction before its [try], then throws the
    constructor's error as it is and sends no payload; the Ledger variant,
    which makes it inside the [try], has connected to the device by then
    and hands the error to its handler with the generic message, and the
    device is not asked to sign. *)
Theorem X23_seed_refused_from_spuriousDragon_on :
  forall (messages : Messages) (core : Core) (trezor : Trezor.Service)
         (service : LedgerService) (obj : WithDerivationPath.t)
         (validated : TransactionObjectTypeWithTo) (common : Common.t),
    transactionObjectValidator core (transactionObjectOf obj)
      = Return validated ->
    derivationPathValidator core (WithDerivationPath.derivationPath obj)
      = Return tt ->
    getChainDefinition core (chainId validated) = Return common ->
    Common.gteSpuriousDragon common = true ->
    (0 < chainId validated)%N ->
    chainId validated <> 27%N ->
    chainId validated <> 28%N ->
    chainId validated <> (Common.chainId common * 2 + 35)%N ->
    chainId validated <> (Common.chainId common * 2 + 36)%N ->
    (exists e : Error,
        Trezor.unsignedTransaction core validated = Throw e
        /\ Trezor.signTransaction messages core trezor obj = ([], Throw e))
    /\
    (forall ledger : LedgerInstanceType.t,
        ledgerConnection service = Return ledger ->
        exists e : Error,
          Ledger.unsignedTransaction core validated = Throw e
          /\ Ledger.signTransaction messages core service obj
             = ([LedgerConnection],
                handleLedgerConnectionError service e
                  (userSignTxGenericError messages ++ ": "
                   ++ objectToErrorString core
                        (Ledger.transactionObjectEntries
                           (transactionObjectOf obj))
                   ++ " " ++ message e))).
Proof.
  intros messages core trezor service obj validated common Hv Hp Hdef Hfork
    Hpos H27 H28 H35 H36.
  split.
  - destruct (seed_refused (Trezor.unsignedTransactionData core validated)
                (getChainDefinition core (chainId validated)) common
                (chainId validated) eq_refl Hdef Hfork Hpos H27 H28 H35 H36)
      as [e He].
    exists e. split; [exact He|].
    now apply (trezor_signTransaction_refused messages core trezor obj
                 validated e).
  - intros ledger Hc.
    destruct (seed_refused (Ledger.unsignedTransactionData core validated)
                (getChainDefinition core (chainId validated)) common
                (chainId validated) (ledger_unsigned_v_slot core validated)
                Hdef Hfork Hpos H27 H28 H35 H36)
      as [e He].
    exists e. split; [exact He|].
    now apply (ledger_signTransaction_refused messages core service obj
                 validated ledger e).
Qed.

Lemma X23_seed_refused_from_spuriousDragon_on_witness :
  exists e : Error,
    Trezor.unsignedTransaction (Reference.eip155 (Return true))
      (transactionObjectOf Reference.request) = Throw e
    /\ Trezor.signTransaction Reference.messages
         (Reference.eip155 (Return true))
         (Reference.trezor (Throw (new_Error "unused"))) Reference.request
       = ([], Throw e).
Proof.
  destruct (X23_seed_refused_from_spuriousDragon_on Reference.messages
              (Reference.eip155 (Return true))
              (Reference.trezor (Throw (new_Error "unused")))
              (Reference.ledger (Throw (new_Error "unused"))
                 (Throw (new_Error "unused")))
              Reference.request (transactionObjectOf Reference.request)
              (Common.mk 1 true))
    as [Htrezor _]; try reflexivity; try discriminate.
  exact Htrezor.
Defined.
